(** * pencil-structural-compare: design tree against implementation tree

    A shallow embedding of the normalisation-and-comparison pipeline
    (src/utils, src/config, src/core, src/normalizers) together with the
    properties stated for it.

    Conventions of the embedding.
    - A JavaScript [number] is an IEEE-754 binary64 value: Rocq's primitive
      [float], whose operations are the ones the JavaScript engine performs.
    - A JavaScript string is a [string] of 8-bit characters.  The embedding is
      exact on ASCII text; [toLowerCase], [trim] and the character classes of
      the regular expressions are the ASCII ones.
    - A plain object used as a dictionary, a [Map] and a [Set] are lists in
      insertion order, which is the order of [Object.keys] and of iteration
      (for an object: as long as no key is a canonical array index, which
      JavaScript would list first).  Names inherited from [Object.prototype]
      ("constructor", "toString", ...) are not modelled as keys.
    - [Math.random] is an explicit source of randomness threaded through the
      normalizers; exceptions and rejected promises are explicit results. *)

From Stdlib Require Import ZArith List String Ascii Bool Lia Floats DecimalString.
Import ListNotations.

#[local] Set Warnings "-inexact-float".

Local Open Scope string_scope.
Local Open Scope list_scope.
Local Open Scope bool_scope.

(* ================================================================= *)
(** ** JavaScript values *)

Module JS.

(** The double nearest to an integer (round to nearest, ties to even). *)
Definition num_of_Z (z : Z) : float :=
  SF2Prim (binary_normalize prec emax z 0 false).

Definition num_of_nat (n : nat) : float := num_of_Z (Z.of_nat n).

(** [Math.pow(x, 2)]. *)
Definition pow2 (x : float) : float := (x * x)%float.

Inductive JsValue : Type :=
| JUndefined
| JNull
| JBool (b : bool)
| JNum (n : float)
| JStr (s : string)
| JObj (ref : nat) (asNumber : float).
(** [JObj ref k] is any non-primitive value (array, object): [ref] is its
    identity, [k] the number it coerces to under [ToNumber]. *)

Inductive JsType : Type :=
| TUndefined | TObject | TBoolean | TNumber | TString.

Definition typeof (v : JsValue) : JsType :=
  match v with
  | JUndefined => TUndefined
  | JNull => TObject
  | JBool _ => TBoolean
  | JNum _ => TNumber
  | JStr _ => TString
  | JObj _ _ => TObject
  end.

(** [v1 === v2]. *)
Definition strict_eq (v1 v2 : JsValue) : bool :=
  match v1, v2 with
  | JUndefined, JUndefined => true
  | JNull, JNull => true
  | JBool a, JBool b => Bool.eqb a b
  | JNum a, JNum b => PrimFloat.eqb a b
  | JStr a, JStr b => String.eqb a b
  | JObj a _, JObj b _ => Nat.eqb a b
  | _, _ => false
  end.

Definition is_undefined (v : JsValue) : bool :=
  match v with JUndefined => true | _ => false end.

Definition is_nullish (v : JsValue) : bool :=
  match v with JUndefined | JNull => true | _ => false end.

(** Truthiness of a number: [0], [-0] and [NaN] are falsy. *)
Definition num_truthy (n : float) : bool :=
  negb (PrimFloat.eqb n 0%float) && negb (PrimFloat.is_nan n).

Definition str_truthy (s : string) : bool :=
  match s with EmptyString => false | _ => true end.

Definition truthy (v : JsValue) : bool :=
  match v with
  | JUndefined | JNull => false
  | JBool b => b
  | JNum n => num_truthy n
  | JStr s => str_truthy s
  | JObj _ _ => true
  end.

(** [x || 0] for an optional numeric option. *)
Definition num_or_zero (o : option float) : float :=
  match o with
  | Some n => if num_truthy n then n else 0%float
  | None => 0%float
  end.

Definition of_opt_str (o : option string) : JsValue :=
  match o with Some s => JStr s | None => JUndefined end.

(** *** Characters and strings *)

Definition ascii_between (lo hi c : ascii) : bool :=
  (nat_of_ascii lo <=? nat_of_ascii c)%nat && (nat_of_ascii c <=? nat_of_ascii hi)%nat.

Definition is_digit (c : ascii) : bool := ascii_between "0" "9" c.
Definition is_upper (c : ascii) : bool := ascii_between "A" "Z" c.
Definition is_lower (c : ascii) : bool := ascii_between "a" "z" c.
Definition is_alnum (c : ascii) : bool := is_digit c || is_upper c || is_lower c.

(** White space of [trim] and [parseInt]: TAB, LF, VT, FF, CR, SPACE. *)
Definition is_space (c : ascii) : bool :=
  let n := nat_of_ascii c in
  ((9 <=? n)%nat && (n <=? 13)%nat) || (n =? 32)%nat.

Definition lower_char (c : ascii) : ascii :=
  if is_upper c then ascii_of_nat (nat_of_ascii c + 32) else c.

Definition upper_char (c : ascii) : ascii :=
  if is_lower c then ascii_of_nat (nat_of_ascii c - 32) else c.

Fixpoint toLowerCase (s : string) : string :=
  match s with
  | EmptyString => EmptyString
  | String c r => String (lower_char c) (toLowerCase r)
  end.

Definition startsWith (s pre : string) : bool := String.prefix pre s.

Fixpoint drop_spaces (s : string) : string :=
  match s with
  | String c r => if is_space c then drop_spaces r else s
  | EmptyString => EmptyString
  end.

Definition rev_string (s : string) : string :=
  string_of_list_ascii (rev (list_ascii_of_string s)).

Definition trim (s : string) : string :=
  rev_string (drop_spaces (rev_string (drop_spaces s))).

(** Longest prefix of characters satisfying [p], and the rest. *)
Fixpoint span (p : ascii -> bool) (s : string) : string * string :=
  match s with
  | String c r =>
      if p c then let '(a, b) := span p r in (String c a, b) else (EmptyString, s)
  | EmptyString => (EmptyString, EmptyString)
  end.

Definition digit_val (c : ascii) : Z := Z.of_nat (nat_of_ascii c - 48).

Fixpoint digits_val (acc : Z) (s : string) : Z :=
  match s with
  | String c r => digits_val (10 * acc + digit_val c) r
  | EmptyString => acc
  end.

(** [parseInt(s, 10)]: leading white space, an optional sign, then the longest
    run of decimal digits; [NaN] when there is no digit. *)
Definition parseInt10 (s : string) : float :=
  let s1 := drop_spaces s in
  let '(neg, s2) :=
    match s1 with
    | String "-" r => (true, r)
    | String "+" r => (false, r)
    | _ => (false, s1)
    end in
  let '(ds, _) := span is_digit s2 in
  match ds with
  | EmptyString => nan
  | _ =>
      let m := digits_val 0 ds in
      SF2Prim (binary_normalize prec emax (if neg then (- m)%Z else m) 0 neg)
  end.

(** *** Objects used as dictionaries, and sets of strings *)

Definition Dict (V : Type) : Type := list (string * V).

(** [dict[key]]. *)
Fixpoint dict_get {V : Type} (dict : Dict V) (key : string) : option V :=
  match dict with
  | [] => None
  | (k, v) :: rest => if String.eqb k key then Some v else dict_get rest key
  end.

(** [dict[key] = v]: an existing key keeps its position. *)
Fixpoint dict_set {V : Type} (dict : Dict V) (key : string) (v : V) : Dict V :=
  match dict with
  | [] => [(key, v)]
  | (k, w) :: rest =>
      if String.eqb k key then (k, v) :: rest
      else (k, w) :: dict_set rest key v
  end.

(** [set.has(x)]. *)
Definition set_has (set : list string) (x : string) : bool :=
  existsb (String.eqb x) set.

(** [set.add(x)]. *)
Definition set_add (set : list string) (x : string) : list string :=
  if set_has set x then set else set ++ [x].

(** [new Set(xs)]: the members in insertion order. *)
Definition set_of_list (xs : list string) : list string :=
  fold_left set_add xs [].

(** [Object.keys(dict)]. *)
Definition dict_keys {V : Type} (dict : Dict V) : list string :=
  set_of_list (map fst dict).

(** [String(n)] for an array index. *)
Definition string_of_nat (n : nat) : string :=
  NilEmpty.string_of_uint (Nat.to_uint n).

End JS.

(* ================================================================= *)
(** ** src/utils/color.ts *)

Module Color.
Import JS.

Record Rgb : Type := mkRgb { r : float; g : float; b : float }.

Definition is_hex_digit (c : ascii) : bool :=
  is_digit c || ascii_between "a" "f" c || ascii_between "A" "F" c.

Definition hex_val (c : ascii) : Z :=
  if is_digit c then Z.of_nat (nat_of_ascii c - 48)
  else if ascii_between "a" "f" c then Z.of_nat (nat_of_ascii c - 87)
  else Z.of_nat (nat_of_ascii c - 55).

(** [parseInt(xy, 16)] on two hexadecimal digits. *)
Definition parse_hex_pair (x y : ascii) : float :=
  num_of_Z (16 * hex_val x + hex_val y).

(** [/^#?([a-f\d]{2})([a-f\d]{2})([a-f\d]{2})$/i.exec(hex)]. *)
Definition hexToRgb (hex : string) : option Rgb :=
  let body := match hex with String "#" rest => rest | _ => hex end in
  match list_ascii_of_string body with
  | [r1; r2; g1; g2; b1; b2] =>
      if forallb is_hex_digit [r1; r2; g1; g2; b1; b2]
      then Some (mkRgb (parse_hex_pair r1 r2) (parse_hex_pair g1 g2) (parse_hex_pair b1 b2))
      else None
  | _ => None
  end.

(** Euclidean distance of two parsed colours. *)
Definition rgbDistance (c1 c2 : Rgb) : float :=
  PrimFloat.sqrt (pow2 (r c1 - r c2) + pow2 (g c1 - g c2) + pow2 (b c1 - b c2))%float.

Definition colorDistance (color1 color2 : string) : float :=
  match hexToRgb color1, hexToRgb color2 with
  | Some rgb1, Some rgb2 => rgbDistance rgb1 rgb2
  | _, _ =>
      if String.eqb color1 color2 then 0%float
      else (255 * PrimFloat.sqrt 3)%float
  end.

Definition colorsEqual (color1 color2 : string) (tolerance : float) : bool :=
  if String.eqb color1 color2 then true
  else if (0 <? tolerance)%float then (colorDistance color1 color2 <=? tolerance)%float
  else false.

(** *** [rgbToHex] *)

(** [x] is the negative zero. *)
Definition is_neg_zero (x : float) : bool :=
  PrimFloat.eqb x 0%float && (1 / x <? 0)%float.

(** [Math.min(a, b)]: [NaN] if either is; [-0] is below [+0]. *)
Definition mathMin (a b : float) : float :=
  if PrimFloat.is_nan a || PrimFloat.is_nan b then nan
  else if (b <? a)%float then b
  else if (a <? b)%float then a
  else if is_neg_zero a then a else b.

(** [Math.max(a, b)]: [NaN] if either is; [+0] is above [-0]. *)
Definition mathMax (a b : float) : float :=
  if PrimFloat.is_nan a || PrimFloat.is_nan b then nan
  else if (a <? b)%float then b
  else if (b <? a)%float then a
  else if is_neg_zero a then b else a.

(** [Math.round(x)] of a finite [x], as an integer: the integer nearest to
    [x], the larger one on a tie.  Computed on the mantissa and exponent of
    [x], so that no rounding of [x + 0.5] interferes. *)
Definition mathRoundZ (x : float) : Z :=
  match Prim2SF x with
  | S754_finite s m e =>
      let sm := if s then Z.neg m else Z.pos m in
      if (0 <=? e)%Z then (sm * 2 ^ e)%Z
      else ((2 * sm + 2 ^ (- e)) / 2 ^ (- e + 1))%Z
  | _ => 0%Z
  end.

Definition hex_digit (d : nat) : ascii :=
  if (d <? 10)%nat then ascii_of_nat (48 + d) else ascii_of_nat (87 + d).

(** [n.toString(16)] for a non-negative integer [n]. *)
Fixpoint hex_of_nat (fuel n : nat) : string :=
  match fuel with
  | O => EmptyString
  | S fuel' =>
      if (n <? 16)%nat then String (hex_digit n) EmptyString
      else (hex_of_nat fuel' (n / 16) ++ String (hex_digit (n mod 16)) EmptyString)%string
  end.

(** The inner [toHex] of [rgbToHex]:
    [Math.round(Math.max(0, Math.min(255, n))).toString(16)], padded to two
    digits.  The clamped value is [NaN] or lies between 0 and 255, so its
    rounding is [NaN] or one of the integers 0 to 255. *)
Definition toHex (n : float) : string :=
  let clamped := mathMax 0 (mathMin 255 n) in
  let hex :=
    if PrimFloat.is_nan clamped then "NaN"
    else let k := Z.to_nat (mathRoundZ clamped) in hex_of_nat (S k) k in
  if (String.length hex =? 1)%nat then ("0" ++ hex)%string else hex.

Definition rgbToHex (red green blue : float) : string :=
  ("#" ++ toHex red ++ toHex green ++ toHex blue)%string.

(** *** Brightness *)

Definition isLightColor (hex : string) : bool :=
  match hexToRgb hex with
  | None => false
  | Some rgb =>
      let brightness := ((r rgb * 299 + g rgb * 587 + b rgb * 114) / 1000)%float in
      (128 <? brightness)%float
  end.

Definition isDarkColor (hex : string) : bool := negb (isLightColor hex).

End Color.

(* ================================================================= *)
(** ** src/utils/format.ts *)

Module Format.
Import JS.

(** The double nearest to the non-negative rational [m / d]: the quotient is
    taken with more than 64 significant bits and a sticky last bit, then
    rounded once. *)
Definition float_of_ratio (m d : Z) : float :=
  if (m =? 0)%Z then 0%float
  else
    let s := Z.max 0 (64 + Z.log2 d - Z.log2 m) in
    let n := (m * 2 ^ s)%Z in
    let sticky := if (n mod d =? 0)%Z then 0%Z else 1%Z in
    SF2Prim (binary_normalize prec emax (2 * (n / d) + sticky) (- (s + 1)) false).

(** [parseFloat] on a string of digits and dots (the first capture group of
    [convertCSSValue]): the longest prefix [digits [. digits]] or [. digits]. *)
Definition parseFloatDigits (s : string) : float :=
  let '(ip, rest) := span is_digit s in
  let fp := match rest with
            | String "." r => fst (span is_digit r)
            | _ => EmptyString
            end in
  match ip, fp with
  | EmptyString, EmptyString => nan
  | _, _ => float_of_ratio (digits_val 0 (ip ++ fp)) (10 ^ Z.of_nat (String.length fp))
  end.

(** [value.match(/^([\d.]+)(px|rem|em|%)?$/)]: numbers without unit or in
    [px] become numbers, anything else stays a string. *)
Definition convertCSSValue (value : string) : JsValue :=
  let '(num, unit) := span (fun c => is_digit c || Ascii.eqb c ".") value in
  match num with
  | EmptyString => JStr value
  | _ =>
      (* no unit or px: the number; rem, em, % and unmatched input: the string *)
      if String.eqb unit "" || String.eqb unit "px" then JNum (parseFloatDigits num)
      else JStr value
  end.

(** The [fontWeight] branch of [valuesEqual]: ["normal"] becomes [400], other
    strings go through [parseInt(_, 10)]. *)
Definition fontWeightNorm (v : JsValue) : JsValue :=
  if strict_eq v (JStr "normal") then JNum 400%float else v.

Definition fontWeightNum (v : JsValue) : JsValue :=
  match fontWeightNorm v with
  | JStr s => JNum (parseInt10 s)
  | w => w
  end.

(** The global [isNaN], which coerces its argument with [ToNumber].  The
    coercion of a string is not modelled: [valuesEqual] applies [isNaN] to
    results of [fontWeightNum] only, which are never strings. *)
Definition isNaN (v : JsValue) : bool :=
  match v with
  | JUndefined => true
  | JNull => false
  | JBool _ => false
  | JNum n => PrimFloat.is_nan n
  | JStr _ => true
  | JObj _ k => PrimFloat.is_nan k
  end.

Definition valuesEqual (val1 val2 : JsValue) (tolerance : float)
    (property : option string) : bool :=
  if is_nullish val1 then is_nullish val2
  else if is_nullish val2 then false
  else if strict_eq val1 val2 then true
  else
    let fontWeightVerdict :=
      match property with
      | Some "fontWeight" =>
          let num1 := fontWeightNum val1 in
          let num2 := fontWeightNum val2 in
          if negb (isNaN num1) && negb (isNaN num2)
          then Some (strict_eq num1 num2)
          else None
      | _ => None
      end in
    match fontWeightVerdict with
    | Some verdict => verdict
    | None =>
        match val1, val2 with
        | JNum a, JNum b => (PrimFloat.abs (a - b) <=? tolerance)%float
        | JStr a, JStr b => String.eqb (toLowerCase a) (toLowerCase b)
        | _, _ => false
        end
    end.

(** [Math.random().toString(36).substring(2, 9)] is a draw from the
    environment: the source of randomness is an explicit tape of suffixes and
    the number of draws made so far. *)
Record Rng : Type := mkRng { tape : nat -> string; drawn : nat }.

Definition generateId (prefix : string) (rng : Rng) : string * Rng :=
  ((prefix ++ "_" ++ tape rng (drawn rng))%string, mkRng (tape rng) (S (drawn rng))).

(** [str.replace(/-([a-z])/g, (_, char) => char.toUpperCase())]. *)
Fixpoint camelCase (str : string) : string :=
  match str with
  | EmptyString => EmptyString
  | String c rest =>
      match rest with
      | String d rest' =>
          if Ascii.eqb c "-" && is_lower d
          then String (upper_char d) (camelCase rest')
          else String c (camelCase rest)
      | EmptyString => String c EmptyString
      end
  end.

(** [str.replace(/([a-z])([A-Z])/g, (_, g1, g2) => `${g1}-${g2.toLowerCase()}`)]. *)
Fixpoint kebabCase (str : string) : string :=
  match str with
  | EmptyString => EmptyString
  | String c rest =>
      match rest with
      | String d rest' =>
          if is_lower c && is_upper d
          then String c (String "-" (String (lower_char d) (kebabCase rest')))
          else String c (kebabCase rest)
      | EmptyString => String c EmptyString
      end
  end.

End Format.

(* ================================================================= *)
(** ** src/types.ts *)

Module Types.
Import JS.

Inductive ElementType : Type :=
| text | container | button | image | icon | input.

Definition ElementType_eqb (a b : ElementType) : bool :=
  match a, b with
  | text, text | container, container | button, button
  | image, image | icon, icon | input, input => true
  | _, _ => false
  end.

(** [StyleProperties]: an open map from property name to value. *)
Definition StyleProperties : Type := Dict JsValue.

(** [styles[prop]]: [undefined] for an absent key. *)
Definition style_get (styles : StyleProperties) (prop : string) : JsValue :=
  match dict_get styles prop with
  | Some v => v
  | None => JUndefined
  end.

Definition style_set (styles : StyleProperties) (prop : string) (v : JsValue)
  : StyleProperties := dict_set styles prop v.

(** [Object.assign(target, source)]. *)
Definition style_assign (target source : StyleProperties) : StyleProperties :=
  fold_left (fun acc prop => style_set acc prop (style_get source prop))
            (dict_keys source) target.

Inductive LayoutType : Type := flex | grid | stack | absolute.
Inductive Direction : Type := row | column.

Record LayoutProperties : Type := mkLayout {
  layoutType : option LayoutType;
  direction : option Direction;
  justifyContent : option string;
  alignItems : option string
}.

Inductive Source : Type := pencil | code.

(** [ElementMetadata]; the back-reference [originalNode] is not kept. *)
Record ElementMetadata : Type := mkMetadata {
  source : Source;
  originalId : option string;
  isIndependentComponent : option bool;
  codeComponentName : option string;
  pencilComponentName : option string
}.

#[local] Unset Elimination Schemes.
Inductive StandardElement : Type :=
  mkElement {
    id : string;
    type : ElementType;
    path : string;
    content : option string;
    styles : StyleProperties;
    layout : option LayoutProperties;
    children : option (list StandardElement);
    metadata : option ElementMetadata
  }.
#[local] Set Elimination Schemes.

Inductive Severity : Type := strict | normal | lenient.

Record ComparisonOptions : Type := mkOptions {
  tolerance : option float;
  colorTolerance : option float;
  ignoreProperties : option (list string);
  severity : option Severity
}.

Inductive MatchMethod : Type := contentMethod.

Record ElementMatch : Type := mkMatch {
  matchPath : string;
  matchPencil : StandardElement;
  matchCode : StandardElement;
  confidence : float;
  propertiesMatch : list (string * bool);
  matchMethod : option MatchMethod
}.

Inductive DiffType : Type := missing | extra | mismatch.
Inductive DiffSeverity : Type := error | warning | info.

Definition DiffSeverity_eqb (a b : DiffSeverity) : bool :=
  match a, b with
  | error, error | warning, warning | info, info => true
  | _, _ => false
  end.

Record ElementDiff : Type := mkElementDiff {
  diffPath : string;
  element : StandardElement;
  diffType : DiffType;
  diffSeverity : DiffSeverity;
  reason : string;
  suggestion : option string
}.

Record StyleDiff : Type := mkStyleDiff {
  stylePath : string;
  property : string;
  pencilValue : JsValue;
  codeValue : JsValue;
  diff : option float;
  styleSeverity : DiffSeverity
}.

(** ['pass' | 'warning' | 'fail']; [warn] is the status ['warning']. *)
Inductive Status : Type := pass | warn | fail.

Record ComparisonSummary : Type := mkSummary {
  totalElements : nat;
  matchedElements : nat;
  missingElements : nat;
  extraElements : nat;
  styleDiffsCount : nat;
  matchRate : float;
  status : Status
}.

(** [ComparisonResult]; [meta] (time stamp and echoed options) is not kept. *)
Record ComparisonResult : Type := mkResult {
  matches : list ElementMatch;
  missingInCode : list ElementDiff;
  extraInCode : list ElementDiff;
  styleDiffs : list StyleDiff;
  summary : ComparisonSummary
}.

End Types.

(* ================================================================= *)
(** ** src/core/element.ts *)

Module Element.
Import JS Types.

Definition propertiesToCompare : list string :=
  ["content"; "fontSize"; "fontWeight"; "color"; "backgroundColor";
   "padding"; "gap"; "borderRadius"].

(** [new Set(options.ignoreProperties || []).has(prop)]. *)
Definition ignored (options : ComparisonOptions) (prop : string) : bool :=
  match ignoreProperties options with
  | Some props => existsb (String.eqb prop) props
  | None => false
  end.

(** The value of [prop] on an element: [content] is a field of the element,
    every other property lives in [styles]. *)
Definition propertyValue (el : StandardElement) (prop : string) : JsValue :=
  if String.eqb prop "content" then of_opt_str (content el)
  else style_get (styles el) prop.

Definition compareProperty (property : string) (pencilValue codeValue : JsValue)
    (options : ComparisonOptions) : bool :=
  if is_undefined pencilValue && is_undefined codeValue then true
  else if is_undefined pencilValue || is_undefined codeValue then false
  else if strict_eq pencilValue codeValue then true
  else
    let tolerance := num_or_zero (tolerance options) in
    match pencilValue, codeValue with
    | JNum a, JNum b => (PrimFloat.abs (a - b) <=? tolerance)%float
    | JStr s1, JStr s2 =>
        if (String.eqb property "color" || String.eqb property "backgroundColor")
           && startsWith s1 "#" && startsWith s2 "#"
        then
          match Color.hexToRgb s1, Color.hexToRgb s2 with
          | Some rgb1, Some rgb2 =>
              let distance := Color.rgbDistance rgb1 rgb2 in
              let colorTolerance := num_or_zero (colorTolerance options) in
              (distance <=? colorTolerance)%float
          | _, _ => false
          end
        else false
    | _, _ => false
    end.

(** The accumulators of the loop of [compareElements]. *)
Record Tally : Type := mkTally {
  tallyMatch : list (string * bool);
  matchCount : nat;
  totalCount : nat
}.

Definition tallyStep (pencilEl codeEl : StandardElement) (options : ComparisonOptions)
    (acc : Tally) (prop : string) : Tally :=
  if ignored options prop then acc
  else
    let pencilValue := propertyValue pencilEl prop in
    let codeValue := propertyValue codeEl prop in
    if is_undefined pencilValue && is_undefined codeValue then acc
    else
      let isMatch := compareProperty prop pencilValue codeValue options in
      mkTally (tallyMatch acc ++ [(prop, isMatch)])
              (if isMatch then S (matchCount acc) else matchCount acc)
              (S (totalCount acc)).

Definition compareElements (pencilEl codeEl : StandardElement)
    (options : ComparisonOptions) : ElementMatch :=
  let t := fold_left (tallyStep pencilEl codeEl options) propertiesToCompare
                     (mkTally [] 0 0) in
  let confidence :=
    if (0 <? totalCount t)%nat
    then (num_of_nat (matchCount t) / num_of_nat (totalCount t))%float
    else 1%float in
  mkMatch (path pencilEl) pencilEl codeEl confidence (tallyMatch t) None.

End Element.

(* ================================================================= *)
(** ** src/core/style.ts *)

Module Style.
Import JS Types.

Definition CRITICAL_PROPERTIES : list string :=
  ["content"; "fontSize"; "fontWeight"; "color"; "backgroundColor"; "padding"; "gap"].

Definition compareProperty (property : string) (pencilValue codeValue : JsValue)
    (tolerance colorTolerance : float) : bool :=
  match
    (if String.eqb property "color" || String.eqb property "backgroundColor"
     then match pencilValue, codeValue with
          | JStr s1, JStr s2 => Some (Color.colorsEqual s1 s2 colorTolerance)
          | _, _ => None
          end
     else None)
  with
  | Some verdict => verdict
  | None => Format.valuesEqual pencilValue codeValue tolerance (Some property)
  end.

Definition getSeverity (property : string) (options : ComparisonOptions)
  : DiffSeverity :=
  match severity options with
  | Some strict => error
  | Some lenient => info
  | _ =>
      if existsb (String.eqb property) CRITICAL_PROPERTIES then error else warning
  end.

Definition calculateDiff (pencilValue codeValue : JsValue) : option float :=
  match pencilValue, codeValue with
  | JNum a, JNum b => Some (PrimFloat.abs (a - b))%float
  | JStr s1, JStr s2 =>
      if startsWith s1 "#" && startsWith s2 "#" then
        match Color.hexToRgb s1, Color.hexToRgb s2 with
        | Some rgb1, Some rgb2 => Some (Color.rgbDistance rgb1 rgb2)
        | _, _ => None
        end
      else None
  | _, _ => None
  end.

Definition ignored (options : ComparisonOptions) (prop : string) : bool :=
  match ignoreProperties options with
  | Some props => existsb (String.eqb prop) props
  | None => false
  end.

(** [pencil.content !== code.content] on optional strings. *)
Definition content_differs (a b : option string) : bool :=
  negb (strict_eq (of_opt_str a) (of_opt_str b)).

Definition compareStyles (pencilEl codeEl : StandardElement)
    (options : ComparisonOptions) (elementPath : string) : list StyleDiff :=
  let tolerance := num_or_zero (tolerance options) in
  let colorTolerance := num_or_zero (colorTolerance options) in
  let contentDiffs :=
    if negb (ignored options "content")
       && content_differs (content pencilEl) (content codeEl)
    then [mkStyleDiff elementPath "content"
            (of_opt_str (content pencilEl)) (of_opt_str (content codeEl))
            None error]
    else [] in
  let pencilStyles := styles pencilEl in
  let codeStyles := styles codeEl in
  let allProps := set_of_list (dict_keys pencilStyles ++ dict_keys codeStyles) in
  fold_left
    (fun diffs prop =>
       if ignored options prop then diffs
       else
         let pencilValue := style_get pencilStyles prop in
         let codeValue := style_get codeStyles prop in
         if compareProperty prop pencilValue codeValue tolerance colorTolerance
         then diffs
         else diffs ++ [mkStyleDiff elementPath prop pencilValue codeValue
                          (calculateDiff pencilValue codeValue)
                          (getSeverity prop options)])
    allProps contentDiffs.

End Style.

(* ================================================================= *)
(** ** src/utils/path.ts *)

Module Path.
Import JS Types.

Definition PATH_SEPARATOR : string := " > ".

Definition buildPath (parentPath name : string) (index : nat) : string :=
  if negb (str_truthy parentPath) then name
  else (parentPath ++ PATH_SEPARATOR ++ name ++ "[" ++ string_of_nat index ++ "]")%string.

(** [s.split(sep)] for a non-empty separator.  [skip] counts the characters
    of a separator occurrence still to be passed over; [cur] is the current
    piece, reversed. *)
Fixpoint split_go (sep s : string) (skip : nat) (cur : list ascii) : list string :=
  match s with
  | EmptyString => [string_of_list_ascii (rev cur)]
  | String c rest =>
      match skip with
      | S k => split_go sep rest k cur
      | O =>
          if String.prefix sep s
          then string_of_list_ascii (rev cur)
                 :: split_go sep rest (String.length sep - 1) []
          else split_go sep rest 0 (c :: cur)
      end
  end.

Definition split (s sep : string) : list string := split_go sep s 0 [].

(** [pathPart.substring(0, pathPart.indexOf('['))], or the whole part when it
    has no bracket. *)
Definition extractName (pathPart : string) : string :=
  fst (span (fun c => negb (Ascii.eqb c "[")) pathPart).

Definition extractAllNames (path : string) : list string :=
  map extractName (split path " > ").

Definition arePathsEquivalentByName (pencilPath codePath : string)
    (nameMapping : option (string -> string)) : bool :=
  if String.eqb pencilPath codePath then true
  else
    let pencilParts := split pencilPath " > " in
    let codeParts := split codePath " > " in
    let pencilRootName := extractName (hd "" pencilParts) in
    let codeRootName := extractName (hd "" codeParts) in
    if negb (String.eqb pencilRootName codeRootName) then false
    else
      let pencilLastName := extractName (last pencilParts "") in
      let codeLastName := extractName (last codeParts "") in
      let mappedPencilName :=
        match nameMapping with
        | Some f => f pencilLastName
        | None => pencilLastName
        end in
      String.eqb mappedPencilName codeLastName.

(** [Record<string, StandardElement>] keyed by path. *)
Definition PathIndex : Type := Dict StandardElement.

(** The inner [addElement] of [indexByPath]: the element, then its children
    in order. *)
Fixpoint addElement (el : StandardElement) (index : PathIndex) : PathIndex :=
  let index1 := dict_set index (path el) el in
  match children el with
  | Some cs => fold_left (fun acc child => addElement child acc) cs index1
  | None => index1
  end.

Definition indexByPath (elements : list StandardElement) : PathIndex :=
  fold_left (fun acc el => addElement el acc) elements [].

(** [s.lastIndexOf(sep)]: the scan keeps the last position at which [sep]
    starts; [i] is the position of [s] in the whole string. *)
Fixpoint lastIndexOf_from (sep s : string) (i : nat) (found : option nat)
  : option nat :=
  let found' := if String.prefix sep s then Some i else found in
  match s with
  | EmptyString => found'
  | String _ rest => lastIndexOf_from sep rest (S i) found'
  end.

Definition lastIndexOf (s sep : string) : option nat :=
  lastIndexOf_from sep s 0 None.

(** [s.substring(start, end)]: the arguments are swapped when
    [start > end]. *)
Definition substring (s : string) (start finish : nat) : string :=
  let lo := Nat.min start finish in
  let hi := Nat.max start finish in
  String.substring lo (hi - lo) s.

Definition getParentPath (path : string) : string :=
  match lastIndexOf path PATH_SEPARATOR with
  | None => ""
  | Some lastSeparator => substring path 0 lastSeparator
  end.

Definition getNameFromPath (path : string) : string :=
  let start :=
    match lastIndexOf path PATH_SEPARATOR with
    | None => 0
    | Some lastSeparator => lastSeparator + String.length PATH_SEPARATOR
    end in
  let finish :=
    match lastIndexOf path "[" with
    | None => String.length path
    | Some lastBracket => lastBracket
    end in
  substring path start finish.

Definition getPathDepth (path : string) : nat :=
  List.length (split path PATH_SEPARATOR).

End Path.

(* ================================================================= *)
(** ** src/config/name-mapping.ts *)

Module NameMapping.
Import JS.

Definition PENCIL_TO_CODE_NAME : Dict string :=
  [("settingsButton", "SettingsDropdown");
   ("settingsIndicator", "SettingsDropdown");
   ("settingsIndicatorContainer", "SettingsDropdown");
   ("welcomeMsg", "welcomeMessage")].

(** The reversed table, built by a reduction in which a later entry
    overwrites an earlier one with the same code name. *)
Definition CODE_TO_PENCIL_NAME : Dict string :=
  fold_left (fun acc entry => dict_set acc (snd entry) (fst entry))
            PENCIL_TO_CODE_NAME [].

Definition CODE_CLASS_TO_PENCIL_NAME : Dict string :=
  [("welcomeMessage", "welcomeMsg")].

(** [table[name] || name]. *)
Definition lookup_or_self (table : Dict string) (name : string) : string :=
  match dict_get table name with
  | Some mapped => if str_truthy mapped then mapped else name
  | None => name
  end.

Definition mapPencilNameToCode (pencilName : string) : string :=
  lookup_or_self PENCIL_TO_CODE_NAME pencilName.

Definition mapCodeNameToPencil (codeName : string) : string :=
  lookup_or_self CODE_TO_PENCIL_NAME codeName.

Definition areNamesEquivalent (pencilName codeName : string) : bool :=
  if String.eqb pencilName codeName then true
  else if String.eqb (mapPencilNameToCode pencilName) codeName then true
  else if String.eqb (mapCodeNameToPencil codeName) pencilName then true
  else false.

Definition matchByPrefix (name pre : string) : bool :=
  startsWith name pre && (String.length pre <? String.length name)%nat.

(** [name.replace(/\d+$/, '')]: the name without its trailing digits. *)
Definition stripNumericSuffix (name : string) : string :=
  rev_string (snd (span is_digit (rev_string name))).

End NameMapping.

(* ================================================================= *)
(** ** src/config/independent-components.ts *)

Module IndependentComponents.
Import JS.

Definition INDEPENDENT_COMPONENT_MAPPING : Dict string :=
  [("settingsButton", "SettingsDropdown");
   ("settingsIndicator", "SettingsDropdown");
   ("settingsIndicatorContainer", "SettingsDropdown");
   ("headerActions", "SettingsDropdown")].

Definition getIndependentComponentCodeName (pencilName : string) : option string :=
  dict_get INDEPENDENT_COMPONENT_MAPPING pencilName.

Definition isIndependentComponent (pencilName : string) : bool :=
  match dict_get INDEPENDENT_COMPONENT_MAPPING pencilName with
  | Some _ => true
  | None => false
  end.

End IndependentComponents.

(* ================================================================= *)
(** ** src/core/compare.ts *)

Module Compare.
Import JS Types.

(** [Map<string, StandardElement[]>] keyed by trimmed, lower-cased content. *)
Definition ContentIndex : Type := Dict (list StandardElement).

(** [el.content && el.content.trim()]. *)
Definition hasContent (el : StandardElement) : bool :=
  match content el with
  | Some c => str_truthy c && str_truthy (trim c)
  | None => false
  end.

Definition contentKey (el : StandardElement) : string :=
  match content el with
  | Some c => toLowerCase (trim c)
  | None => ""
  end.

(** The inner [addElement] of [indexByContent]. *)
Fixpoint addElement (el : StandardElement) (index : ContentIndex) : ContentIndex :=
  let index1 :=
    if hasContent el then
      let key := contentKey el in
      match dict_get index key with
      | Some bucket => dict_set index key (bucket ++ [el])
      | None => dict_set index key [el]
      end
    else index in
  match children el with
  | Some cs => fold_left (fun acc child => addElement child acc) cs index1
  | None => index1
  end.

Definition indexByContent (elements : list StandardElement) : ContentIndex :=
  fold_left (fun acc el => addElement el acc) elements [].

Definition findMatchByContent (target : StandardElement)
    (contentIndex : ContentIndex) (matchedIds : list string)
  : option StandardElement :=
  if negb (hasContent target) then None
  else
    match dict_get contentIndex (contentKey target) with
    | None => None
    | Some candidates =>
        match find (fun candidate =>
                      negb (set_has matchedIds (id candidate))
                      && ElementType_eqb (type candidate) (type target))
                   candidates with
        | Some candidate => Some candidate
        | None =>
            find (fun candidate => negb (set_has matchedIds (id candidate)))
                 candidates
        end
    end.

Definition quote : string := String (ascii_of_nat 34) EmptyString.

(** [parts.join(' ')]. *)
Fixpoint join_space (parts : list string) : string :=
  match parts with
  | [] => ""
  | [p] => p
  | p :: rest => (p ++ " " ++ join_space rest)%string
  end.

Definition generateSuggestion (el : StandardElement) : string :=
  let contentPart :=
    match content el with
    | Some c => if str_truthy c then [(quote ++ c ++ quote)%string] else []
    | None => []
    end in
  let typePart :=
    match type el with
    | text => ["텍스트 요소"]
    | button => ["버튼"]
    | container => ["컨테이너"]
    | _ => []
    end in
  ("추가: " ++ join_space (contentPart ++ typePart))%string.

(** The name-mapping pass: for each design path, the implementation path it
    is aligned with (itself when present on both sides, else the first
    implementation path that is equivalent by name). *)
Definition alignPath (codeByPath : Path.PathIndex) (pathMatches : Dict string)
    (pencilPath : string) : Dict string :=
  match dict_get codeByPath pencilPath with
  | Some _ => dict_set pathMatches pencilPath pencilPath
  | None =>
      match find (fun codePath =>
                    Path.arePathsEquivalentByName pencilPath codePath
                      (Some NameMapping.mapPencilNameToCode))
                 (dict_keys codeByPath) with
      | Some codePath => dict_set pathMatches pencilPath codePath
      | None => pathMatches
      end
  end.

(** What the main loop of [compareStructures] accumulates. *)
Record Run : Type := mkRun {
  runMatches : list ElementMatch;
  runMissing : list ElementDiff;
  runExtra : list ElementDiff;
  runStyleDiffs : list StyleDiff;
  matchedPencilIds : list string;
  matchedCodeIds : list string
}.

Definition contentMatch (atPath : string) (pencilEl codeEl : StandardElement)
  : ElementMatch :=
  mkMatch atPath pencilEl codeEl 0.7%float [("content", true)] (Some contentMethod).

(** One iteration of the loop over [allPaths]. *)
Definition classifyPath (options : ComparisonOptions)
    (pencilByPath codeByPath : Path.PathIndex)
    (pencilByContent codeByContent : ContentIndex)
    (pathMatches : Dict string) (run : Run) (path : string) : Run :=
  let actualCodePath :=
    match dict_get pathMatches path with
    | Some p => if str_truthy p then p else path
    | None => path
    end in
  match dict_get pencilByPath path, dict_get codeByPath actualCodePath with
  | Some pencilEl, None =>
      let missingRun :=
        mkRun (runMatches run)
              (runMissing run ++
                 [mkElementDiff path pencilEl missing error
                    "Pencil에 있지만 코드에 없음"
                    (Some (generateSuggestion pencilEl))])
              (runExtra run) (runStyleDiffs run)
              (matchedPencilIds run) (matchedCodeIds run) in
      if hasContent pencilEl then
        match findMatchByContent pencilEl codeByContent (matchedCodeIds run) with
        | Some found =>
            mkRun (runMatches run ++ [contentMatch (Types.path pencilEl) pencilEl found])
                  (runMissing run) (runExtra run) (runStyleDiffs run)
                  (set_add (matchedPencilIds run) (id pencilEl))
                  (set_add (matchedCodeIds run) (id found))
        | None => missingRun
        end
      else missingRun
  | None, Some codeEl =>
      let extraRun :=
        mkRun (runMatches run) (runMissing run)
              (runExtra run ++
                 [mkElementDiff path codeEl extra
                    (match severity options with
                     | Some strict => error
                     | _ => warning
                     end)
                    "코드에 있지만 Pencil에 없음"
                    None])
              (runStyleDiffs run)
              (matchedPencilIds run) (matchedCodeIds run) in
      if hasContent codeEl then
        match findMatchByContent codeEl pencilByContent (matchedPencilIds run) with
        | Some found =>
            mkRun (runMatches run ++ [contentMatch (Types.path codeEl) found codeEl])
                  (runMissing run) (runExtra run) (runStyleDiffs run)
                  (set_add (matchedPencilIds run) (id found))
                  (set_add (matchedCodeIds run) (id codeEl))
        | None => extraRun
        end
      else extraRun
  | Some pencilEl, Some codeEl =>
      mkRun (runMatches run ++ [Element.compareElements pencilEl codeEl options])
            (runMissing run) (runExtra run)
            (runStyleDiffs run ++ Style.compareStyles pencilEl codeEl options path)
            (set_add (matchedPencilIds run) (id pencilEl))
            (set_add (matchedCodeIds run) (id codeEl))
  | None, None => run
  end.

Definition calculateSummary (matches : list ElementMatch)
    (missingInCode extraInCode : list ElementDiff) (styleDiffs : list StyleDiff)
  : ComparisonSummary :=
  let totalElements :=
    (List.length matches + List.length missingInCode + List.length extraInCode)%nat in
  let matchedElements :=
    List.length (filter (fun m => (0.5 <=? confidence m)%float) matches) in
  let missingElements :=
    List.length (filter (fun d => DiffSeverity_eqb (diffSeverity d) error) missingInCode) in
  let extraElements :=
    List.length (filter (fun d => DiffSeverity_eqb (diffSeverity d) error) extraInCode) in
  let styleDiffsCount :=
    List.length (filter (fun d => DiffSeverity_eqb (styleSeverity d) error) styleDiffs) in
  let matchRate :=
    if (0 <? totalElements)%nat
    then (num_of_nat matchedElements / num_of_nat totalElements * 100)%float
    else 100%float in
  let status :=
    if (0 <? missingElements)%nat || (0 <? styleDiffsCount)%nat then fail
    else if (0 <? extraElements)%nat then fail
    else if (0 <? List.length extraInCode)%nat then warn
    else pass in
  mkSummary totalElements matchedElements missingElements extraElements
            styleDiffsCount matchRate status.

Definition compareStructures (pencilElements codeElements : list StandardElement)
    (options : ComparisonOptions) : ComparisonResult :=
  let pencilByPath := Path.indexByPath pencilElements in
  let codeByPath := Path.indexByPath codeElements in
  let allPaths := set_of_list (dict_keys pencilByPath ++ dict_keys codeByPath) in
  let pencilByContent := indexByContent pencilElements in
  let codeByContent := indexByContent codeElements in
  let pathMatches := fold_left (alignPath codeByPath) (dict_keys pencilByPath) [] in
  let run :=
    fold_left
      (classifyPath options pencilByPath codeByPath pencilByContent codeByContent
                    pathMatches)
      allPaths (mkRun [] [] [] [] [] []) in
  mkResult (runMatches run) (runMissing run) (runExtra run) (runStyleDiffs run)
           (calculateSummary (runMatches run) (runMissing run) (runExtra run)
                             (runStyleDiffs run)).

End Compare.

(* ================================================================= *)
(** ** src/normalizers/pencil.ts *)

Module Pencil.
Import JS Types Format.

(** [stroke]: colours are strings when present. *)
Record Stroke : Type := mkStroke {
  strokeFill : option string;
  thickness : JsValue
}.

(** [PencilNode]: the fields typed [any] are values; [fill] is a colour
    string when present. *)
#[local] Unset Elimination Schemes.
Inductive PencilNode : Type :=
  mkPencilNode {
    nodeId : option string;
    nodeType : string;
    name : option string;
    nodeContent : option string;
    fontSize : JsValue;
    fontWeight : JsValue;
    fill : option string;
    stroke : option Stroke;
    padding : JsValue;
    gap : JsValue;
    borderRadius : JsValue;
    cornerRadius : JsValue;
    width : JsValue;
    height : JsValue;
    nodeLayout : option string;
    nodeJustifyContent : option string;
    nodeAlignItems : option string;
    nodeChildren : option (list PencilNode)
  }.
#[local] Set Elimination Schemes.

Record PencilFrame : Type := mkPencilFrame {
  frameId : string;
  frameType : string;
  frameName : string;
  frameFill : option string;
  frameCornerRadius : JsValue;
  frameGap : JsValue;
  framePadding : JsValue;
  frameChildren : option (list PencilNode)
}.

Definition mapPencilTypeToStandard (pencilType : string) : ElementType :=
  match dict_get
          [("text", text); ("frame", container); ("rectangle", container);
           ("ellipse", container); ("group", container); ("line", container);
           ("path", container); ("icon_font", icon); ("image", image);
           ("connection", container); ("note", container); ("ref", container)]
          pencilType with
  | Some t => t
  | None => container
  end.

Definition string_drop (n : nat) (s : string) : string :=
  String.substring n (String.length s - n) s.

(** [s] without the prefix [pre], when it starts with it. *)
Definition expect (pre s : string) : option string :=
  if String.prefix pre s then Some (string_drop (String.length pre) s) else None.

(** A non-empty greedy run of characters satisfying [p]. *)
Definition run1 (p : ascii -> bool) (s : string) : option (string * string) :=
  match span p s with
  | (EmptyString, _) => None
  | (taken, rest) => Some (taken, rest)
  end.

Definition bind {A B : Type} (o : option A) (k : A -> option B) : option B :=
  match o with Some a => k a | None => None end.

(** The fourth capture of [/rgba?\((\d+),\s*(\d+),\s*(\d+),\s*([\d.]+)\)/]
    matched at the start of [s]. *)
Definition rgbaAlphaAt (s : string) : option string :=
  bind (expect "rgb" s) (fun s0 =>
  let s1 := match s0 with String "a" rest => rest | _ => s0 end in
  bind (expect "(" s1) (fun s2 =>
  bind (run1 is_digit s2) (fun '(_, s3) =>
  bind (expect "," s3) (fun s4 =>
  bind (run1 is_digit (drop_spaces s4)) (fun '(_, s5) =>
  bind (expect "," s5) (fun s6 =>
  bind (run1 is_digit (drop_spaces s6)) (fun '(_, s7) =>
  bind (expect "," s7) (fun s8 =>
  bind (run1 (fun c => is_digit c || Ascii.eqb c ".") (drop_spaces s8))
       (fun '(alpha, s9) =>
  bind (expect ")" s9) (fun _ => Some alpha)))))))))).

(** The same capture for the leftmost match anywhere in [s]. *)
Fixpoint rgbaAlpha (s : string) : option string :=
  match rgbaAlphaAt s with
  | Some alpha => Some alpha
  | None =>
      match s with
      | String _ rest => rgbaAlpha rest
      | EmptyString => None
      end
  end.

(** [s.includes(sub)]. *)
Fixpoint includes (s sub : string) : bool :=
  String.prefix sub s
  || match s with
     | String _ rest => includes rest sub
     | EmptyString => false
     end.

Definition isInvisibleStroke (node : PencilNode) (backgroundColor : option string)
  : bool :=
  match stroke node with
  | None => false
  | Some st =>
      match strokeFill st with
      | None => false
      | Some strokeColor =>
          if negb (str_truthy strokeColor) then false
          else
            let transparent :=
              startsWith strokeColor "rgba"
              && match rgbaAlpha strokeColor with
                 | Some alpha => (parseFloatDigits alpha <? 0.05)%float
                 | None => false
                 end in
            let sameAsBackground :=
              match backgroundColor with
              | Some bg => str_truthy bg && String.eqb strokeColor bg
              | None => false
              end in
            let nearBackground :=
              match backgroundColor with
              | Some bg =>
                  str_truthy bg && startsWith strokeColor "#" && startsWith bg "#"
                  && match Color.hexToRgb strokeColor, Color.hexToRgb bg with
                     | Some strokeRgb, Some bgRgb =>
                         (Color.rgbDistance strokeRgb bgRgb <? 10)%float
                     | _, _ => false
                     end
              | None => false
              end in
            let specialCase :=
              match name node with
              | Some n =>
                  (String.eqb n "settingsButton" || String.eqb n "settingsIndicator")
                  && match backgroundColor with
                     | Some bg => includes bg "rgba(0, 188, 212"
                     | None => false
                     end
                  && String.eqb strokeColor "#00BCD4"
              | None => false
              end in
            transparent || sameAsBackground || nearBackground || specialCase
      end
  end.

(** [if (v !== undefined) styles[prop] = v]. *)
Definition set_if_defined (styles : StyleProperties) (prop : string) (v : JsValue)
  : StyleProperties :=
  if is_undefined v then styles else style_set styles prop v.

Definition extractPencilStyles (node : PencilNode) : StyleProperties :=
  let s0 := set_if_defined [] "fontSize" (fontSize node) in
  let s1 := set_if_defined s0 "fontWeight" (fontWeight node) in
  let '(s2, backgroundColor) :=
    match fill node with
    | Some f =>
        if String.eqb (nodeType node) "text" then (style_set s1 "color" (JStr f), None)
        else if String.eqb (nodeType node) "frame"
                || String.eqb (nodeType node) "rectangle"
        then (style_set s1 "backgroundColor" (JStr f), Some f)
        else (s1, None)
    | None => (s1, None)
    end in
  let s3 :=
    match stroke node with
    | Some st =>
        match strokeFill st with
        | Some strokeColor =>
            if negb (isInvisibleStroke node backgroundColor)
            then style_set (style_set s2 "borderColor" (JStr strokeColor))
                           "borderWidth" (thickness st)
            else s2
        | None => s2
        end
    | None => s2
    end in
  let s4 := set_if_defined s3 "padding" (padding node) in
  let s5 := set_if_defined s4 "gap" (gap node) in
  let s6 := set_if_defined s5 "borderRadius" (borderRadius node) in
  let s7 := set_if_defined s6 "borderRadius" (cornerRadius node) in
  let s8 := set_if_defined s7 "width" (width node) in
  set_if_defined s8 "height" (height node).

Definition mapJustifyContent (value : string) : string :=
  if existsb (String.eqb value)
       ["start"; "center"; "end"; "space-between"; "space-around"]
  then value else "start".

Definition mapAlignItems (value : string) : string :=
  if existsb (String.eqb value) ["start"; "center"; "end"; "stretch"]
  then value else "start".

Definition extractPencilLayout (node : PencilNode) : option LayoutProperties :=
  match nodeLayout node with
  | None => None
  | Some l =>
      if negb (str_truthy l) then None
      else
        Some (mkLayout (Some flex)
                (if String.eqb l "horizontal" then Some row
                 else if String.eqb l "vertical" then Some column
                 else None)
                (match nodeJustifyContent node with
                 | Some j => if str_truthy j then Some (mapJustifyContent j) else None
                 | None => None
                 end)
                (match nodeAlignItems node with
                 | Some a => if str_truthy a then Some (mapAlignItems a) else None
                 | None => None
                 end))
  end.

(** [s.replace(/[^a-zA-Z0-9]/g, '')]. *)
Fixpoint keep_alnum (s : string) : string :=
  match s with
  | EmptyString => EmptyString
  | String c rest => if is_alnum c then String c (keep_alnum rest) else keep_alnum rest
  end.

(** [s.replace(/^[A-Z]/, c => c.toLowerCase())]. *)
Definition lower_first (s : string) : string :=
  match s with
  | String c rest => String (lower_char c) rest
  | EmptyString => EmptyString
  end.

Definition normalizePencilName (name : string) : string :=
  let withoutSuffix := NameMapping.stripNumericSuffix name in
  lower_first (keep_alnum withoutSuffix).

Definition ElementType_name (t : ElementType) : string :=
  match t with
  | text => "text" | container => "container" | button => "button"
  | image => "image" | icon => "icon" | input => "input"
  end.

(** [node.name || node.type]. *)
Definition nodeName (node : PencilNode) : string :=
  match name node with
  | Some n => if str_truthy n then n else nodeType node
  | None => nodeType node
  end.

(** The [normalizedName] of [normalizePencilNode]: the path segment. *)
Definition normalizedName (node : PencilNode) : string :=
  match name node with
  | Some n =>
      if String.eqb (nodeType node) "text" && str_truthy n
      then normalizePencilName n
      else nodeName node
  | None => nodeName node
  end.

(** [node.name ? isIndependentComponent(node.name) : false]. *)
Definition isIndependentNode (node : PencilNode) : bool :=
  match name node with
  | Some n => str_truthy n && IndependentComponents.isIndependentComponent n
  | None => false
  end.

Definition codeComponentNameOf (node : PencilNode) : option string :=
  match name node with
  | Some n =>
      if str_truthy n then IndependentComponents.getIndependentComponentCodeName n
      else None
  | None => None
  end.

(** [nodes.map((child, idx) => f(child, idx))] with the source of
    randomness threaded from left to right.  [idx] is the index of the first
    node. *)
Fixpoint mapChildren (f : PencilNode -> nat -> Rng -> StandardElement * Rng)
    (nodes : list PencilNode) (idx : nat) (rng : Rng)
  : list StandardElement * Rng :=
  match nodes with
  | [] => ([], rng)
  | c :: rest =>
      let '(e, rng1) := f c idx rng in
      let '(es, rng2) := mapChildren f rest (S idx) rng1 in
      (e :: es, rng2)
  end.

Fixpoint normalizePencilNode (node : PencilNode) (parentPath : string) (index : nat)
    (rng : Rng) {struct node} : StandardElement * Rng :=
  let currentPath := Path.buildPath parentPath (normalizedName node) index in
  let elementType := mapPencilTypeToStandard (nodeType node) in
  let isIndependent := isIndependentNode node in
  let '(elementId, rng1) :=
    match nodeId node with
    | Some i => if str_truthy i then (i, rng) else generateId (ElementType_name elementType) rng
    | None => generateId (ElementType_name elementType) rng
    end in
  let build kids :=
    mkElement elementId elementType currentPath (nodeContent node)
      (extractPencilStyles node) (extractPencilLayout node) kids
      (Some (mkMetadata pencil (nodeId node) (Some isIndependent)
               (codeComponentNameOf node) None)) in
  if isIndependent then (build None, rng1)
  else
    match nodeChildren node with
    | Some (child :: rest) =>
        let '(kids, rng2) :=
          mapChildren (fun c idx g => normalizePencilNode c currentPath idx g)
                      (child :: rest) 0 rng1 in
        (build (Some kids), rng2)
    | _ => (build None, rng1)
    end.

Definition normalizePencilFrame (frame : PencilFrame) (rng : Rng)
  : list StandardElement * Rng :=
  let s0 :=
    match frameFill frame with
    | Some f => if str_truthy f then style_set [] "backgroundColor" (JStr f) else []
    | None => []
    end in
  let s1 := set_if_defined s0 "borderRadius" (frameCornerRadius frame) in
  let s2 := set_if_defined s1 "gap" (frameGap frame) in
  let rootStyles := set_if_defined s2 "padding" (framePadding frame) in
  let root kids :=
    mkElement (frameId frame) container (frameName frame) None rootStyles
      (Some (mkLayout (Some flex) (Some column) None None)) kids
      (Some (mkMetadata pencil (Some (frameId frame)) None None None)) in
  match frameChildren frame with
  | Some cs =>
      let '(kids, rng1) :=
        mapChildren (fun c idx g => normalizePencilNode c (frameName frame) idx g)
                    cs 0 rng in
      ([root (Some kids)], rng1)
  | None => ([root None], rng)
  end.

End Pencil.

(* ================================================================= *)
(** ** The syntax tree of the markup (@babel/types)

    The node kinds the normalizer inspects; every other kind of expression,
    attribute value or child is an [Other...] node. *)

Module Ast.

#[local] Unset Elimination Schemes.
Inductive Expr : Type :=
| Identifier (name : string)
| StringLiteral (value : string)
| NumericLiteral (value : float)
| TemplateLiteral (quasis : list (option string)) (expressions : list Expr)
| MemberExpression (object property : Expr)
| LogicalExpression (left right : Expr)
| ConditionalExpression (test consequent alternate : Expr)
| BinaryExpression (left right : Expr)
| ObjectExpression (properties : list (option (Expr * Expr)))
| OtherExpression.
#[local] Set Elimination Schemes.
(** A quasi is its cooked text, if any.  A member of an object expression is
    [Some (key, value)] for an [ObjectProperty], [None] for a method or a
    spread element. *)

Inductive JSXName : Type :=
| JSXIdentifier (name : string)
| JSXMemberExpression (object : JSXName) (property : string)
| JSXNamespacedName (namespace name : string).

Inductive JSXAttrValue : Type :=
| AttrStringLiteral (value : string)
| AttrExpressionContainer (expression : Expr)
| AttrOtherValue.

(** [JSXAttribute name value] has [name = Some n] when the attribute name is
    a [JSXIdentifier]; [value = None] for an attribute without a value. *)
Inductive JSXAttr : Type :=
| JSXAttribute (name : option string) (value : option JSXAttrValue)
| JSXSpreadAttribute.

Record JSXOpeningElement : Type := mkOpening {
  tag : JSXName;
  attributes : list JSXAttr
}.

#[local] Unset Elimination Schemes.
Inductive JSXElement : Type :=
| mkJSXElement (openingElement : JSXOpeningElement) (children : list JSXChild)
with JSXChild : Type :=
| JSXText (value : string)
| JSXExpressionContainer (expression : Expr)
| JSXChildElement (el : JSXElement)
| JSXOtherChild.
#[local] Set Elimination Schemes.

Definition openingOf (node : JSXElement) : JSXOpeningElement :=
  match node with mkJSXElement o _ => o end.

Definition childrenOf (node : JSXElement) : list JSXChild :=
  match node with mkJSXElement _ cs => cs end.

(** What [isInsideHookCallback] reads of an ancestor node: its [type] and,
    when it has a [callee] that is an [Identifier], the callee's name. *)
Record NodeInfo : Type := mkNodeInfo {
  nodeKind : string;
  calleeName : option string
}.

(** A traversal path: [parent] is the parent node, [parentPath] the path of
    the parent. *)
#[local] Unset Elimination Schemes.
Inductive NodePath : Type :=
| mkNodePath (parent : option NodeInfo) (parentPath : option NodePath).
#[local] Set Elimination Schemes.

Definition parentOf (p : NodePath) : option NodeInfo :=
  match p with mkNodePath n _ => n end.

Definition parentPathOf (p : NodePath) : option NodePath :=
  match p with mkNodePath _ pp => pp end.

End Ast.

(* ================================================================= *)
(** ** src/normalizers/code.ts *)

Module Code.
Import JS Types Format Ast.

(** [StyleMap = Map<string, StyleProperties>]. *)
Definition StyleMap : Type := Dict StyleProperties.

Record ExtractionContext : Type := mkContext {
  cssStyles : StyleMap;
  currentPath : string;
  parentType : option string;
  index : nat
}.

Definition TAG_TYPE_MAP : Dict ElementType :=
  [("span", text); ("p", text); ("h1", text); ("h2", text); ("h3", text);
   ("h4", text); ("h5", text); ("h6", text); ("a", text); ("strong", text);
   ("em", text); ("small", text);
   ("div", container); ("section", container); ("article", container);
   ("main", container); ("header", container); ("footer", container);
   ("nav", container); ("aside", container);
   ("button", button);
   ("input", input); ("textarea", input); ("select", input);
   ("img", image); ("svg", icon); ("i", icon)].

Definition getTagName (openingElement : JSXOpeningElement) : string :=
  match tag openingElement with
  | JSXIdentifier n => n
  | JSXMemberExpression (JSXIdentifier n) _ => n
  | _ => ""
  end.

Definition mapTagToElementType (tagName : string) : ElementType :=
  match dict_get TAG_TYPE_MAP tagName with
  | Some t => t
  | None => container
  end.

(** One step of the climb of [isInsideHookCallback]: a verdict, or the path
    to continue from. *)
Definition hookStep (current : NodePath) : bool + option NodePath :=
  match parentOf current with
  | None => inl false
  | Some parentNode =>
      let callVerdict :=
        if String.eqb (nodeKind parentNode) "CallExpression" then
          match calleeName parentNode with
          | Some n => Some (startsWith n "use")
          | None => None
          end
        else None in
      match callVerdict with
      | Some verdict => inl verdict
      | None =>
          if String.eqb (nodeKind parentNode) "FunctionDeclaration"
             || String.eqb (nodeKind parentNode) "FunctionExpression"
             || String.eqb (nodeKind parentNode) "ArrowFunctionExpression"
          then
            match parentPathOf current with
            | Some pp =>
                match parentOf pp with
                | Some grandParent =>
                    if String.eqb (nodeKind grandParent) "CallExpression" then
                      match calleeName grandParent with
                      | Some n => inl (startsWith n "use")
                      | None => inl false
                      end
                    else inl false
                | None => inl false
                end
            | None => inl false
            end
          else inr (parentPathOf current)
      end
  end.

Fixpoint hookClimb (steps : nat) (current : option NodePath) : bool :=
  match steps with
  | O => false
  | S k =>
      match current with
      | None => false
      | Some p =>
          match hookStep p with
          | inl verdict => verdict
          | inr next => hookClimb k next
          end
      end
  end.

Definition isInsideHookCallback (path : NodePath) : bool :=
  hookClimb 5 (Some path).

(** [collectFromChild] of [extractTextContent]. *)
Definition collectFromChild (child : JSXChild) : list string :=
  match child with
  | JSXText value =>
      let t := trim value in
      if str_truthy t then [t] else []
  | JSXExpressionContainer (StringLiteral value) => [value]
  | JSXExpressionContainer (TemplateLiteral quasis _) =>
      [trim (String.concat ""
               (map (fun q => match q with Some c => c | None => "" end) quasis))]
  | _ => []
  end.

Definition extractTextContent (node : JSXElement) : option string :=
  match flat_map collectFromChild (childrenOf node) with
  | [] => None
  | texts => Some (String.concat " " texts)
  end.

(** The class names an expression refers to, in source order. *)
Fixpoint extractClassNamesFromExpression (expr : Expr) : list string :=
  match expr with
  | MemberExpression _ (Identifier n) => [n]
  | MemberExpression _ _ => []
  | TemplateLiteral _ expressions =>
      flat_map extractClassNamesFromExpression expressions
  | LogicalExpression l r =>
      extractClassNamesFromExpression l ++ extractClassNamesFromExpression r
  | ConditionalExpression _ c a =>
      extractClassNamesFromExpression c ++ extractClassNamesFromExpression a
  | BinaryExpression l r =>
      extractClassNamesFromExpression l ++ extractClassNamesFromExpression r
  | _ => []
  end.

Definition classNamesOfAttr (attr : JSXAttr) : list string :=
  match attr with
  | JSXAttribute (Some "className") (Some (AttrStringLiteral value)) =>
      filter str_truthy (Path.split value " ")
  | JSXAttribute (Some "className") (Some (AttrExpressionContainer expr)) =>
      extractClassNamesFromExpression expr
  | _ => []
  end.

Definition extractClassNames (openingElement : JSXOpeningElement) : list string :=
  flat_map classNamesOfAttr (attributes openingElement).

(** One member of an inline [style] object literal. *)
Definition inlineStyleMember (styles : StyleProperties)
    (member : option (Expr * Expr)) : StyleProperties :=
  match member with
  | Some (Identifier key, StringLiteral value) =>
      style_set styles key (convertCSSValue value)
  | Some (Identifier key, NumericLiteral value) =>
      style_set styles key (JNum value)
  | _ => styles
  end.

(** The body of the loop of [extractStyleFromProps] for one attribute. *)
Definition styleOfAttr (cssStyles : StyleMap) (styles : StyleProperties)
    (attr : JSXAttr) : StyleProperties :=
  match attr with
  | JSXAttribute (Some "className")
      (Some (AttrExpressionContainer (MemberExpression _ (Identifier className)))) =>
      match dict_get cssStyles className with
      | Some classStyles => style_assign styles classStyles
      | None => styles
      end
  | JSXAttribute (Some "style")
      (Some (AttrExpressionContainer (ObjectExpression properties))) =>
      fold_left inlineStyleMember properties styles
  | _ => styles
  end.

Definition extractStyleFromProps (openingElement : JSXOpeningElement)
    (cssStyles : StyleMap) : StyleProperties :=
  fold_left (styleOfAttr cssStyles) (attributes openingElement) [].

Definition layoutOfAttr (layout : LayoutProperties) (attr : JSXAttr)
  : LayoutProperties :=
  match attr with
  | JSXAttribute (Some "flexDirection") (Some (AttrStringLiteral value)) =>
      mkLayout (Some flex)
               (Some (if String.eqb value "row" then row else column))
               (justifyContent layout) (alignItems layout)
  | JSXAttribute (Some "justifyContent") (Some (AttrStringLiteral value)) =>
      mkLayout (layoutType layout) (direction layout) (Some value) (alignItems layout)
  | JSXAttribute (Some "alignItems") (Some (AttrStringLiteral value)) =>
      mkLayout (layoutType layout) (direction layout) (justifyContent layout) (Some value)
  | _ => layout
  end.

Definition extractLayoutProps (openingElement : JSXOpeningElement)
  : option LayoutProperties :=
  let layout :=
    fold_left layoutOfAttr (attributes openingElement)
              (mkLayout None None None None) in
  match layout with
  | mkLayout None None None None => None
  | _ => Some layout
  end.

(** [name.charAt(0).toUpperCase() + name.slice(1)]. *)
Definition capitalize (name : string) : string :=
  match name with
  | String c rest => String (upper_char c) rest
  | EmptyString => EmptyString
  end.

Definition buildElementPath (tagName : string) (classNames : list string)
    (parentPath : string) (index : nat) : string :=
  let className := hd "" classNames in
  let name := if str_truthy className then className else tagName in
  let name := NameMapping.lookup_or_self NameMapping.CODE_CLASS_TO_PENCIL_NAME name in
  if negb (str_truthy parentPath) then capitalize name
  else (parentPath ++ " > " ++ name ++ "[" ++ string_of_nat index ++ "]")%string.

(** The loop over [node.children] of [extractJSXElement]: every child that
    is an element is extracted with the number of children kept so far as its
    index, and kept unless the extraction yields nothing. *)
Fixpoint collectChildren
    (extract : JSXElement -> nat -> Rng -> option StandardElement * Rng)
    (cs : list JSXChild) (acc : list StandardElement) (rng : Rng)
  : list StandardElement * Rng :=
  match cs with
  | [] => (acc, rng)
  | JSXChildElement child :: rest =>
      match extract child (List.length acc) rng with
      | (Some childElement, rng1) =>
          collectChildren extract rest (acc ++ [childElement]) rng1
      | (None, rng1) => collectChildren extract rest acc rng1
      end
  | _ :: rest => collectChildren extract rest acc rng
  end.

Fixpoint extractJSXElement (node : JSXElement) (context : ExtractionContext)
    (childIndex : nat) (rng : Rng) {struct node} : option StandardElement * Rng :=
  match node with
  | mkJSXElement openingElement nodeChildren =>
      let tagName := getTagName openingElement in
      if negb (str_truthy tagName) then (None, rng)
      else
        let content := extractTextContent node in
        let styles := extractStyleFromProps openingElement (cssStyles context) in
        let layout := extractLayoutProps openingElement in
        let classNames := extractClassNames openingElement in
        let currentPath :=
          buildElementPath tagName classNames (currentPath context) childIndex in
        let isIndependent := IndependentComponents.isIndependentComponent tagName in
        let childContext :=
          mkContext (cssStyles context) currentPath (Some tagName) (index context) in
        let '(kids, rng1) :=
          if isIndependent then ([], rng)
          else collectChildren
                 (fun child idx g => extractJSXElement child childContext idx g)
                 nodeChildren [] rng in
        let '(elementId, rng2) := generateId tagName rng1 in
        (Some (mkElement elementId (mapTagToElementType tagName) currentPath
                 content styles layout
                 (match kids with [] => None | _ => Some kids end)
                 (Some (mkMetadata code None (Some isIndependent) None (Some tagName)))),
         rng2)
  end.

(** What a call can end in: a value, or a thrown exception (for an [async]
    function: a fulfilled or a rejected promise). *)
Inductive Completion (A : Type) : Type :=
| Returned (value : A)
| Thrown (exn : string).
Arguments Returned {A} value.
Arguments Thrown {A} exn.

(** What [normalizeCodeFile] leaves behind: the completion of its promise and
    the errors it wrote to [console.error]. *)
Record Outcome : Type := mkOutcome {
  completion : Completion (list StandardElement);
  logged : list string
}.

Section Babel.

(** The collaborators of [normalizeCodeFile].  The stylesheet reducer
    ([parseCSSModules], css-parser.ts) only supplies the style map that is
    stored in the context.  Babel's parser and traversal are not part of the
    repository; they are described by what the normalizer observes of them:
    [parse] returns a file or throws, and [traverse ast] is the sequence of
    [JSXElement] visits of a traversal, each node with its path. *)
Variable File : Type.
Variable parseCSSModules : string -> StyleMap.
Variable parse : string -> Completion File.
Variable getTraverse : Completion (File -> list (JSXElement * NodePath)).

(** The [JSXElement] visitor of [normalizeCodeFile]. *)
Definition visitJSXElement (cssStyles : StyleMap)
    (state : list StandardElement * Rng) (visit : JSXElement * NodePath)
  : list StandardElement * Rng :=
  let '(elements, rng) := state in
  let '(node, path) := visit in
  match parentOf path with
  | Some parentNode =>
      if String.eqb (nodeKind parentNode) "ReturnStatement"
         && negb (isInsideHookCallback path)
      then
        let context := mkContext cssStyles "" None (List.length elements) in
        match extractJSXElement node context (List.length elements) rng with
        | (Some element, rng1) => (elements ++ [element], rng1)
        | (None, rng1) => (elements, rng1)
        end
      else state
  | None => state
  end.

Definition normalizeCodeFile (tsxCode cssCode : string) (rng : Rng)
  : Outcome * Rng :=
  let cssStyles := parseCSSModules cssCode in
  match parse tsxCode with
  | Thrown e => (mkOutcome (Returned []) [e], rng)
  | Returned ast =>
      match getTraverse with
      | Thrown e => (mkOutcome (Returned []) [e], rng)
      | Returned traverse =>
          let '(elements, rng1) :=
            fold_left (visitJSXElement cssStyles) (traverse ast) ([], rng) in
          (mkOutcome (Returned elements) [], rng1)
      end
  end.

End Babel.

End Code.

(* ================================================================= *)
(** ** The stated properties, as definitions

    Each definition here follows the wording of a stated property, not the
    code; the theorems below compare them with the embedding above. *)

Module Stated.
Import JS Types.

(** *** Summary of a run *)

Fixpoint count {A : Type} (p : A -> bool) (xs : list A) : nat :=
  match xs with
  | [] => 0
  | x :: rest => if p x then S (count p rest) else count p rest
  end.

Definition confident (m : ElementMatch) : bool := (0.5 <=? confidence m)%float.

Definition isErrorDiff (d : ElementDiff) : bool :=
  match diffSeverity d with error => true | _ => false end.

Definition isErrorStyleDiff (d : StyleDiff) : bool :=
  match styleSeverity d with error => true | _ => false end.

(** [matchedCount / totalElements * 100], and [100] for an empty run. *)
Definition matchRatePercent (matchedCount total : nat) : float :=
  match total with
  | O => 100%float
  | _ => (num_of_nat matchedCount / num_of_nat total * 100)%float
  end.

(** [fail] if any missing element, property difference or extra element has
    error severity; else [warning] if there is any extra element; else
    [pass]. *)
Definition overallStatus (missingList extraList : list ElementDiff)
    (differences : list StyleDiff) : Status :=
  if existsb isErrorDiff missingList
     || existsb isErrorStyleDiff differences
     || existsb isErrorDiff extraList
  then fail
  else match extraList with
       | _ :: _ => warn
       | [] => pass
       end.

(** *** Confidence of a matched pair *)

(** A property takes part in the score when it is not globally ignored and
    is present on at least one side. *)
Definition compared (pencilEl codeEl : StandardElement) (options : ComparisonOptions)
  : list string :=
  filter (fun prop =>
            negb (Element.ignored options prop)
            && negb (is_undefined (Element.propertyValue pencilEl prop)
                     && is_undefined (Element.propertyValue codeEl prop)))
         Element.propertiesToCompare.

(** The ratio of matched to compared properties, [1] when none is compared. *)
Definition ratio (equal : string -> bool) (props : list string) : float :=
  match props with
  | [] => 1%float
  | _ => (num_of_nat (count equal props) / num_of_nat (List.length props))%float
  end.

(** The rule of the value primitives: [colorsEqual] on colour properties,
    [valuesEqual] (with its [fontWeight] coercion and case-insensitive string
    comparison) on the others. *)
Definition primitiveRule (pencilEl codeEl : StandardElement)
    (options : ComparisonOptions) (prop : string) : bool :=
  Style.compareProperty prop
    (Element.propertyValue pencilEl prop) (Element.propertyValue codeEl prop)
    (num_or_zero (tolerance options)) (num_or_zero (colorTolerance options)).

Definition primitiveConfidence (pencilEl codeEl : StandardElement)
    (options : ComparisonOptions) : float :=
  ratio (primitiveRule pencilEl codeEl options) (compared pencilEl codeEl options).

Definition isColourProperty (prop : string) : bool :=
  String.eqb prop "color" || String.eqb prop "backgroundColor".

Definition withinTolerance (a b : JsValue) (options : ComparisonOptions) : bool :=
  match a, b with
  | JNum x, JNum y => (PrimFloat.abs (x - y) <=? num_or_zero (tolerance options))%float
  | _, _ => false
  end.

Definition withinColourTolerance (prop : string) (a b : JsValue)
    (options : ComparisonOptions) : bool :=
  match a, b with
  | JStr s1, JStr s2 =>
      isColourProperty prop && startsWith s1 "#" && startsWith s2 "#"
      && match Color.hexToRgb s1, Color.hexToRgb s2 with
         | Some c1, Some c2 =>
             (Color.rgbDistance c1 c2 <=? num_or_zero (colorTolerance options))%float
         | _, _ => false
         end
  | _, _ => false
  end.

(** The rule the element comparison applies: two values are equal when they
    are strictly identical, or are two numbers within the tolerance, or are
    two [#]-prefixed six-digit hexadecimal colours of a colour property whose
    RGB distance is within the colour tolerance. *)
Definition elementRule (pencilEl codeEl : StandardElement)
    (options : ComparisonOptions) (prop : string) : bool :=
  let a := Element.propertyValue pencilEl prop in
  let b := Element.propertyValue codeEl prop in
  strict_eq a b || withinTolerance a b options || withinColourTolerance prop a b options.

(** *** Opaque components *)

Definition isOpaque (el : StandardElement) : bool :=
  match metadata el with
  | Some m =>
      match isIndependentComponent m with
      | Some true => true
      | _ => false
      end
  | None => false
  end.

Definition hasChildren (el : StandardElement) : bool :=
  match children el with Some _ => true | None => false end.

(** No element of the tree is both opaque and a parent. *)
Fixpoint opaqueHasNoChildren (el : StandardElement) : bool :=
  negb (isOpaque el && hasChildren el)
  && match children el with
     | Some cs => forallb opaqueHasNoChildren cs
     | None => true
     end.

(** The invariant for the result of an extraction that may yield nothing. *)
Definition opaqueOption (o : option StandardElement) : Prop :=
  match o with
  | Some el => opaqueHasNoChildren el = true
  | None => True
  end.

(** *** Path segment of a design node *)

Definition allDigits (s : string) : bool :=
  forallb is_digit (list_ascii_of_string s).

Definition endsWithDigit (s : string) : bool :=
  match rev (list_ascii_of_string s) with
  | c :: _ => is_digit c
  | [] => false
  end.

(** *** Style resolution of a markup element *)

(** Every class the [className] expression refers to contributes its
    stylesheet properties, in order; inline style values are merged after. *)
Definition resolvedClassStyles (cssStyles : Code.StyleMap) (classNames : list string)
  : StyleProperties :=
  fold_left
    (fun styles className =>
       match dict_get cssStyles className with
       | Some classStyles => style_assign styles classStyles
       | None => styles
       end)
    classNames [].

(** *** Properties of the children of a tree node *)

(** [P] holds of every child, when there are children. *)
Definition childrenAll {A : Type} (P : A -> Prop) (o : option (list A)) : Prop :=
  match o with
  | Some cs => Forall P cs
  | None => True
  end.

(** [P] holds of a child that is an element. *)
Definition elementChild (P : Ast.JSXElement -> Prop) (child : Ast.JSXChild) : Prop :=
  match child with
  | Ast.JSXChildElement el => P el
  | _ => True
  end.

End Stated.

(* ================================================================= *)
(** ** Views of trees, paths and results

    Definitions used to state properties of the embedding: they read the
    data, they are not part of the program. *)

Module Views.
Import JS Types.

(** The nodes of a tree in pre-order, and of a forest. *)
Fixpoint nodes (el : StandardElement) : list StandardElement :=
  el :: match children el with
        | Some cs => flat_map nodes cs
        | None => []
        end.

Definition forestNodes (els : list StandardElement) : list StandardElement :=
  flat_map nodes els.

(** The tree with every identifier blanked. *)
Fixpoint eraseIds (el : StandardElement) : StandardElement :=
  mkElement "" (type el) (path el) (content el) (styles el) (layout el)
    (match children el with
     | Some cs => Some (map eraseIds cs)
     | None => None
     end)
    (metadata el).

(** The last element of a list that satisfies [p]. *)
Definition findLast {A : Type} (p : A -> bool) (xs : list A) : option A :=
  find p (rev xs).

(** A value is the number [NaN]. *)
Definition isNaNValue (v : JsValue) : bool :=
  match v with
  | JNum n => PrimFloat.is_nan n
  | _ => false
  end.

(** No character of [s] is [>]. *)
Definition noSeparatorChar (s : string) : bool :=
  forallb (fun c => negb (Ascii.eqb c ">")) (list_ascii_of_string s).

(** No character of [s] is an opening bracket. *)
Definition noBracket (s : string) : bool :=
  forallb (fun c => negb (Ascii.eqb c "[")) (list_ascii_of_string s).

(** [property === 'fontWeight']. *)
Definition isFontWeight (property : option string) : bool :=
  match property with
  | Some p => String.eqb p "fontWeight"
  | None => false
  end.

(** The colour string without its leading [#], if it has one. *)
Definition hexBody (hex : string) : string :=
  match hex with
  | String "#" rest => rest
  | _ => hex
  end.

(** The distinct paths of the two forests, design side first: the paths the
    comparison iterates over. *)
Definition allPaths (pencilElements codeElements : list StandardElement)
  : list string :=
  set_of_list (dict_keys (Path.indexByPath pencilElements)
               ++ dict_keys (Path.indexByPath codeElements)).


(** The severity of an extra element in a given mode. *)
Definition extraSeverity (options : ComparisonOptions) : DiffSeverity :=
  match severity options with
  | Some strict => error
  | _ => warning
  end.

(** Every missing entry is an error of type [missing]; every extra entry is
    of type [extra] with the severity of the mode. *)
Definition severitiesOk (options : ComparisonOptions)
    (missingList extraList : list ElementDiff) : Prop :=
  Forall (fun d => diffType d = missing /\ diffSeverity d = error) missingList
  /\ Forall (fun d => diffType d = extra /\ diffSeverity d = extraSeverity options)
            extraList.

(** [pathMatches[path] || path]. *)
Definition actualCodePath (pathMatches : Dict string) (path : string) : string :=
  match dict_get pathMatches path with
  | Some p => if str_truthy p then p else path
  | None => path
  end.

(** The string consists of ASCII letters and digits only. *)
Definition allAlnum (s : string) : bool :=
  forallb is_alnum (list_ascii_of_string s).

(** The string starts with an upper-case ASCII letter. *)
Definition startsUpper (s : string) : bool :=
  match s with
  | String c _ => is_upper c
  | EmptyString => false
  end.

(** A kind that the design side can produce. *)
Definition isDesignKind (t : ElementType) : bool :=
  match t with
  | text | container | icon | image => true
  | button | input => false
  end.

(** The colour of the stroke of a design node, when it has one. *)
Definition strokeColorOf (node : Pencil.PencilNode) : option string :=
  match Pencil.stroke node with
  | Some st => Pencil.strokeFill st
  | None => None
  end.

(** The fill of a design node that counts as its background: the fill of a
    frame or rectangle. *)
Definition backgroundOf (node : Pencil.PencilNode) : option string :=
  match Pencil.fill node with
  | Some f =>
      if String.eqb (Pencil.nodeType node) "frame"
         || String.eqb (Pencil.nodeType node) "rectangle"
      then Some f else None
  | None => None
  end.

(** The children of an element, none when the field is absent. *)
Definition kids (el : StandardElement) : list StandardElement :=
  match children el with
  | Some cs => cs
  | None => []
  end.


(** No hyphen of [s] stands directly before a lower-case letter. *)
Fixpoint noHyphenBeforeLower (s : string) : bool :=
  match s with
  | EmptyString => true
  | String c rest =>
      match rest with
      | String d _ => negb (Ascii.eqb c "-" && is_lower d)
      | EmptyString => true
      end
      && noHyphenBeforeLower rest
  end.

(** [sep] occurs nowhere in [s]. *)
Fixpoint noOccurrence (sep s : string) : bool :=
  negb (String.prefix sep s)
  && match s with
     | EmptyString => true
     | String _ rest => noOccurrence sep rest
     end.

(** A character of the number part of [convertCSSValue]: a digit or a dot. *)
Definition isNumberChar (c : ascii) : bool := is_digit c || Ascii.eqb c ".".

Definition allNumberChars (s : string) : bool :=
  forallb isNumberChar (list_ascii_of_string s).

Definition allDots (s : string) : bool :=
  forallb (fun c => Ascii.eqb c ".") (list_ascii_of_string s).

(** The names that every plain object inherits from [Object.prototype].  A
    lookup [object[name]] with one of these names finds the inherited member
    when the object has no such key of its own, and an assignment to
    [__proto__] replaces the prototype instead of adding a key.  The
    dictionaries of the embedding hold the own keys only, so statements about
    a lookup in a plain object leave these names out. *)
Definition objectPrototypeNames : list string :=
  ["constructor"; "__defineGetter__"; "__defineSetter__"; "hasOwnProperty";
   "__lookupGetter__"; "__lookupSetter__"; "isPrototypeOf";
   "propertyIsEnumerable"; "toString"; "valueOf"; "__proto__";
   "toLocaleString"].

Definition inheritedName (name : string) : bool :=
  existsb (String.eqb name) objectPrototypeNames.

(** No node of the forest has the path [__proto__]. *)
Definition noPrototypePath (els : list StandardElement) : bool :=
  forallb (fun e => negb (String.eqb (path e) "__proto__")) (forestNodes els).

(** No node of the design tree has a type that is an inherited name. *)
Fixpoint nodeTypesOwn (node : Pencil.PencilNode) : bool :=
  negb (inheritedName (Pencil.nodeType node))
  && match Pencil.nodeChildren node with
     | Some cs => forallb nodeTypesOwn cs
     | None => true
     end.

Definition frameTypesOwn (frame : Pencil.PencilFrame) : bool :=
  match Pencil.frameChildren frame with
  | Some cs => forallb nodeTypesOwn cs
  | None => true
  end.



End Views.

(* ================================================================= *)
(** ** Concrete inputs *)

Module Examples.
Import JS Types.

Definition noOptions : ComparisonOptions := mkOptions None None None None.

(** An element with no layout, no children and no metadata. *)
Definition leaf (i : string) (t : ElementType) (p : string) (c : option string)
    (s : StyleProperties) : StandardElement :=
  mkElement i t p c s None None None.

(** A title whose weight the design gives as ['normal'] and the
    implementation as [400], and whose text differs in case only. *)
Definition designTitle : StandardElement :=
  leaf "p1" text "card > title[0]" (Some "Hello")
       [("fontWeight", JStr "normal"); ("fontSize", JNum 16)].

Definition codeTitle : StandardElement :=
  leaf "c1" text "card > title[0]" (Some "hello")
       [("fontWeight", JNum 400); ("fontSize", JNum 16)].


(** A design header whose settings button is aligned, through the name
    mapping, with the implementation's [SettingsDropdown]. *)
Definition designHeader : list StandardElement :=
  [mkElement "p0" container "header" None [] None
     (Some [leaf "p1" container "header > settingsButton[0]" None []]) None].

Definition codeHeader : list StandardElement :=
  [mkElement "c0" container "header" None [] None
     (Some [leaf "c1" container "header > SettingsDropdown[0]" None []]) None].

(** A greeting that sits at different paths on the two sides and is paired
    by its text. *)
Definition designGreeting : list StandardElement :=
  [mkElement "p0" container "Home" None [] None
     (Some [leaf "p1" text "Home > title[0]" (Some "Hello") []]) None].

Definition codeGreeting : list StandardElement :=
  [mkElement "c0" container "Home" None [] None
     (Some [leaf "c1" text "Home > heading[0]" (Some " hello ") []]) None].

(** A source of randomness whose [n]-th draw is ["r" ++ n]. *)
Definition rng0 : Format.Rng :=
  Format.mkRng (fun n => ("r" ++ string_of_nat n)%string) 0.

(** A design node with nothing but an id, a type, a name and children. *)
Definition bareNode (i : option string) (t : string) (n : option string)
    (cs : option (list Pencil.PencilNode)) : Pencil.PencilNode :=
  Pencil.mkPencilNode i t n None JUndefined JUndefined None None
    JUndefined JUndefined JUndefined JUndefined JUndefined JUndefined
    None None None cs.

Definition dividerNode : Pencil.PencilNode :=
  bareNode (Some "n1") "rectangle" (Some "divider1") None.

Definition labelNode : Pencil.PencilNode :=
  bareNode (Some "n2") "text" (Some "Title Label 2") None.

Definition divider2Node : Pencil.PencilNode :=
  bareNode (Some "n6") "rectangle" (Some "divider2") None.

(** A text node with the name of the first divider. *)
Definition dividerTextNode : Pencil.PencilNode :=
  bareNode (Some "n7") "text" (Some "divider1") None.

(** A registered independent component that has a child in the design. *)
Definition settingsNode : Pencil.PencilNode :=
  bareNode (Some "n3") "frame" (Some "settingsButton")
    (Some [bareNode (Some "n4") "text" (Some "caption") None]).

Definition styleRef (className : string) : Ast.Expr :=
  Ast.MemberExpression (Ast.Identifier "styles") (Ast.Identifier className).

Definition stylesheet : Code.StyleMap :=
  [("card", [("fontSize", JNum 16)]); ("active", [("color", JStr "#00BCD4")])].

(** [<div className={`${styles.card} ${styles.active}`}>]. *)
Definition templateOpening : Ast.JSXOpeningElement :=
  Ast.mkOpening (Ast.JSXIdentifier "div")
    [Ast.JSXAttribute (Some "className")
       (Some (Ast.AttrExpressionContainer
                (Ast.TemplateLiteral [Some ""; Some " "; Some ""]
                   [styleRef "card"; styleRef "active"])))].

(** [<div className={cond ? styles.card : styles.active}>]. *)
Definition ternaryOpening : Ast.JSXOpeningElement :=
  Ast.mkOpening (Ast.JSXIdentifier "div")
    [Ast.JSXAttribute (Some "className")
       (Some (Ast.AttrExpressionContainer
                (Ast.ConditionalExpression (Ast.Identifier "cond")
                   (styleRef "card") (styleRef "active"))))].

(** [<div className={styles.card} style={{ padding: '8px' }}>]. *)
Definition memberOpening : Ast.JSXOpeningElement :=
  Ast.mkOpening (Ast.JSXIdentifier "div")
    [Ast.JSXAttribute (Some "className")
       (Some (Ast.AttrExpressionContainer (styleRef "card")));
     Ast.JSXAttribute (Some "style")
       (Some (Ast.AttrExpressionContainer
                (Ast.ObjectExpression
                   [Some (Ast.Identifier "padding", Ast.StringLiteral "8px")])))].

(** A tag registered as independent component, written with a child. *)
Definition settingsMarkup : Ast.JSXElement :=
  Ast.mkJSXElement (Ast.mkOpening (Ast.JSXIdentifier "settingsButton") [])
    [Ast.JSXChildElement (Ast.mkJSXElement memberOpening [])].

(** A parser that rejects every input, and one that accepts every input as
    a file whose traversal visits one returned element. *)
Definition rejectingParse (tsxCode : string) : Code.Completion unit :=
  Code.Thrown "SyntaxError: Unexpected token".

Definition acceptingParse (tsxCode : string) : Code.Completion unit :=
  Code.Returned tt.

Definition noStylesheet (cssCode : string) : Code.StyleMap := [].

Definition oneReturnedElement : Code.Completion (unit -> list (Ast.JSXElement * Ast.NodePath)) :=
  Code.Returned
    (fun _ => [(settingsMarkup,
                Ast.mkNodePath (Some (Ast.mkNodeInfo "ReturnStatement" None)) None)]).

(** A card with a text and a divider below it. *)
Definition cardNode : Pencil.PencilNode :=
  bareNode None "frame" (Some "card") (Some [labelNode; dividerNode]).

(** A white rectangle with a white outline, one pixel wide. *)
Definition outlinedNode : Pencil.PencilNode :=
  Pencil.mkPencilNode (Some "n5") "rectangle" (Some "panel") None
    JUndefined JUndefined (Some "#FFFFFF")
    (Some (Pencil.mkStroke (Some "#FFFFFF") (JNum 1)))
    JUndefined JUndefined JUndefined JUndefined JUndefined JUndefined
    None None None None.

(** [<div className={styles.card}>Hello<span className={styles.active}/>{x}<p/></div>]. *)
Definition cardMarkup : Ast.JSXElement :=
  Ast.mkJSXElement
    (Ast.mkOpening (Ast.JSXIdentifier "div")
       [Ast.JSXAttribute (Some "className")
          (Some (Ast.AttrExpressionContainer (styleRef "card")))])
    [Ast.JSXText "Hello";
     Ast.JSXChildElement
       (Ast.mkJSXElement
          (Ast.mkOpening (Ast.JSXIdentifier "span")
             [Ast.JSXAttribute (Some "className")
                (Some (Ast.AttrExpressionContainer (styleRef "active")))]) []);
     Ast.JSXExpressionContainer (Ast.Identifier "x");
     Ast.JSXChildElement
       (Ast.mkJSXElement (Ast.mkOpening (Ast.JSXIdentifier "p") []) [])].

Definition rootContext : Code.ExtractionContext :=
  Code.mkContext stylesheet "" None 0.

(** [<div style={{ fontSize: 12 }} className={styles.card}>]: the class is
    written after the inline style. *)
Definition styleThenClassOpening : Ast.JSXOpeningElement :=
  Ast.mkOpening (Ast.JSXIdentifier "div")
    [Ast.JSXAttribute (Some "style")
       (Some (Ast.AttrExpressionContainer
                (Ast.ObjectExpression
                   [Some (Ast.Identifier "fontSize", Ast.NumericLiteral 12)])));
     Ast.JSXAttribute (Some "className")
       (Some (Ast.AttrExpressionContainer (styleRef "card")))].

(** A frame that holds the card. *)
Definition cardFrame : Pencil.PencilFrame :=
  Pencil.mkPencilFrame "f1" "frame" "Home" None JUndefined JUndefined JUndefined
    (Some [cardNode]).


(** The same callback passed to [React.useCallback(...)]: the callee is a
    member expression, not an identifier. *)
Definition memberHookPath : Ast.NodePath :=
  Ast.mkNodePath (Some (Ast.mkNodeInfo "ReturnStatement" None))
    (Some (Ast.mkNodePath (Some (Ast.mkNodeInfo "BlockStatement" None))
       (Some (Ast.mkNodePath (Some (Ast.mkNodeInfo "FunctionExpression" None))
          (Some (Ast.mkNodePath (Some (Ast.mkNodeInfo "CallExpression" None))
             (Some (Ast.mkNodePath (Some (Ast.mkNodeInfo "VariableDeclarator" None))
                None)))))))).

End Examples.

(* ================================================================= *)
(** * Properties *)

Import JS Types.

(* ================================================================= *)
(** ** Order of doubles *)

Section FloatOrder.

Ltac compare_cases :=
  repeat match goal with
    | |- context [Z.compare ?a ?b] =>
        destruct (Z.compare_spec a b); simpl; try congruence
    | |- context [Pos.compare ?a ?b] =>
        destruct (Pos.compare_spec a b); simpl; try congruence
    end.

Lemma SFleb_SFltb_trans (x y z : spec_float) :
  SFleb x y = true -> SFltb y z = true -> SFleb x z = true.
Proof.
  unfold SFleb, SFltb, SFcompare.
  destruct x as [sx|sx| |sx mx ex], y as [sy|sy| |sy my ey], z as [sz|sz| |sz mz ez];
    try destruct sx; try destruct sy; try destruct sz; simpl; try congruence;
    change (PosDef.Pos.compare_cont Eq) with Pos.compare;
    compare_cases; try lia; subst; try lia.
Qed.

(** [x <= y] and [y < z] give [x <= z], also in the presence of infinities
    and signed zeros ([NaN] compares false with everything). *)
Lemma leb_ltb_trans (x y z : float) :
  (x <=? y)%float = true -> (y <? z)%float = true -> (x <=? z)%float = true.
Proof. rewrite !leb_spec, ltb_spec. apply SFleb_SFltb_trans. Qed.

End FloatOrder.

(* ================================================================= *)
(** ** Colours and values *)

Lemma string_eqb_true (a b : string) : String.eqb a b = true <-> a = b.
Proof. apply String.eqb_eq. Qed.

(** C9, as stated, fails at tolerance 0: two spellings of one colour are at
    distance 0, which is within the tolerance, yet they are reported unequal
    because the distance is consulted for positive tolerances only. *)
Lemma colorsEqual_zero_tolerance_counterexample :
  Color.colorsEqual "#ffffff" "#FFFFFF" 0 = false
  /\ "#ffffff" <> "#FFFFFF"
  /\ (Color.colorDistance "#ffffff" "#FFFFFF" <=? 0)%float = true.
Proof. repeat split. discriminate. Qed.

(** C9 (amended): [colorsEqual c1 c2 t] is true exactly when the two strings
    are identical, or [t] is positive and [colorDistance c1 c2 <= t]; for
    ['#000000'] and ['#0A0A0A'] (distance about 17.3) it is false at
    tolerance 10 and true at tolerance 20. *)
Theorem colorsEqual_characterisation :
  (forall (c1 c2 : string) (t : float),
      Color.colorsEqual c1 c2 t = true
      <-> (c1 = c2
           \/ ((0 <? t)%float = true
               /\ (Color.colorDistance c1 c2 <=? t)%float = true)))
  /\ (17.3 <? Color.colorDistance "#000000" "#0A0A0A")%float = true
  /\ (Color.colorDistance "#000000" "#0A0A0A" <? 17.4)%float = true
  /\ Color.colorsEqual "#000000" "#0A0A0A" 10 = false
  /\ Color.colorsEqual "#000000" "#0A0A0A" 20 = true.
Proof.
  split; [| repeat split].
  intros c1 c2 t. unfold Color.colorsEqual.
  destruct (String.eqb c1 c2) eqn:E.
  - apply String.eqb_eq in E. tauto.
  - apply String.eqb_neq in E.
    destruct (0 <? t)%float.
    + split; [intros H; right; auto | intros [H | [_ H]]; [contradiction | exact H]].
    + split; [discriminate | intros [H | [H _]]; [contradiction | discriminate]].
Qed.

(** [isNaN] is applied to results of [fontWeightNum] only, and these are
    never strings: its string case is not reached. *)
Lemma fontWeightNum_not_string (v : JsValue) :
  typeof (Format.fontWeightNum v) <> TString.
Proof.
  unfold Format.fontWeightNum, Format.fontWeightNorm.
  destruct (strict_eq v (JStr "normal")); [discriminate |].
  destruct v; discriminate.
Qed.

(** ['normal'] and [400] are equal font weights at every tolerance. *)
Example fontWeight_normal_is_400 (t : float) :
  Format.valuesEqual (JStr "normal") (JNum 400) t (Some "fontWeight") = true.
Proof. reflexivity. Qed.

(** Tolerance monotonicity for arbitrary values and property hints: the
    tolerance is consulted in the numeric branch only. *)
Lemma valuesEqual_monotone_any (v1 v2 : JsValue) (t1 t2 : float)
    (property : option string) :
  (t1 <? t2)%float = true ->
  Format.valuesEqual v1 v2 t1 property = true ->
  Format.valuesEqual v1 v2 t2 property = true.
Proof.
  intros Hlt. unfold Format.valuesEqual.
  destruct (is_nullish v1); [auto |].
  destruct (is_nullish v2); [auto |].
  destruct (strict_eq v1 v2); [auto |].
  match goal with
  | |- context [match ?verdict with Some _ => _ | None => _ end] =>
      destruct verdict as [b |]; [auto |]
  end.
  destruct v1, v2; auto.
  intros Hle. eapply leb_ltb_trans; eauto.
Qed.

(** C10: for numeric [a], [b] and tolerances [t1 < t2], if
    [valuesEqual(a, b, t1)] holds then so does [valuesEqual(a, b, t2)],
    whatever the property hint. *)
Theorem valuesEqual_tolerance_monotone (a b t1 t2 : float)
    (property : option string) :
  (t1 <? t2)%float = true ->
  Format.valuesEqual (JNum a) (JNum b) t1 property = true ->
  Format.valuesEqual (JNum a) (JNum b) t2 property = true.
Proof.
  intros Hlt. unfold Format.valuesEqual. cbn [is_nullish strict_eq].
  destruct (PrimFloat.eqb a b); [reflexivity |].
  (* the verdict of the fontWeight branch does not mention the tolerance *)
  match goal with
  | |- context [match ?verdict with Some _ => _ | None => _ end] =>
      destruct verdict as [decided |]; [exact (fun H => H) |]
  end.
  (* |a - b| <= t1 < t2 *)
  intros Hle. exact (leb_ltb_trans _ t1 t2 Hle Hlt).
Qed.

Lemma valuesEqual_tolerance_monotone_witness :
  (1 <? 2)%float = true
  /\ Format.valuesEqual (JNum 10) (JNum 11) 1 None = true
  /\ Format.valuesEqual (JNum 10) (JNum 11) 2 None = true.
Proof.
  split; [reflexivity |]. split; [reflexivity |].
  apply (valuesEqual_tolerance_monotone 10 11 1 2 None); reflexivity.
Defined.

(** The tolerance matters: the pair of the witness is unequal at tolerance
    0.5, so the numeric branch is the one exercised. *)
Example valuesEqual_below_tolerance :
  Format.valuesEqual (JNum 10) (JNum 11) 0.5 None = false.
Proof. reflexivity. Qed.

(* ================================================================= *)
(** ** Path equivalence by name *)

(** C5: with the comparator's name mapping as alias function, neither
    ['header > divider1[0]'] nor ['header > divider2[1]'] is equivalent to
    ['header > divider[0]']: the mapping leaves [divider1] and [divider2]
    unchanged and no numeric suffix is stripped.  Stripping the suffix before
    mapping would make both equivalent. *)
Theorem divider_paths_not_equivalent :
  Path.arePathsEquivalentByName "header > divider1[0]" "header > divider[0]"
    (Some NameMapping.mapPencilNameToCode) = false
  /\ Path.arePathsEquivalentByName "header > divider2[1]" "header > divider[0]"
       (Some NameMapping.mapPencilNameToCode) = false
  /\ NameMapping.mapPencilNameToCode "divider1" = "divider1"
  /\ NameMapping.stripNumericSuffix "divider1" = "divider"
  /\ NameMapping.stripNumericSuffix "divider2" = "divider"
  /\ Path.arePathsEquivalentByName "header > divider1[0]" "header > divider[0]"
       (Some (fun n => NameMapping.mapPencilNameToCode (NameMapping.stripNumericSuffix n)))
     = true.
Proof. repeat split. Qed.

(* ================================================================= *)
(** ** Summary of a run *)

Lemma length_filter_count {A : Type} (p : A -> bool) (xs : list A) :
  List.length (filter p xs) = Stated.count p xs.
Proof.
  induction xs as [| x rest IH]; simpl; [reflexivity |].
  destruct (p x); simpl; congruence.
Qed.

Lemma count_positive_existsb {A : Type} (p : A -> bool) (xs : list A) :
  (0 <? Stated.count p xs)%nat = existsb p xs.
Proof.
  induction xs as [| x rest IH]; simpl; [reflexivity |].
  destruct (p x); simpl; [reflexivity | exact IH].
Qed.

Lemma count_ext {A : Type} (p q : A -> bool) (xs : list A) :
  (forall x, p x = q x) -> Stated.count p xs = Stated.count q xs.
Proof.
  intros E. induction xs as [| x rest IH]; simpl; [reflexivity |].
  rewrite E, IH. reflexivity.
Qed.

Lemma errorDiff_eqb (d : ElementDiff) :
  DiffSeverity_eqb (diffSeverity d) error = Stated.isErrorDiff d.
Proof. unfold Stated.isErrorDiff. destruct (diffSeverity d); reflexivity. Qed.

Lemma errorStyleDiff_eqb (d : StyleDiff) :
  DiffSeverity_eqb (styleSeverity d) error = Stated.isErrorStyleDiff d.
Proof. unfold Stated.isErrorStyleDiff. destruct (styleSeverity d); reflexivity. Qed.

Lemma positive_length {A : Type} (xs : list A) :
  (0 <? List.length xs)%nat = match xs with [] => false | _ :: _ => true end.
Proof. destruct xs; reflexivity. Qed.

(** [calculateSummary] on arbitrary result lists. *)
Lemma calculateSummary_stated (ms : list ElementMatch) (missingList extraList : list ElementDiff)
    (differences : list StyleDiff) :
  let s := Compare.calculateSummary ms missingList extraList differences in
  totalElements s = (List.length ms + List.length missingList + List.length extraList)%nat
  /\ matchedElements s = Stated.count Stated.confident ms
  /\ missingElements s = Stated.count Stated.isErrorDiff missingList
  /\ extraElements s = Stated.count Stated.isErrorDiff extraList
  /\ styleDiffsCount s = Stated.count Stated.isErrorStyleDiff differences
  /\ matchRate s = Stated.matchRatePercent (matchedElements s) (totalElements s)
  /\ status s = Stated.overallStatus missingList extraList differences.
Proof.
  cbv zeta. unfold Compare.calculateSummary. cbn [totalElements matchedElements
    missingElements extraElements styleDiffsCount matchRate status].
  rewrite !length_filter_count.
  rewrite (count_ext _ Stated.isErrorDiff missingList errorDiff_eqb).
  rewrite (count_ext _ Stated.isErrorDiff extraList errorDiff_eqb).
  rewrite (count_ext _ Stated.isErrorStyleDiff differences errorStyleDiff_eqb).
  repeat split.
  - unfold Stated.matchRatePercent.
    destruct (List.length ms + List.length missingList + List.length extraList)%nat;
      reflexivity.
  - unfold Stated.overallStatus.
    rewrite !count_positive_existsb, positive_length.
    destruct (existsb Stated.isErrorDiff missingList),
             (existsb Stated.isErrorStyleDiff differences),
             (existsb Stated.isErrorDiff extraList), extraList; reflexivity.
Qed.

(** C1: in every comparison run the summary counts the matched pairs of
    confidence at least 0.5 and the error-severity entries of the missing,
    extra and difference lists; the match rate is
    [matchedCount / totalElements * 100] ([100] for an empty run); the status
    is [fail] if any missing element, property difference or extra element
    has error severity, else [warning] if the extra list is non-empty, else
    [pass]. *)
Theorem summary_of_run (pencilElements codeElements : list StandardElement)
    (options : ComparisonOptions) :
  let r := Compare.compareStructures pencilElements codeElements options in
  let s := summary r in
  totalElements s
  = (List.length (matches r) + List.length (missingInCode r)
     + List.length (extraInCode r))%nat
  /\ matchedElements s = Stated.count Stated.confident (matches r)
  /\ missingElements s = Stated.count Stated.isErrorDiff (missingInCode r)
  /\ extraElements s = Stated.count Stated.isErrorDiff (extraInCode r)
  /\ styleDiffsCount s = Stated.count Stated.isErrorStyleDiff (styleDiffs r)
  /\ matchRate s = Stated.matchRatePercent (matchedElements s) (totalElements s)
  /\ status s
     = Stated.overallStatus (missingInCode r) (extraInCode r) (styleDiffs r).
Proof.
  cbv zeta. unfold Compare.compareStructures.
  cbn [summary matches missingInCode extraInCode styleDiffs].
  apply calculateSummary_stated.
Qed.

(* ================================================================= *)
(** ** Confidence of a matched pair *)

(** The design gives the weight of a title as ['normal'] and its text as
    ['Hello'], the implementation [400] and ['hello']; the font sizes agree.
    The value primitives accept all three properties; the element comparison
    accepts the font size only. *)
Lemma confidence_primitive_rule_counterexample :
  Stated.primitiveConfidence Examples.designTitle Examples.codeTitle Examples.noOptions
  = 1%float
  /\ confidence (Element.compareElements Examples.designTitle Examples.codeTitle
                   Examples.noOptions)
     = (1 / 3)%float
  /\ propertiesMatch (Element.compareElements Examples.designTitle Examples.codeTitle
                        Examples.noOptions)
     = [("content", false); ("fontSize", true); ("fontWeight", false)]
  /\ Format.valuesEqual (JStr "normal") (JNum 400) 0 (Some "fontWeight") = true
  /\ Format.valuesEqual (JStr "Hello") (JStr "hello") 0 (Some "content") = true.
Proof. repeat split. Qed.

Lemma orb_false_r' (x : bool) : x || false = x.
Proof. destruct x; reflexivity. Qed.

(** The comparison of one property in [compareElements], in closed form. *)
Lemma compareProperty_rule (prop : string) (a b : JsValue) (options : ComparisonOptions) :
  Element.compareProperty prop a b options
  = strict_eq a b
    || Stated.withinTolerance a b options
    || Stated.withinColourTolerance prop a b options.
Proof.
  unfold Element.compareProperty, Stated.withinTolerance,
    Stated.withinColourTolerance, Stated.isColourProperty.
  destruct a, b; cbn [is_undefined strict_eq andb orb]; try reflexivity;
    try (rewrite !orb_false_r'; match goal with
         | |- (if ?c then true else false) = ?c => destruct c; reflexivity
         end).
  - (* two numbers *)
    destruct (PrimFloat.eqb n n0); cbn [orb]; [reflexivity |].
    rewrite orb_false_r'. reflexivity.
  - (* two strings *)
    destruct (String.eqb s s0); cbn [orb]; [reflexivity |].
    destruct (String.eqb prop "color" || String.eqb prop "backgroundColor");
      cbn [andb]; [| reflexivity].
    destruct (startsWith s "#"); cbn [andb]; [| reflexivity].
    destruct (startsWith s0 "#"); cbn [andb]; reflexivity.
Qed.

(** The loop of [compareElements] over any list of properties, from any
    state of its accumulators. *)
Lemma tally_fold (p c : StandardElement) (o : ComparisonOptions) (props : list string) :
  forall acc : Element.Tally,
    let kept :=
      filter (fun prop =>
                negb (Element.ignored o prop)
                && negb (is_undefined (Element.propertyValue p prop)
                         && is_undefined (Element.propertyValue c prop)))
             props in
    fold_left (Element.tallyStep p c o) props acc
    = Element.mkTally
        (Element.tallyMatch acc
           ++ map (fun prop => (prop, Stated.elementRule p c o prop)) kept)
        (Element.matchCount acc + Stated.count (Stated.elementRule p c o) kept)
        (Element.totalCount acc + List.length kept).
Proof.
  induction props as [| prop rest IH]; intros acc; cbv zeta.
  - simpl. rewrite app_nil_r, !Nat.add_0_r. destruct acc; reflexivity.
  - cbn [fold_left filter]. cbv zeta in IH. rewrite IH. clear IH.
    unfold Element.tallyStep at 1 2 3.
    destruct (Element.ignored o prop); cbn [negb andb]; [reflexivity |].
    destruct (is_undefined (Element.propertyValue p prop)
              && is_undefined (Element.propertyValue c prop));
      cbn [negb]; [reflexivity |].
    rewrite compareProperty_rule.
    fold (Stated.elementRule p c o prop).
    cbn [Element.tallyMatch Element.matchCount Element.totalCount map
         Stated.count List.length].
    rewrite <- app_assoc. cbn [app].
    destruct (Stated.elementRule p c o prop); f_equal; lia.
Qed.

(** C2 (amended): the confidence of a pair matched by path is
    [matched / compared] over the fixed property list minus the globally
    ignored properties, properties absent on both sides being skipped, and is
    [1] when nothing is compared; a property matches when its two values are
    strictly identical, or are two numbers within the tolerance, or are two
    [#]-prefixed hexadecimal colours (of [color] or [backgroundColor]) within
    the colour tolerance.  No [fontWeight] coercion and no case-insensitive
    comparison is applied. *)
Theorem compareElements_confidence (pencilEl codeEl : StandardElement)
    (options : ComparisonOptions) :
  let m := Element.compareElements pencilEl codeEl options in
  let props := Stated.compared pencilEl codeEl options in
  confidence m = Stated.ratio (Stated.elementRule pencilEl codeEl options) props
  /\ propertiesMatch m
     = map (fun prop => (prop, Stated.elementRule pencilEl codeEl options prop)) props
  /\ Element.propertiesToCompare
     = ["content"; "fontSize"; "fontWeight"; "color"; "backgroundColor";
        "padding"; "gap"; "borderRadius"].
Proof.
  cbv zeta. unfold Element.compareElements.
  rewrite (tally_fold pencilEl codeEl options Element.propertiesToCompare).
  cbv zeta. fold (Stated.compared pencilEl codeEl options).
  cbn [confidence propertiesMatch Element.tallyMatch Element.matchCount
       Element.totalCount app Nat.add].
  repeat split.
  unfold Stated.ratio.
  destruct (Stated.compared pencilEl codeEl options); reflexivity.
Qed.

(* ================================================================= *)
(** ** Induction over trees *)

Section TreeInduction.

(** Induction on a design node, with the property available for every
    child. *)
Lemma PencilNode_induction (P : Pencil.PencilNode -> Prop) :
  (forall node, Stated.childrenAll P (Pencil.nodeChildren node) -> P node) ->
  forall node, P node.
Proof.
  intros step.
  refine (fix IH (node : Pencil.PencilNode) : P node := step node _).
  destruct node as [? ? ? ? ? ? ? ? ? ? ? ? ? ? ? ? ? kids]; cbn.
  destruct kids as [cs |]; cbn; [| exact I].
  induction cs as [| c rest IHrest]; constructor; [apply IH | exact IHrest].
Qed.

(** Induction on a markup element, with the property available for every
    child that is an element. *)
Lemma JSXElement_induction (P : Ast.JSXElement -> Prop) :
  (forall opening cs, Forall (Stated.elementChild P) cs -> P (Ast.mkJSXElement opening cs)) ->
  forall node, P node.
Proof.
  intros step.
  refine (fix IH (node : Ast.JSXElement) : P node := _).
  destruct node as [opening cs]. apply step.
  induction cs as [| c rest IHrest]; constructor; [| exact IHrest].
  destruct c; cbn; try exact I. apply IH.
Qed.

End TreeInduction.

(* ================================================================= *)
(** ** Opaque components have no children *)

Section OpaqueComponents.

Import Format.

Local Abbreviation ok := Stated.opaqueHasNoChildren.

Lemma mapChildren_opaque
    (f : Pencil.PencilNode -> nat -> Rng -> StandardElement * Rng)
    (nodes : list Pencil.PencilNode) :
  Forall (fun c => forall idx rng, ok (fst (f c idx rng)) = true) nodes ->
  forall idx rng, forallb ok (fst (Pencil.mapChildren f nodes idx rng)) = true.
Proof.
  induction 1 as [| c rest Hc _ IH]; intros idx rng; cbn [Pencil.mapChildren].
  - reflexivity.
  - specialize (Hc idx rng). destruct (f c idx rng) as [e rng1].
    specialize (IH (S idx) rng1).
    destruct (Pencil.mapChildren f rest (S idx) rng1) as [es rng2].
    cbn in *. rewrite Hc, IH. reflexivity.
Qed.

Lemma normalizePencilNode_unfold (node : Pencil.PencilNode) (parentPath : string)
    (index : nat) (rng : Rng) :
  Pencil.normalizePencilNode node parentPath index rng
  = let currentPath := Path.buildPath parentPath (Pencil.normalizedName node) index in
    let elementType := Pencil.mapPencilTypeToStandard (Pencil.nodeType node) in
    let isIndependent := Pencil.isIndependentNode node in
    let '(elementId, rng1) :=
      match Pencil.nodeId node with
      | Some i =>
          if str_truthy i then (i, rng)
          else generateId (Pencil.ElementType_name elementType) rng
      | None => generateId (Pencil.ElementType_name elementType) rng
      end in
    let build kids :=
      mkElement elementId elementType currentPath (Pencil.nodeContent node)
        (Pencil.extractPencilStyles node) (Pencil.extractPencilLayout node) kids
        (Some (mkMetadata pencil (Pencil.nodeId node) (Some isIndependent)
                 (Pencil.codeComponentNameOf node) None)) in
    if isIndependent then (build None, rng1)
    else
      match Pencil.nodeChildren node with
      | Some (child :: rest) =>
          let '(kids, rng2) :=
            Pencil.mapChildren
              (fun c idx g => Pencil.normalizePencilNode c currentPath idx g)
              (child :: rest) 0 rng1 in
          (build (Some kids), rng2)
      | _ => (build None, rng1)
      end.
Proof. destruct node; reflexivity. Qed.

(** Design side: every element of a normalised node satisfies the
    invariant. *)
Lemma normalizePencilNode_opaque (node : Pencil.PencilNode) :
  forall parentPath index rng,
    ok (fst (Pencil.normalizePencilNode node parentPath index rng)) = true.
Proof.
  induction node as [node IH] using PencilNode_induction.
  intros parentPath index rng. rewrite normalizePencilNode_unfold. cbv zeta.
  destruct (match Pencil.nodeId node with
            | Some i => if str_truthy i then (i, rng) else _
            | None => _
            end) as [elementId rng1].
  destruct (Pencil.isIndependentNode node) eqn:Hind; [reflexivity |].
  destruct (Pencil.nodeChildren node) as [[| child rest] |]; try reflexivity.
  cbn [Stated.childrenAll] in IH.
  pose proof (mapChildren_opaque
                (fun c idx g =>
                   Pencil.normalizePencilNode c
                     (Path.buildPath parentPath (Pencil.normalizedName node) index) idx g)
                (child :: rest)) as Hkids.
  cbv beta in Hkids.
  assert (Hall : Forall
                   (fun c => forall idx g,
                        ok (fst (Pencil.normalizePencilNode c
                                   (Path.buildPath parentPath (Pencil.normalizedName node) index)
                                   idx g)) = true)
                   (child :: rest)).
  { eapply Forall_impl; [| exact IH]. intros c Hc idx g. apply Hc. }
  specialize (Hkids Hall 0 rng1).
  destruct (Pencil.mapChildren _ (child :: rest) 0 rng1) as [kids rng2].
  cbn [fst] in *. cbn. cbn in Hkids. exact Hkids.
Qed.

Lemma normalizePencilFrame_opaque (frame : Pencil.PencilFrame) (rng : Rng) :
  forallb ok (fst (Pencil.normalizePencilFrame frame rng)) = true.
Proof.
  unfold Pencil.normalizePencilFrame.
  destruct (Pencil.frameChildren frame) as [cs |]; [| reflexivity].
  pose proof (mapChildren_opaque
                (fun c idx g => Pencil.normalizePencilNode c (Pencil.frameName frame) idx g)
                cs) as Hkids.
  assert (Hall : Forall
                   (fun c => forall idx g,
                        ok (fst (Pencil.normalizePencilNode c (Pencil.frameName frame) idx g))
                        = true) cs).
  { apply Forall_forall. intros c _ idx g. apply normalizePencilNode_opaque. }
  specialize (Hkids Hall 0 rng).
  destruct (Pencil.mapChildren _ cs 0 rng) as [kids rng1].
  cbn [fst] in *. cbn. cbn in Hkids. rewrite Hkids. reflexivity.
Qed.

Lemma forallb_snoc {A : Type} (p : A -> bool) (xs : list A) (x : A) :
  forallb p (xs ++ [x]) = forallb p xs && p x.
Proof. rewrite forallb_app. cbn. rewrite andb_true_r. reflexivity. Qed.

Lemma collectChildren_opaque
    (extract : Ast.JSXElement -> nat -> Rng -> option StandardElement * Rng)
    (cs : list Ast.JSXChild) :
  Forall (Stated.elementChild
            (fun el => forall idx rng, Stated.opaqueOption (fst (extract el idx rng)))) cs ->
  forall acc rng,
    forallb ok acc = true ->
    forallb ok (fst (Code.collectChildren extract cs acc rng)) = true.
Proof.
  induction 1 as [| c rest Hc _ IH]; intros acc rng Hacc; cbn [Code.collectChildren].
  - exact Hacc.
  - destruct c as [? | ? | child |]; try (apply IH; exact Hacc).
    cbn [Stated.elementChild] in Hc. specialize (Hc (List.length acc) rng).
    destruct (extract child (List.length acc) rng) as [[e |] rng1]; cbn in Hc.
    + apply IH. rewrite forallb_snoc, Hacc, Hc. reflexivity.
    + apply IH. exact Hacc.
Qed.

(** Implementation side: every element extracted from a markup element
    satisfies the invariant. *)
Lemma extractJSXElement_opaque (node : Ast.JSXElement) :
  forall context childIndex rng,
    Stated.opaqueOption (fst (Code.extractJSXElement node context childIndex rng)).
Proof.
  induction node as [opening cs IH] using JSXElement_induction.
  intros context childIndex rng. cbn [Code.extractJSXElement].
  destruct (negb (str_truthy (Code.getTagName opening))); [exact I |].
  cbv zeta.
  destruct (IndependentComponents.isIndependentComponent (Code.getTagName opening))
    eqn:Hind.
  - cbn. cbn. reflexivity.
  - match goal with
    | |- context [Code.collectChildren ?f cs [] rng] =>
        pose proof (collectChildren_opaque f cs) as Hkids
    end.
    cbv beta in Hkids.
    assert (Hall : Forall
                     (Stated.elementChild
                        (fun el => forall idx g,
                             Stated.opaqueOption
                               (fst (Code.extractJSXElement el
                                       (Code.mkContext (Code.cssStyles context)
                                          (Code.buildElementPath (Code.getTagName opening)
                                             (Code.extractClassNames opening)
                                             (Code.currentPath context) childIndex)
                                          (Some (Code.getTagName opening))
                                          (Code.index context))
                                       idx g)))) cs).
    { eapply Forall_impl; [| exact IH].
      intros c Hc. destruct c; cbn in *; auto. }
    specialize (Hkids Hall [] rng eq_refl).
    destruct (Code.collectChildren _ cs [] rng) as [kids rng1].
    cbn [fst] in Hkids. cbn. cbn.
    destruct kids as [| k ks]; cbn; [reflexivity |].
    cbn in Hkids. exact Hkids.
Qed.

Lemma visitJSXElement_opaque (cssStyles : Code.StyleMap)
    (state : list StandardElement * Rng) (visit : Ast.JSXElement * Ast.NodePath) :
  forallb ok (fst state) = true ->
  forallb ok (fst (Code.visitJSXElement cssStyles state visit)) = true.
Proof.
  destruct state as [elements rng], visit as [node path]. cbn [fst]. intros Hok.
  unfold Code.visitJSXElement.
  destruct (Ast.parentOf path) as [parentNode |]; [| exact Hok].
  destruct (String.eqb (Ast.nodeKind parentNode) "ReturnStatement"
            && negb (Code.isInsideHookCallback path)); [| exact Hok].
  pose proof (extractJSXElement_opaque node
                (Code.mkContext cssStyles "" None (List.length elements))
                (List.length elements) rng) as Hel.
  destruct (Code.extractJSXElement node _ (List.length elements) rng) as [[e |] rng1];
    cbn in *; [| exact Hok].
  rewrite forallb_snoc, Hok, Hel. reflexivity.
Qed.

Lemma normalizeCodeFile_opaque (File : Type) (parseCSSModules : string -> Code.StyleMap)
    (parse : string -> Code.Completion File)
    (getTraverse : Code.Completion (File -> list (Ast.JSXElement * Ast.NodePath)))
    (tsxCode cssCode : string) (rng : Rng) :
  match Code.completion
          (fst (Code.normalizeCodeFile File parseCSSModules parse getTraverse
                  tsxCode cssCode rng)) with
  | Code.Returned elements => forallb ok elements = true
  | Code.Thrown _ => False
  end.
Proof.
  unfold Code.normalizeCodeFile.
  destruct (parse tsxCode) as [ast | e]; [| reflexivity].
  destruct getTraverse as [traverse | e]; [| reflexivity].
  assert (Hfold : forall visits state,
             forallb ok (fst state) = true ->
             forallb ok (fst (fold_left (Code.visitJSXElement (parseCSSModules cssCode))
                                        visits state)) = true).
  { induction visits as [| v rest IH]; intros state Hstate; cbn [fold_left].
    - exact Hstate.
    - apply IH. apply visitJSXElement_opaque. exact Hstate. }
  specialize (Hfold (traverse ast) ([], rng) eq_refl).
  destruct (fold_left _ (traverse ast) ([], rng)) as [elements rng1].
  exact Hfold.
Qed.

End OpaqueComponents.

(** C4: every element produced by either normalizer (a design node, a design
    frame, a markup element, a whole markup file) that is marked as an
    independent component has no children, whatever the source node or markup
    element contained. *)
Theorem opaque_components_have_no_children :
  (forall node parentPath index rng,
      Stated.opaqueHasNoChildren
        (fst (Pencil.normalizePencilNode node parentPath index rng)) = true)
  /\ (forall frame rng,
         forallb Stated.opaqueHasNoChildren
           (fst (Pencil.normalizePencilFrame frame rng)) = true)
  /\ (forall node context childIndex rng,
         Stated.opaqueOption
           (fst (Code.extractJSXElement node context childIndex rng)))
  /\ (forall File parseCSSModules parse getTraverse tsxCode cssCode rng,
         match Code.completion
                 (fst (Code.normalizeCodeFile File parseCSSModules parse getTraverse
                         tsxCode cssCode rng)) with
         | Code.Returned elements =>
             forallb Stated.opaqueHasNoChildren elements = true
         | Code.Thrown _ => False
         end).
Proof.
  split; [| split; [| split]].
  - intros. apply normalizePencilNode_opaque.
  - intros. apply normalizePencilFrame_opaque.
  - intros. apply extractJSXElement_opaque.
  - intros. apply normalizeCodeFile_opaque.
Qed.

(** The invariant is exercised: a registered design node and a registered
    tag, both written with a child, come out opaque and childless. *)
Example opaque_sources_with_children :
  (let el := fst (Pencil.normalizePencilNode Examples.settingsNode "header" 0
                    Examples.rng0) in
   Stated.isOpaque el = true /\ children el = None
   /\ Pencil.nodeChildren Examples.settingsNode <> None)
  /\ match fst (Code.extractJSXElement Examples.settingsMarkup
                  (Code.mkContext Examples.stylesheet "Card" None 0) 0 Examples.rng0) with
     | Some el => Stated.isOpaque el = true /\ children el = None
     | None => False
     end
  /\ Ast.childrenOf Examples.settingsMarkup <> [].
Proof. cbv zeta. repeat split; discriminate. Qed.

(* ================================================================= *)
(** ** Path segment of a design node *)

Section Strings.

Lemma list_ascii_app (a b : string) :
  list_ascii_of_string (a ++ b) = list_ascii_of_string a ++ list_ascii_of_string b.
Proof. induction a as [| c a IH]; cbn; [reflexivity | rewrite IH; reflexivity]. Qed.

Lemma string_of_list_app (l1 l2 : list ascii) :
  string_of_list_ascii (l1 ++ l2)
  = (string_of_list_ascii l1 ++ string_of_list_ascii l2)%string.
Proof. induction l1 as [| c l1 IH]; cbn; [reflexivity | rewrite IH; reflexivity]. Qed.

Lemma list_of_rev_string (s : string) :
  list_ascii_of_string (rev_string s) = rev (list_ascii_of_string s).
Proof. unfold rev_string. apply list_ascii_of_string_of_list_ascii. Qed.

Lemma rev_string_app (a b : string) :
  rev_string (a ++ b) = (rev_string b ++ rev_string a)%string.
Proof.
  unfold rev_string. rewrite list_ascii_app, rev_app_distr.
  apply string_of_list_app.
Qed.

Lemma rev_string_involutive (s : string) : rev_string (rev_string s) = s.
Proof.
  unfold rev_string at 1. rewrite list_of_rev_string, rev_involutive.
  apply string_of_list_ascii_of_string.
Qed.

Lemma forallb_reverse {A : Type} (p : A -> bool) (xs : list A) :
  forallb p (rev xs) = forallb p xs.
Proof.
  induction xs as [| x xs IH]; cbn; [reflexivity |].
  rewrite forallb_app, IH. cbn. rewrite andb_true_r. apply andb_comm.
Qed.

Lemma span_spec (p : ascii -> bool) (s : string) :
  s = (fst (span p s) ++ snd (span p s))%string
  /\ forallb p (list_ascii_of_string (fst (span p s))) = true
  /\ match snd (span p s) with
     | String c _ => p c = false
     | EmptyString => True
     end.
Proof.
  induction s as [| c s IH]; cbn; [auto |].
  destruct (p c) eqn:Hc.
  - destruct (span p s) as [a b]. cbn in *. destruct IH as (E & Ha & Hb).
    rewrite Hc, Ha. repeat split; [congruence | exact Hb].
  - cbn. rewrite Hc. auto.
Qed.

(** [stripNumericSuffix] removes a suffix of digits and leaves a name that
    does not end in a digit. *)
Lemma stripNumericSuffix_spec (name : string) :
  exists digits : string,
    name = (NameMapping.stripNumericSuffix name ++ digits)%string
    /\ Stated.allDigits digits = true
    /\ Stated.endsWithDigit (NameMapping.stripNumericSuffix name) = false.
Proof.
  unfold NameMapping.stripNumericSuffix, Stated.allDigits, Stated.endsWithDigit.
  destruct (span_spec is_digit (rev_string name)) as (E & Ha & Hb).
  destruct (span is_digit (rev_string name)) as [a b]. cbn [fst snd] in *.
  exists (rev_string a). repeat split.
  - rewrite <- rev_string_app, <- E. symmetry. apply rev_string_involutive.
  - rewrite list_of_rev_string, forallb_reverse. exact Ha.
  - rewrite list_of_rev_string, rev_involutive.
    destruct b as [| c b]; cbn; [reflexivity | exact Hb].
Qed.

End Strings.

(** C6: the rectangles named ['divider1'] and ['divider2'] under ['header']
    are normalised with the paths ['header > divider1[0]'] and
    ['header > divider2[1]']: the digits stay in the path segment, where the
    stated rule gives the segment ['divider'] for both.  The stripping exists
    in the normalizer ([normalizePencilName] gives ['divider'] for both
    names) and is applied to a text node of the same name, but not to any
    other node. *)
Theorem divider_segment_keeps_digits :
  path (fst (Pencil.normalizePencilNode Examples.dividerNode "header" 0 Examples.rng0))
  = "header > divider1[0]"
  /\ path (fst (Pencil.normalizePencilNode Examples.divider2Node "header" 1 Examples.rng0))
     = "header > divider2[1]"
  /\ Pencil.normalizePencilName "divider1" = "divider"
  /\ Pencil.normalizePencilName "divider2" = "divider"
  /\ path (fst (Pencil.normalizePencilNode Examples.dividerTextNode "header" 0
                  Examples.rng0))
     = "header > divider[0]".
Proof. repeat split. Qed.

(** Text nodes do follow the stated rule. *)
Example text_segment :
  path (fst (Pencil.normalizePencilNode Examples.labelNode "header" 1 Examples.rng0))
  = "header > titleLabel[1]".
Proof. reflexivity. Qed.

(* ================================================================= *)
(** ** Style resolution of a markup element *)

(** What a [className] expression contributes to the style map: the
    stylesheet properties of a direct member reference [styles.name], and
    nothing for any other expression. *)
Lemma styleOfAttr_className (cssStyles : Code.StyleMap) (styles : StyleProperties)
    (expr : Ast.Expr) :
  Code.styleOfAttr cssStyles styles
    (Ast.JSXAttribute (Some "className") (Some (Ast.AttrExpressionContainer expr)))
  = match expr with
    | Ast.MemberExpression _ (Ast.Identifier className) =>
        match dict_get cssStyles className with
        | Some classStyles => style_assign styles classStyles
        | None => styles
        end
    | _ => styles
    end.
Proof. destruct expr; reflexivity. Qed.

(** C7: for [className={`${styles.card} ${styles.active}`}] the two referenced
    classes are recognised when the path is built, and merging their
    stylesheet properties would give a font size and a colour; the style map
    that is extracted is empty.  The same holds for a ternary expression.
    Only a direct reference [styles.card] is resolved, and inline style
    values are merged after it. *)
Theorem class_expression_styles_not_merged :
  Code.extractClassNames Examples.templateOpening = ["card"; "active"]
  /\ Stated.resolvedClassStyles Examples.stylesheet
       (Code.extractClassNames Examples.templateOpening)
     = [("fontSize", JNum 16); ("color", JStr "#00BCD4")]
  /\ Code.extractStyleFromProps Examples.templateOpening Examples.stylesheet = []
  /\ Code.extractClassNames Examples.ternaryOpening = ["card"; "active"]
  /\ Code.extractStyleFromProps Examples.ternaryOpening Examples.stylesheet = []
  /\ Code.extractStyleFromProps Examples.memberOpening Examples.stylesheet
     = [("fontSize", JNum 16); ("padding", JNum 8)].
Proof. repeat split. Qed.

(* ================================================================= *)
(** ** Markup that does not parse *)

(** C8: when the markup fails to parse, [normalizeCodeFile] completes
    normally with the empty sequence (no partial tree), having logged the
    error; the exception does not reach the caller. *)
Theorem unparsable_markup_yields_empty (File : Type)
    (parseCSSModules : string -> Code.StyleMap)
    (parse : string -> Code.Completion File)
    (getTraverse : Code.Completion (File -> list (Ast.JSXElement * Ast.NodePath)))
    (tsxCode cssCode : string) (rng : Format.Rng) (e : string) :
  parse tsxCode = Code.Thrown e ->
  Code.normalizeCodeFile File parseCSSModules parse getTraverse tsxCode cssCode rng
  = (Code.mkOutcome (Code.Returned []) [e], rng).
Proof.
  intros Hparse. unfold Code.normalizeCodeFile. rewrite Hparse. reflexivity.
Qed.

Lemma unparsable_markup_yields_empty_witness :
  Examples.rejectingParse "<div" = Code.Thrown "SyntaxError: Unexpected token"
  /\ Code.normalizeCodeFile unit Examples.noStylesheet Examples.rejectingParse
       Examples.oneReturnedElement "<div" "" Examples.rng0
     = (Code.mkOutcome (Code.Returned []) ["SyntaxError: Unexpected token"],
        Examples.rng0).
Proof.
  split; [reflexivity |].
  apply (unparsable_markup_yields_empty unit Examples.noStylesheet
           Examples.rejectingParse Examples.oneReturnedElement "<div" ""
           Examples.rng0 "SyntaxError: Unexpected token").
  reflexivity.
Defined.

(** With a parser that accepts the markup, the same traversal yields its
    element: the empty result above is due to the parse error. *)
Example parsable_markup_yields_elements :
  match Code.completion
          (fst (Code.normalizeCodeFile unit Examples.noStylesheet Examples.acceptingParse
                  Examples.oneReturnedElement "<settingsButton />" "" Examples.rng0)) with
  | Code.Returned elements => map path elements = ["SettingsButton"]
  | Code.Thrown _ => False
  end.
Proof. reflexivity. Qed.

(* ================================================================= *)
(** ** Classification of the nodes of a run *)

(** C3: the design path ['header > settingsButton[0]'] is aligned, by name,
    with the implementation path ['header > SettingsDropdown[0]'], and the
    two elements form a matched pair; the implementation element is then
    visited again under its own path and recorded as extra.  The same happens
    to an implementation element paired by its text content. *)
Theorem matched_element_also_extra :
  (let r := Compare.compareStructures Examples.designHeader Examples.codeHeader
              Examples.noOptions in
   map (fun m => (matchPath m, id (matchPencil m), id (matchCode m))) (matches r)
   = [("header", "p0", "c0"); ("header > settingsButton[0]", "p1", "c1")]
   /\ map (fun d => (diffPath d, id (element d))) (extraInCode r)
      = [("header > SettingsDropdown[0]", "c1")]
   /\ missingInCode r = []
   /\ totalElements (summary r) = 3
   /\ status (summary r) = warn)
  /\ (let r := Compare.compareStructures Examples.designGreeting Examples.codeGreeting
                 Examples.noOptions in
      map (fun m => (matchPath m, id (matchPencil m), id (matchCode m), matchMethod m))
          (matches r)
      = [("Home", "p0", "c0", None);
         ("Home > title[0]", "p1", "c1", Some contentMethod)]
      /\ map (fun d => (diffPath d, id (element d))) (extraInCode r)
         = [("Home > heading[0]", "c1")]
      /\ missingInCode r = []).
Proof. cbv zeta. repeat split. Qed.

(* ================================================================= *)
(** * Further properties of the embedding *)

(* ================================================================= *)
(** ** Arithmetic of doubles *)

Section FloatArithmetic.

Lemma SFabs_binary_round_aux (s1 s2 : bool) (m e : Z) (l : location) :
  SFabs (binary_round_aux prec emax s1 m e l)
  = SFabs (binary_round_aux prec emax s2 m e l).
Proof.
  unfold binary_round_aux.
  destruct (shr_fexp prec emax m e l) as [mrs1 e1].
  destruct (shr_fexp prec emax _ e1 loc_Exact) as [mrs2 e2].
  destruct (shr_m mrs2); try reflexivity.
  destruct (Z.leb e2 (emax - prec)); reflexivity.
Qed.

Lemma SFabs_binary_normalize_opp (m e : Z) :
  SFabs (binary_normalize prec emax (- m) e false)
  = SFabs (binary_normalize prec emax m e false).
Proof.
  destruct m as [| p | p]; cbn [Z.opp binary_normalize]; try reflexivity;
    unfold binary_round;
    destruct (shl_align p e _) as [mz ez]; apply SFabs_binary_round_aux.
Qed.

Lemma SFabs_sub_sym (x y : spec_float) :
  SFabs (SF64sub x y) = SFabs (SF64sub y x).
Proof.
  unfold SF64sub, SFsub.
  destruct x as [sx | sx | | sx mx ex], y as [sy | sy | | sy my ey];
    try destruct sx; try destruct sy; try reflexivity;
    cbv zeta; rewrite (Z.min_comm ey ex);
    match goal with
    | |- SFabs (binary_normalize _ _ (?a - ?b) _ _) = _ =>
        replace (a - b)%Z with (- (b - a))%Z by lia
    end; apply SFabs_binary_normalize_opp.
Qed.

(** [|a - b| = |b - a|] on doubles. *)
Lemma abs_sub_sym (a b : float) : abs (a - b) = abs (b - a).
Proof.
  apply Prim2SF_inj. rewrite !abs_spec, !sub_spec. apply SFabs_sub_sym.
Qed.

Lemma SFmul_self_abs (x y : spec_float) :
  SFabs x = SFabs y -> SF64mul x x = SF64mul y y.
Proof.
  unfold SF64mul, SFmul.
  destruct x as [sx | sx | | sx mx ex], y as [sy | sy | | sy my ey];
    cbn [SFabs]; intros E; try discriminate; try reflexivity;
    try (destruct sx, sy; reflexivity).
  injection E as -> ->. destruct sx, sy; reflexivity.
Qed.

(** [(a - b)^2 = (b - a)^2] on doubles. *)
Lemma pow2_sub_sym (a b : float) : pow2 (a - b) = pow2 (b - a).
Proof.
  unfold pow2. apply Prim2SF_inj. rewrite !mul_spec, !sub_spec.
  apply SFmul_self_abs, SFabs_sub_sym.
Qed.

Lemma SFeqb_sym (x y : spec_float) : SFeqb x y = SFeqb y x.
Proof.
  unfold SFeqb, SFcompare.
  destruct x as [sx | sx | | sx mx ex], y as [sy | sy | | sy my ey];
    try destruct sx; try destruct sy; try reflexivity;
    rewrite (Z.compare_antisym ex ey);
    destruct (Z.compare ex ey); cbn [CompOpp]; try reflexivity;
    change (PosDef.Pos.compare_cont Eq) with Pos.compare;
    rewrite (Pos.compare_antisym mx my);
    destruct (Pos.compare mx my); reflexivity.
Qed.

Lemma float_eqb_sym (a b : float) : PrimFloat.eqb a b = PrimFloat.eqb b a.
Proof. rewrite !eqb_spec. apply SFeqb_sym. Qed.

(** A double that differs from itself is [NaN]. *)
Lemma is_nan_eq (n : float) : PrimFloat.is_nan n = true -> n = nan.
Proof.
  unfold PrimFloat.is_nan. rewrite eqb_spec. intros H.
  apply Prim2SF_inj. change (Prim2SF nan) with S754_nan.
  unfold SFeqb, SFcompare in H.
  destruct (Prim2SF n) as [s | s | | s m e]; try reflexivity;
    try (destruct s; discriminate).
  destruct s; rewrite Z.compare_refl in H;
    change (PosDef.Pos.compare_cont Eq) with Pos.compare in H;
    rewrite Pos.compare_refl in H; discriminate.
Qed.

(** Nothing is below or equal to [NaN], and [NaN] is below nothing. *)
Lemma leb_nan_l (t : float) : (nan <=? t)%float = false.
Proof. rewrite leb_spec. reflexivity. Qed.

End FloatArithmetic.

(* ================================================================= *)
(** ** Colours *)

Lemma rgbDistance_sym (c1 c2 : Color.Rgb) :
  Color.rgbDistance c1 c2 = Color.rgbDistance c2 c1.
Proof.
  unfold Color.rgbDistance.
  rewrite (pow2_sub_sym (Color.r c1)), (pow2_sub_sym (Color.g c1)),
    (pow2_sub_sym (Color.b c1)).
  reflexivity.
Qed.

(** X1: the distance of two colours does not depend on their order, parsable
    or not, and neither does [colorsEqual], at any tolerance. *)
Theorem colorsEqual_symmetric (c1 c2 : string) (t : float) :
  Color.colorDistance c1 c2 = Color.colorDistance c2 c1
  /\ Color.colorsEqual c1 c2 t = Color.colorsEqual c2 c1 t.
Proof.
  assert (D : Color.colorDistance c1 c2 = Color.colorDistance c2 c1).
  { unfold Color.colorDistance. rewrite (String.eqb_sym c2 c1).
    destruct (Color.hexToRgb c1) as [rgb1 |], (Color.hexToRgb c2) as [rgb2 |];
      try reflexivity.
    apply rgbDistance_sym. }
  split; [exact D |].
  unfold Color.colorsEqual. rewrite D, (String.eqb_sym c2 c1). reflexivity.
Qed.

(* ================================================================= *)
(** ** Colour strings and components *)

Section RgbRoundTrip.

Import Color.

Lemma forallb_seq (p : nat -> bool) (n k : nat) :
  forallb p (seq 0 n) = true -> k < n -> p k = true.
Proof.
  intros H Hk. rewrite forallb_forall in H. apply H. apply in_seq. lia.
Qed.

Lemma toHex_byte (k : nat) :
  k < 256 ->
  exists x y : ascii,
    toHex (num_of_nat k) = String x (String y EmptyString)
    /\ is_hex_digit x = true /\ is_hex_digit y = true
    /\ parse_hex_pair x y = num_of_nat k.
Proof.
  intros Hk.
  pose (check := fun k : nat =>
          match toHex (num_of_nat k) with
          | String x (String y EmptyString) =>
              is_hex_digit x && is_hex_digit y
              && PrimFloat.Leibniz.eqb (parse_hex_pair x y) (num_of_nat k)
          | _ => false
          end).
  assert (Hall : forallb check (seq 0 256) = true) by (vm_compute; reflexivity).
  pose proof (forallb_seq check 256 k Hall Hk) as Hc.
  clear Hall. subst check. cbv beta in Hc.
  destruct (toHex (num_of_nat k)) as [| x [| y [| ? ?]]]; try discriminate.
  apply andb_prop in Hc. destruct Hc as [Hxy Heq].
  apply andb_prop in Hxy. destruct Hxy as [Hx Hy].
  apply FloatAxioms.Leibniz.eqb_spec in Heq.
  exists x, y. auto.
Qed.

(** X4: converting components to a colour string and back is the identity on
    the integers 0 to 255. *)
Theorem hexToRgb_rgbToHex (red green blue : nat) :
  red < 256 -> green < 256 -> blue < 256 ->
  hexToRgb (rgbToHex (num_of_nat red) (num_of_nat green) (num_of_nat blue))
  = Some (mkRgb (num_of_nat red) (num_of_nat green) (num_of_nat blue)).
Proof.
  intros Hr Hg Hb. unfold rgbToHex.
  destruct (toHex_byte red Hr) as (r1 & r2 & -> & Hr1 & Hr2 & Er).
  destruct (toHex_byte green Hg) as (g1 & g2 & -> & Hg1 & Hg2 & Eg).
  destruct (toHex_byte blue Hb) as (b1 & b2 & -> & Hb1 & Hb2 & Eb).
  cbn [append]. unfold hexToRgb. cbn [list_ascii_of_string forallb].
  rewrite Hr1, Hr2, Hg1, Hg2, Hb1, Hb2. cbn [andb].
  rewrite Er, Eg, Eb. reflexivity.
Qed.

Lemma hexToRgb_rgbToHex_witness :
  hexToRgb (rgbToHex (num_of_nat 255) (num_of_nat 0) (num_of_nat 10))
  = Some (mkRgb (num_of_nat 255) (num_of_nat 0) (num_of_nat 10)).
Proof. apply (hexToRgb_rgbToHex 255 0 10); lia. Defined.

(** Two hexadecimal digits, parsed and written back, come out in lower
    case. *)
Lemma toHex_parse_hex_pair (x y : ascii) :
  is_hex_digit x = true -> is_hex_digit y = true ->
  toHex (parse_hex_pair x y) = String (lower_char x) (String (lower_char y) EmptyString).
Proof.
  intros Hx Hy.
  pose (check := fun x y : ascii =>
          negb (is_hex_digit x && is_hex_digit y)
          || String.eqb (toHex (parse_hex_pair x y))
               (String (lower_char x) (String (lower_char y) EmptyString))).
  assert (Hall : forallb (fun n => forallb (fun m => check (ascii_of_nat n) (ascii_of_nat m))
                                          (seq 0 256)) (seq 0 256) = true)
    by (vm_compute; reflexivity).
  pose proof (forallb_seq _ 256 (nat_of_ascii x) Hall (nat_ascii_bounded x)) as H1.
  cbv beta in H1.
  pose proof (forallb_seq _ 256 (nat_of_ascii y) H1 (nat_ascii_bounded y)) as H2.
  clear Hall H1. subst check. cbv beta in H2. rewrite !ascii_nat_embedding in H2.
  rewrite Hx, Hy in H2. cbn [andb negb orb] in H2.
  apply String.eqb_eq in H2. exact H2.
Qed.

(** X5: a parsed colour written back with [rgbToHex] is the same colour in
    canonical spelling: a [#] followed by the six digits in lower case. *)
Theorem rgbToHex_hexToRgb (hex : string) (rgb : Rgb) :
  hexToRgb hex = Some rgb ->
  rgbToHex (r rgb) (g rgb) (b rgb)
  = String "#" (toLowerCase (Views.hexBody hex)).
Proof.
  unfold hexToRgb. fold (Views.hexBody hex).
  destruct (list_ascii_of_string (Views.hexBody hex))
    as [| r1 [| r2 [| g1 [| g2 [| b1 [| b2 [| ? ?]]]]]]] eqn:Ebody;
    try discriminate.
  cbn [forallb].
  destruct (is_hex_digit r1) eqn:H1; [| discriminate].
  destruct (is_hex_digit r2) eqn:H2; [| discriminate].
  destruct (is_hex_digit g1) eqn:H3; [| discriminate].
  destruct (is_hex_digit g2) eqn:H4; [| discriminate].
  destruct (is_hex_digit b1) eqn:H5; [| discriminate].
  destruct (is_hex_digit b2) eqn:H6; [| discriminate].
  cbn [andb]. intros [= <-]. cbn [r g b]. unfold rgbToHex.
  rewrite !toHex_parse_hex_pair by assumption.
  rewrite <- (string_of_list_ascii_of_string (Views.hexBody hex)), Ebody.
  reflexivity.
Qed.

Lemma rgbToHex_hexToRgb_witness :
  hexToRgb "0A0b0C" = Some (mkRgb 10 11 12)
  /\ rgbToHex 10 11 12 = "#0a0b0c".
Proof.
  split; [reflexivity |].
  exact (rgbToHex_hexToRgb "0A0b0C" (mkRgb 10 11 12) eq_refl).
Defined.

End RgbRoundTrip.

(* ================================================================= *)
(** ** Equality of values *)

Section ValueEquality.

Import Format.

(** The pattern [Some "fontWeight"] is the test [property === 'fontWeight']. *)
Lemma fontWeight_match {A : Type} (property : option string) (x y : A) :
  match property with
  | Some "fontWeight" => x
  | _ => y
  end
  = if Views.isFontWeight property then x else y.
Proof.
  destruct property as [s |]; [| reflexivity]. cbn [Views.isFontWeight].
  do 10 (destruct s as [| c s]; [reflexivity |];
         destruct c as [b0 b1 b2 b3 b4 b5 b6 b7];
         destruct b0, b1, b2, b3, b4, b5, b6, b7; try reflexivity).
  destruct s; reflexivity.
Qed.

(** [valuesEqual] with the test on the property written as a test. *)
Lemma valuesEqual_unfold (v1 v2 : JsValue) (t : float) (property : option string) :
  valuesEqual v1 v2 t property
  = if is_nullish v1 then is_nullish v2
    else if is_nullish v2 then false
    else if strict_eq v1 v2 then true
    else if Views.isFontWeight property
              && negb (isNaN (fontWeightNum v1)) && negb (isNaN (fontWeightNum v2))
    then strict_eq (fontWeightNum v1) (fontWeightNum v2)
    else match v1, v2 with
         | JNum a, JNum b => (PrimFloat.abs (a - b) <=? t)%float
         | JStr a, JStr b => String.eqb (toLowerCase a) (toLowerCase b)
         | _, _ => false
         end.
Proof.
  unfold valuesEqual. rewrite fontWeight_match.
  destruct (is_nullish v1); [reflexivity |].
  destruct (is_nullish v2); [reflexivity |].
  destruct (strict_eq v1 v2); [reflexivity |].
  destruct (Views.isFontWeight property); cbn [andb]; [| reflexivity].
  destruct (negb (isNaN (fontWeightNum v1)) && negb (isNaN (fontWeightNum v2)));
    reflexivity.
Qed.

Lemma strict_eq_sym (v1 v2 : JsValue) : strict_eq v1 v2 = strict_eq v2 v1.
Proof.
  destruct v1, v2; cbn [strict_eq]; try reflexivity.
  - destruct b, b0; reflexivity.
  - apply float_eqb_sym.
  - apply String.eqb_sym.
  - apply Nat.eqb_sym.
Qed.

(** X2: [valuesEqual] does not depend on the order of the two values, for
    every tolerance and property hint. *)
Theorem valuesEqual_symmetric (v1 v2 : JsValue) (t : float) (property : option string) :
  valuesEqual v1 v2 t property = valuesEqual v2 v1 t property.
Proof.
  rewrite !valuesEqual_unfold.
  rewrite (strict_eq_sym v2 v1),
    (strict_eq_sym (fontWeightNum v2) (fontWeightNum v1)).
  replace (Views.isFontWeight property
           && negb (isNaN (fontWeightNum v2)) && negb (isNaN (fontWeightNum v1)))
    with (Views.isFontWeight property
          && negb (isNaN (fontWeightNum v1)) && negb (isNaN (fontWeightNum v2)))
    by (rewrite <- !andb_assoc; f_equal; apply andb_comm).
  destruct v1, v2; cbn [is_nullish]; try reflexivity;
    repeat match goal with
      | |- context [if ?c then _ else _] => destruct c; try reflexivity
      end.
  - rewrite (abs_sub_sym n0 n). reflexivity.
  - apply String.eqb_sym.
Qed.

Lemma bool_eqb_refl (b : bool) : Bool.eqb b b = true.
Proof. destruct b; reflexivity. Qed.

(** X3: every value equals itself at every tolerance (a negative or [NaN]
    tolerance included) and under every property hint, except the number
    [NaN], which never equals itself. *)
Theorem valuesEqual_self (v : JsValue) (t : float) (property : option string) :
  valuesEqual v v t property = negb (Views.isNaNValue v).
Proof.
  rewrite valuesEqual_unfold.
  destruct v as [| | b | n | s | ref k]; cbn [is_nullish strict_eq Views.isNaNValue negb];
    try reflexivity.
  - rewrite bool_eqb_refl. reflexivity.
  - destruct (PrimFloat.is_nan n) eqn:Hnan.
    + apply is_nan_eq in Hnan. subst n.
      change (PrimFloat.eqb nan nan) with false. cbv iota.
      change (isNaN (fontWeightNum (JNum nan))) with true.
      cbn [negb andb]. rewrite andb_false_r. cbv iota.
      change (abs (nan - nan)) with nan. apply leb_nan_l.
    + unfold PrimFloat.is_nan in Hnan. apply negb_false_iff in Hnan.
      rewrite Hnan. reflexivity.
  - rewrite String.eqb_refl. reflexivity.
  - rewrite Nat.eqb_refl. reflexivity.
Qed.

End ValueEquality.

(* ================================================================= *)
(** ** Element and style comparison *)

Section ElementComparison.

Lemma count_le_length {A : Type} (p : A -> bool) (xs : list A) :
  Stated.count p xs <= List.length xs.
Proof.
  induction xs as [| x rest IH]; cbn; [lia |]. destruct (p x); lia.
Qed.

Lemma filter_length_bound {A : Type} (p : A -> bool) (xs : list A) :
  List.length (filter p xs) <= List.length xs.
Proof.
  induction xs as [| x rest IH]; cbn; [lia |]. destruct (p x); cbn; lia.
Qed.

(** A ratio of two counts [m <= t] with [1 <= t <= 8], computed on doubles,
    lies between 0 and 1. *)
Lemma small_ratio_bounds (m t : nat) :
  m <= t -> 1 <= t -> t <= 8 ->
  (0 <=? num_of_nat m / num_of_nat t)%float = true
  /\ (num_of_nat m / num_of_nat t <=? 1)%float = true.
Proof.
  intros Hm H1 H8.
  assert (Hall :
            forallb (fun t => forallb
                                (fun m => (0 <=? num_of_nat m / num_of_nat (S t))%float
                                          && (num_of_nat m / num_of_nat (S t) <=? 1)%float)
                                (seq 0 (S (S t))))
                    (seq 0 8) = true) by (vm_compute; reflexivity).
  destruct t as [| t]; [lia |].
  pose proof (forallb_seq _ 8 t Hall ltac:(lia)) as Ht. cbv beta in Ht.
  pose proof (forallb_seq _ (S (S t)) m Ht ltac:(lia)) as Hmt. cbv beta in Hmt.
  apply andb_prop in Hmt. exact Hmt.
Qed.

(** X6: the confidence of a pair compared by [compareElements] lies between
    0 and 1, whatever the elements and options. *)
Theorem compareElements_confidence_range (pencilEl codeEl : StandardElement)
    (options : ComparisonOptions) :
  let c := confidence (Element.compareElements pencilEl codeEl options) in
  (0 <=? c)%float = true /\ (c <=? 1)%float = true.
Proof.
  cbv zeta. unfold Element.compareElements.
  rewrite (tally_fold pencilEl codeEl options Element.propertiesToCompare).
  cbv zeta. cbn [confidence Element.matchCount Element.totalCount Nat.add].
  set (kept := filter _ Element.propertiesToCompare).
  assert (Hlen : List.length kept <= 8)
    by (subst kept; apply (filter_length_bound _ Element.propertiesToCompare)).
  pose proof (count_le_length (Stated.elementRule pencilEl codeEl options) kept) as Hc.
  destruct (0 <? List.length kept)%nat eqn:Hpos.
  - apply Nat.ltb_lt in Hpos. apply small_ratio_bounds; lia.
  - split; reflexivity.
Qed.

End ElementComparison.

Section StyleComparison.

(** The difference, if any, that [compareStyles] records for one style
    property. *)
Lemma compareStyles_closed_form (pencilEl codeEl : StandardElement)
    (options : ComparisonOptions) (elementPath : string) :
  Style.compareStyles pencilEl codeEl options elementPath
  = (if negb (Style.ignored options "content")
        && Style.content_differs (content pencilEl) (content codeEl)
     then [mkStyleDiff elementPath "content"
             (of_opt_str (content pencilEl)) (of_opt_str (content codeEl)) None error]
     else [])
    ++ flat_map
         (fun prop =>
            if Style.ignored options prop then []
            else if Style.compareProperty prop
                      (style_get (styles pencilEl) prop) (style_get (styles codeEl) prop)
                      (num_or_zero (tolerance options))
                      (num_or_zero (colorTolerance options))
            then []
            else [mkStyleDiff elementPath prop
                    (style_get (styles pencilEl) prop) (style_get (styles codeEl) prop)
                    (Style.calculateDiff (style_get (styles pencilEl) prop)
                                         (style_get (styles codeEl) prop))
                    (Style.getSeverity prop options)])
         (set_of_list (dict_keys (styles pencilEl) ++ dict_keys (styles codeEl))).
Proof.
  unfold Style.compareStyles. cbv zeta.
  generalize (set_of_list (dict_keys (styles pencilEl) ++ dict_keys (styles codeEl))).
  intros props.
  match goal with
  | |- fold_left _ props ?start = ?start ++ _ => generalize start
  end.
  induction props as [| prop rest IH]; intros start; cbn [fold_left flat_map].
  - rewrite app_nil_r. reflexivity.
  - rewrite IH. destruct (Style.ignored options prop); [reflexivity |].
    destruct (Style.compareProperty prop _ _ _ _); [reflexivity |].
    rewrite <- app_assoc. reflexivity.
Qed.

(** X7: every difference reported by [compareStyles] carries the path it was
    asked about and concerns a property that is not ignored. *)
Theorem compareStyles_never_reports_ignored (pencilEl codeEl : StandardElement)
    (options : ComparisonOptions) (elementPath : string) (d : StyleDiff) :
  In d (Style.compareStyles pencilEl codeEl options elementPath) ->
  stylePath d = elementPath /\ Style.ignored options (property d) = false.
Proof.
  rewrite compareStyles_closed_form. intros Hin.
  apply in_app_or in Hin. destruct Hin as [Hin | Hin].
  - destruct (Style.ignored options "content") eqn:Hig; cbn [negb andb] in Hin;
      [contradiction |].
    destruct (Style.content_differs _ _); [| contradiction].
    destruct Hin as [<- | []]. auto.
  - apply in_flat_map in Hin. destruct Hin as (prop & _ & Hin).
    destruct (Style.ignored options prop) eqn:Hig; [contradiction |].
    destruct (Style.compareProperty prop _ _ _ _); [contradiction |].
    destruct Hin as [<- | []]. auto.
Qed.

Lemma compareStyles_never_reports_ignored_witness :
  In (mkStyleDiff "card" "fontSize" (JNum 16) (JNum 20) (Some 4%float) error)
     (Style.compareStyles
        (Examples.leaf "p" text "card" None [("fontSize", JNum 16)])
        (Examples.leaf "c" text "card" None [("fontSize", JNum 20)])
        Examples.noOptions "card")
  /\ Style.ignored Examples.noOptions "fontSize" = false.
Proof.
  assert (Hin : In (mkStyleDiff "card" "fontSize" (JNum 16) (JNum 20) (Some 4%float) error)
                   (Style.compareStyles
                      (Examples.leaf "p" text "card" None [("fontSize", JNum 16)])
                      (Examples.leaf "c" text "card" None [("fontSize", JNum 20)])
                      Examples.noOptions "card")) by (left; reflexivity).
  split; [exact Hin |].
  exact (proj2 (compareStyles_never_reports_ignored _ _ _ _ _ Hin)).
Defined.

(** X8: the severity of the differences follows the mode.  In strict mode
    every difference is an error; in lenient mode the only possible error is
    the difference of the text content, every style difference being
    informational. *)
Theorem compareStyles_severity_by_mode (pencilEl codeEl : StandardElement)
    (options : ComparisonOptions) (elementPath : string) :
  Forall
    (fun d =>
       match severity options with
       | Some strict => styleSeverity d = error
       | Some lenient =>
           styleSeverity d = info
           \/ (styleSeverity d = error /\ property d = "content" /\ diff d = None)
       | _ =>
           styleSeverity d = error \/ styleSeverity d = warning
       end)
    (Style.compareStyles pencilEl codeEl options elementPath).
Proof.
  rewrite compareStyles_closed_form. apply Forall_app. split.
  - destruct (negb (Style.ignored options "content")
              && Style.content_differs (content pencilEl) (content codeEl));
      constructor; [| constructor].
    cbn. destruct (severity options) as [[| |] |]; auto.
  - apply Forall_flat_map. apply Forall_forall. intros prop _.
    destruct (Style.ignored options prop); [constructor |].
    destruct (Style.compareProperty prop _ _ _ _); constructor; [| constructor].
    cbn. unfold Style.getSeverity.
    destruct (severity options) as [[| |] |]; auto;
      destruct (existsb (String.eqb prop) Style.CRITICAL_PROPERTIES); auto.
Qed.

End StyleComparison.

Section SelfComparison.

Lemma strict_eq_refl (v : JsValue) :
  Views.isNaNValue v = false -> strict_eq v v = true.
Proof.
  destruct v as [| | b | n | s | ref k]; cbn [strict_eq Views.isNaNValue];
    intros H; try reflexivity.
  - apply bool_eqb_refl.
  - unfold PrimFloat.is_nan in H. apply negb_false_iff in H. exact H.
  - apply String.eqb_refl.
  - apply Nat.eqb_refl.
Qed.

Lemma style_compareProperty_refl (prop : string) (v : JsValue) (t ct : float) :
  Views.isNaNValue v = false -> Style.compareProperty prop v v t ct = true.
Proof.
  intros H. unfold Style.compareProperty.
  assert (Hv : Format.valuesEqual v v t (Some prop) = true).
  { rewrite valuesEqual_unfold. destruct (is_nullish v); [reflexivity |].
    rewrite (strict_eq_refl v H). reflexivity. }
  destruct (String.eqb prop "color" || String.eqb prop "backgroundColor");
    [| exact Hv].
  destruct v; try exact Hv.
  unfold Color.colorsEqual. rewrite String.eqb_refl. reflexivity.
Qed.

Lemma count_all {A : Type} (p : A -> bool) (xs : list A) :
  (forall x, In x xs -> p x = true) -> Stated.count p xs = List.length xs.
Proof.
  induction xs as [| x rest IH]; intros H; cbn; [reflexivity |].
  rewrite (H x (or_introl eq_refl)), IH; [reflexivity |].
  intros y Hy. apply H. right. exact Hy.
Qed.

Lemma flat_map_all_nil {A B : Type} (f : A -> list B) (xs : list A) :
  (forall x, In x xs -> f x = []) -> flat_map f xs = [].
Proof.
  induction xs as [| x rest IH]; intros H; cbn; [reflexivity |].
  rewrite (H x (or_introl eq_refl)), IH; [reflexivity |].
  intros y Hy. apply H. right. exact Hy.
Qed.

Lemma small_ratio_one (k : nat) :
  1 <= k -> k <= 8 -> (num_of_nat k / num_of_nat k)%float = 1%float.
Proof.
  intros H1 H8.
  assert (Hall : forallb (fun k => PrimFloat.Leibniz.eqb
                                     (num_of_nat (S k) / num_of_nat (S k)) 1)
                         (seq 0 8) = true) by (vm_compute; reflexivity).
  destruct k as [| k]; [lia |].
  pose proof (forallb_seq _ 8 k Hall ltac:(lia)) as Hk. cbv beta in Hk.
  apply FloatAxioms.Leibniz.eqb_spec in Hk. exact Hk.
Qed.

(** X9: an element whose style values and content are not the number [NaN]
    compares equal to itself: [compareElements] gives confidence 1 with every
    compared property matching, and [compareStyles] reports no difference, at
    every tolerance and in every mode. *)
Theorem self_comparison (el : StandardElement) (options : ComparisonOptions)
    (elementPath : string) :
  (forall prop, Views.isNaNValue (style_get (styles el) prop) = false) ->
  confidence (Element.compareElements el el options) = 1%float
  /\ Forall (fun entry => snd entry = true)
            (propertiesMatch (Element.compareElements el el options))
  /\ Style.compareStyles el el options elementPath = [].
Proof.
  intros Hnan.
  assert (Hvalue : forall prop, Views.isNaNValue (Element.propertyValue el prop) = false).
  { intros prop. unfold Element.propertyValue.
    destruct (String.eqb prop "content"); [| apply Hnan].
    destruct (content el); reflexivity. }
  assert (Hrule : forall prop, Stated.elementRule el el options prop = true).
  { intros prop. unfold Stated.elementRule. cbv zeta.
    rewrite (strict_eq_refl _ (Hvalue prop)). reflexivity. }
  split; [| split].
  - unfold Element.compareElements.
    rewrite (tally_fold el el options Element.propertiesToCompare).
    cbv zeta. cbn [confidence Element.matchCount Element.totalCount Nat.add].
    set (kept := filter _ Element.propertiesToCompare).
    assert (Hlen : List.length kept <= 8)
      by (subst kept; apply (filter_length_bound _ Element.propertiesToCompare)).
    rewrite (count_all _ kept (fun prop _ => Hrule prop)).
    destruct (0 <? List.length kept)%nat eqn:Hpos; [| reflexivity].
    apply Nat.ltb_lt in Hpos. apply small_ratio_one; lia.
  - unfold Element.compareElements.
    rewrite (tally_fold el el options Element.propertiesToCompare).
    cbv zeta. cbn [propertiesMatch Element.tallyMatch app].
    apply Forall_map. apply Forall_forall. intros prop _. cbn. apply Hrule.
  - rewrite compareStyles_closed_form.
    unfold Style.content_differs.
    rewrite (strict_eq_refl (of_opt_str (content el)))
      by (destruct (content el); reflexivity).
    rewrite andb_false_r. cbn [app].
    apply flat_map_all_nil. intros prop _.
    destruct (Style.ignored options prop); [reflexivity |].
    rewrite (style_compareProperty_refl prop _ _ _ (Hnan prop)). reflexivity.
Qed.

Lemma self_comparison_witness :
  confidence (Element.compareElements Examples.designTitle Examples.designTitle
                Examples.noOptions) = 1%float
  /\ Style.compareStyles Examples.designTitle Examples.designTitle Examples.noOptions
       "card > title[0]" = [].
Proof.
  assert (Hnan : forall prop,
             Views.isNaNValue (style_get (styles Examples.designTitle) prop) = false).
  { intros prop. unfold style_get. cbn [styles Examples.designTitle Examples.leaf dict_get].
    destruct (String.eqb "fontWeight" prop); [reflexivity |].
    destruct (String.eqb "fontSize" prop); reflexivity. }
  pose proof (self_comparison Examples.designTitle Examples.noOptions
                "card > title[0]" Hnan) as H.
  split; [exact (proj1 H) | exact (proj2 (proj2 H))].
Defined.

End SelfComparison.

(* ================================================================= *)
(** ** Dictionaries and sets *)

Lemma find_append {A : Type} (p : A -> bool) (xs ys : list A) :
  find p (xs ++ ys) = match find p xs with
                      | Some x => Some x
                      | None => find p ys
                      end.
Proof.
  induction xs as [| x rest IH]; cbn [app find]; [reflexivity |].
  destruct (p x); [reflexivity | exact IH].
Qed.

Section Dictionaries.

Context {V : Type}.

Lemma dict_get_set (d : Dict V) (k k' : string) (v : V) :
  dict_get (dict_set d k v) k' = if String.eqb k k' then Some v else dict_get d k'.
Proof.
  induction d as [| [k0 v0] rest IH]; cbn [dict_set dict_get].
  - reflexivity.
  - destruct (String.eqb k0 k) eqn:E0; cbn [dict_get].
    + apply String.eqb_eq in E0. subst k0.
      destruct (String.eqb k k'); reflexivity.
    + destruct (String.eqb k0 k') eqn:E1.
      * apply String.eqb_eq in E1. subst k0.
        rewrite String.eqb_sym, E0. reflexivity.
      * exact IH.
Qed.

(** Looking up after inserting a list of entries: the last entry of the list
    with that key, else what was there before. *)
Lemma dict_get_fold_set {A : Type} (key : A -> string) (val : A -> V)
    (xs : list A) (d : Dict V) (k : string) :
  dict_get (fold_left (fun acc x => dict_set acc (key x) (val x)) xs d) k
  = match Views.findLast (fun x => String.eqb (key x) k) xs with
    | Some x => Some (val x)
    | None => dict_get d k
    end.
Proof.
  revert d. induction xs as [| x rest IH]; intros d; cbn [fold_left].
  - reflexivity.
  - rewrite IH. unfold Views.findLast. cbn [rev].
    destruct (find _ (rev rest)) as [y |] eqn:Hrest.
    + rewrite find_append, Hrest. reflexivity.
    + rewrite find_append, Hrest. cbn [find].
      rewrite dict_get_set. destruct (String.eqb (key x) k); reflexivity.
Qed.


End Dictionaries.

Section Sets.

Lemma set_has_in (set : list string) (x : string) :
  set_has set x = true <-> In x set.
Proof.
  unfold set_has. rewrite existsb_exists. split.
  - intros (y & Hy & E). apply String.eqb_eq in E. subst. exact Hy.
  - intros H. exists x. split; [exact H | apply String.eqb_refl].
Qed.


Lemma set_add_nodup (set : list string) (x : string) :
  NoDup set -> NoDup (set_add set x).
Proof.
  intros H. unfold set_add. destruct (set_has set x) eqn:E; [exact H |].
  apply NoDup_app; [exact H | repeat constructor; intros [] | ].
  intros y Hy [<- | []].
  apply set_has_in in Hy. congruence.
Qed.


Lemma fold_set_add_nodup (xs acc : list string) :
  NoDup acc -> NoDup (fold_left set_add xs acc).
Proof.
  revert acc. induction xs as [| x rest IH]; intros acc H; cbn [fold_left].
  - exact H.
  - apply IH, set_add_nodup, H.
Qed.


Lemma set_of_list_nodup (xs : list string) : NoDup (set_of_list xs).
Proof. apply fold_set_add_nodup. constructor. Qed.


End Sets.

(* ================================================================= *)
(** ** Indexing a forest *)

Section Indexing.

(** Induction on a canonical element, with the property available for every
    child. *)
Lemma StandardElement_induction (P : StandardElement -> Prop) :
  (forall el, Stated.childrenAll P (children el) -> P el) ->
  forall el, P el.
Proof.
  intros step.
  refine (fix IH (el : StandardElement) : P el := step el _).
  destruct el as [? ? ? ? ? ? kids ?]; cbn.
  destruct kids as [cs |]; cbn; [| exact I].
  induction cs as [| c rest IHrest]; constructor; [apply IH | exact IHrest].
Qed.

(** A walk that applies [visit] to a node and then walks its children is the
    fold of [visit] over the nodes in pre-order. *)
Lemma walk_children {S : Type} (walk : StandardElement -> S -> S)
    (visit : S -> StandardElement -> S) (cs : list StandardElement) :
  Forall (fun c => forall s, walk c s = fold_left visit (Views.nodes c) s) cs ->
  forall s,
    fold_left (fun acc child => walk child acc) cs s
    = fold_left visit (flat_map Views.nodes cs) s.
Proof.
  induction 1 as [| c rest Hc _ IH]; intros s; cbn [fold_left flat_map].
  - reflexivity.
  - rewrite fold_left_app, <- Hc. apply IH.
Qed.

Lemma path_addElement_nodes (el : StandardElement) :
  forall index,
    Path.addElement el index
    = fold_left (fun acc e => dict_set acc (path e) e) (Views.nodes el) index.
Proof.
  induction el as [el IH] using StandardElement_induction. intros index.
  destruct el as [i t p c s l kids m]; cbn [Path.addElement Views.nodes children path] in *.
  destruct kids as [cs |]; cbn [fold_left]; [| reflexivity].
  cbn [Stated.childrenAll] in IH.
  apply (walk_children Path.addElement (fun acc e => dict_set acc (path e) e) cs IH).
Qed.

Lemma indexByPath_nodes (els : list StandardElement) :
  Path.indexByPath els
  = fold_left (fun acc e => dict_set acc (path e) e) (Views.forestNodes els) [].
Proof.
  unfold Path.indexByPath, Views.forestNodes.
  apply (walk_children Path.addElement (fun acc e => dict_set acc (path e) e)).
  apply Forall_forall. intros el _. apply path_addElement_nodes.
Qed.

(** X10: [indexByPath] records every node of the forest, children included,
    under its own path.  For a path that is not a name inherited from
    [Object.prototype], in a forest without a node at the path [__proto__],
    looking the path up gives the last node in pre-order that has this path
    (so of several nodes sharing a path only the last is kept), and nothing
    when no node has it.  The index is a plain object: an inherited name is
    found in it whatever the forest, and a node at [__proto__] would replace
    its prototype; the two hypotheses leave these lookups out. *)
Theorem indexByPath_lookup (els : list StandardElement) (p : string) :
  Views.inheritedName p = false ->
  Views.noPrototypePath els = true ->
  dict_get (Path.indexByPath els) p
  = Views.findLast (fun e => String.eqb (path e) p) (Views.forestNodes els).
Proof.
  intros _ _.
  rewrite indexByPath_nodes.
  rewrite (dict_get_fold_set path (fun e => e)).
  destruct (Views.findLast _ _); reflexivity.
Qed.

Lemma indexByPath_lookup_witness :
  dict_get (Path.indexByPath Examples.designGreeting) "Home > title[0]"
  = Views.findLast (fun e => String.eqb (path e) "Home > title[0]")
                   (Views.forestNodes Examples.designGreeting)
  /\ dict_get (Path.indexByPath Examples.designGreeting) "Home > heading[0]" = None.
Proof.
  split.
  - apply (indexByPath_lookup Examples.designGreeting "Home > title[0]"); reflexivity.
  - reflexivity.
Defined.

(** What [indexByContent] does with one node. *)
Lemma content_addElement_nodes (el : StandardElement) :
  forall index,
    Compare.addElement el index
    = fold_left
        (fun acc e =>
           if Compare.hasContent e then
             match dict_get acc (Compare.contentKey e) with
             | Some bucket => dict_set acc (Compare.contentKey e) (bucket ++ [e])
             | None => dict_set acc (Compare.contentKey e) [e]
             end
           else acc)
        (Views.nodes el) index.
Proof.
  induction el as [el IH] using StandardElement_induction. intros index.
  destruct el as [i t p c s l kids m];
    cbn [Compare.addElement Views.nodes children] in *.
  destruct kids as [cs |]; cbn [fold_left]; [| reflexivity].
  cbn [Stated.childrenAll] in IH.
  match goal with
  | |- _ = fold_left ?visit _ _ => apply (walk_children Compare.addElement visit cs IH)
  end.
Qed.

(** Every member of a bucket of the content index is a node of the forest
    that has content, filed under its own key. *)
Lemma indexByContent_buckets (els : list StandardElement) (key : string)
    (bucket : list StandardElement) (e : StandardElement) :
  dict_get (Compare.indexByContent els) key = Some bucket ->
  In e bucket ->
  In e (Views.forestNodes els)
  /\ Compare.hasContent e = true /\ Compare.contentKey e = key.
Proof.
  unfold Compare.indexByContent, Views.forestNodes.
  rewrite (walk_children Compare.addElement _ els
             (proj2 (Forall_forall _ _) (fun el _ => content_addElement_nodes el))).
  generalize (flat_map Views.nodes els). intros ns.
  assert (Hgen : forall (ns : list StandardElement) (d : Compare.ContentIndex)
                        (seen : list StandardElement),
             (forall k b x, dict_get d k = Some b -> In x b ->
                            In x seen /\ Compare.hasContent x = true
                            /\ Compare.contentKey x = k) ->
             forall k b x,
               dict_get
                 (fold_left
                    (fun acc e =>
                       if Compare.hasContent e then
                         match dict_get acc (Compare.contentKey e) with
                         | Some bucket => dict_set acc (Compare.contentKey e) (bucket ++ [e])
                         | None => dict_set acc (Compare.contentKey e) [e]
                         end
                       else acc) ns d) k = Some b ->
               In x b ->
               In x (seen ++ ns) /\ Compare.hasContent x = true
               /\ Compare.contentKey x = k).
  { clear. induction ns as [| n rest IH]; intros d seen Hd k b x; cbn [fold_left].
    - rewrite app_nil_r. apply Hd.
    - replace (seen ++ n :: rest) with ((seen ++ [n]) ++ rest)
        by (rewrite <- app_assoc; reflexivity).
      apply IH. clear k b x. intros k b x Hget Hin.
      destruct (Compare.hasContent n) eqn:Hc.
      + destruct (dict_get d (Compare.contentKey n)) as [old |] eqn:Hold;
          rewrite dict_get_set in Hget;
          destruct (String.eqb (Compare.contentKey n) k) eqn:Hk.
        * apply String.eqb_eq in Hk. injection Hget as <-.
          apply in_app_or in Hin. destruct Hin as [Hin | [<- | []]].
          -- destruct (Hd _ _ _ Hold Hin) as (H1 & H2 & H3).
             rewrite in_app_iff. subst k. auto.
          -- rewrite in_app_iff. cbn. auto.
        * destruct (Hd _ _ _ Hget Hin) as (H1 & H2 & H3).
          rewrite in_app_iff. auto.
        * apply String.eqb_eq in Hk. injection Hget as <-.
          destruct Hin as [<- | []]. rewrite in_app_iff. cbn. auto.
        * destruct (Hd _ _ _ Hget Hin) as (H1 & H2 & H3).
          rewrite in_app_iff. auto.
      + destruct (Hd _ _ _ Hget Hin) as (H1 & H2 & H3).
        rewrite in_app_iff. auto. }
  intros Hget Hin.
  apply (Hgen ns [] []) with (b := bucket); [| exact Hget | exact Hin].
  intros k b x Hk. cbn in Hk. discriminate.
Qed.

(** X11: a content-fallback match against the index of a forest is a node of
    that forest whose trimmed, lower-cased text is that of the target, and
    which is not among the identifiers already matched; it is of another kind
    than the target only if no unmatched candidate of the same kind is filed
    under that text. *)
Theorem findMatchByContent_sound (target : StandardElement)
    (els : list StandardElement) (matchedIds : list string) (found : StandardElement) :
  Compare.findMatchByContent target (Compare.indexByContent els) matchedIds = Some found ->
  In found (Views.forestNodes els)
  /\ Compare.hasContent target = true
  /\ Compare.hasContent found = true
  /\ Compare.contentKey found = Compare.contentKey target
  /\ set_has matchedIds (id found) = false
  /\ (ElementType_eqb (type found) (type target) = false ->
      forall other bucket,
        dict_get (Compare.indexByContent els) (Compare.contentKey target) = Some bucket ->
        In other bucket ->
        set_has matchedIds (id other) = false ->
        ElementType_eqb (type other) (type target) = false).
Proof.
  unfold Compare.findMatchByContent.
  destruct (Compare.hasContent target) eqn:Htarget; cbn [negb]; [| discriminate].
  destruct (dict_get (Compare.indexByContent els) (Compare.contentKey target))
    as [candidates |] eqn:Hget; [| discriminate].
  destruct (find (fun candidate =>
                    negb (set_has matchedIds (id candidate))
                    && ElementType_eqb (type candidate) (type target)) candidates)
    as [same |] eqn:Hsame.
  - intros [= <-]. apply find_some in Hsame. destruct Hsame as [Hin Hp].
    apply andb_prop in Hp. destruct Hp as [Hun Hty].
    apply negb_true_iff in Hun.
    destruct (indexByContent_buckets els _ _ _ Hget Hin) as (H1 & H2 & H3).
    repeat split; auto. intros Hne. congruence.
  - intros Hany. apply find_some in Hany. destruct Hany as [Hin Hun].
    apply negb_true_iff in Hun.
    destruct (indexByContent_buckets els _ _ _ Hget Hin) as (H1 & H2 & H3).
    repeat split; auto.
    intros _ other bucket [= <-] Hother Hfree.
    pose proof (find_none _ _ Hsame other Hother) as Hno. cbv beta in Hno.
    rewrite Hfree in Hno. exact Hno.
Qed.

Lemma findMatchByContent_sound_witness :
  Compare.findMatchByContent
    (Examples.leaf "p1" text "Home > title[0]" (Some "Hello") [])
    (Compare.indexByContent Examples.codeGreeting) []
  = Some (Examples.leaf "c1" text "Home > heading[0]" (Some " hello ") [])
  /\ Compare.contentKey (Examples.leaf "c1" text "Home > heading[0]" (Some " hello ") [])
     = "hello".
Proof.
  assert (H : Compare.findMatchByContent
                (Examples.leaf "p1" text "Home > title[0]" (Some "Hello") [])
                (Compare.indexByContent Examples.codeGreeting) []
              = Some (Examples.leaf "c1" text "Home > heading[0]" (Some " hello ") []))
    by reflexivity.
  split; [exact H |].
  exact (proj1 (proj2 (proj2 (proj2 (findMatchByContent_sound _ _ _ _ H))))).
Defined.

End Indexing.

(* ================================================================= *)
(** ** Runs of the comparison *)

Section Runs.

Variable options : ComparisonOptions.
Variables pencilByPath codeByPath : Path.PathIndex.
Variables pencilByContent codeByContent : Compare.ContentIndex.
Variable pathMatches : Dict string.

Local Abbreviation step :=
  (Compare.classifyPath options pencilByPath codeByPath
     pencilByContent codeByContent pathMatches).

Lemma classifyPath_severities (run : Compare.Run) (path : string) :
  Views.severitiesOk options (Compare.runMissing run) (Compare.runExtra run) ->
  Views.severitiesOk options (Compare.runMissing (step run path))
                     (Compare.runExtra (step run path)).
Proof.
  intros [Hm He]. unfold Compare.classifyPath.
  destruct (dict_get pencilByPath path) as [pencilEl |];
    destruct (dict_get codeByPath _) as [codeEl |];
    cbv zeta.
  - split; assumption.
  - destruct (Compare.hasContent pencilEl);
      [destruct (Compare.findMatchByContent pencilEl codeByContent _) |];
      cbn [Compare.runMissing Compare.runExtra]; split; try assumption;
      apply Forall_app; split; try assumption; repeat constructor.
  - destruct (Compare.hasContent codeEl);
      [destruct (Compare.findMatchByContent codeEl pencilByContent _) |];
      cbn [Compare.runMissing Compare.runExtra]; split; try assumption;
      apply Forall_app; split; try assumption; repeat constructor.
  - split; assumption.
Qed.

Lemma fold_severities (paths : list string) (run : Compare.Run) :
  Views.severitiesOk options (Compare.runMissing run) (Compare.runExtra run) ->
  Views.severitiesOk options
    (Compare.runMissing (fold_left step paths run))
    (Compare.runExtra (fold_left step paths run)).
Proof.
  revert run. induction paths as [| p rest IH]; intros run H; cbn [fold_left].
  - exact H.
  - apply IH, classifyPath_severities, H.
Qed.



End Runs.

Section Alignment.


End Alignment.

Lemma existsb_all {A : Type} (p : A -> bool) (xs : list A) :
  Forall (fun x => p x = true) xs ->
  existsb p xs = match xs with [] => false | _ :: _ => true end.
Proof. intros H. destruct H as [| x rest Hx _]; cbn; [| rewrite Hx]; reflexivity. Qed.

Lemma existsb_none {A : Type} (p : A -> bool) (xs : list A) :
  Forall (fun x => p x = false) xs -> existsb p xs = false.
Proof.
  induction 1 as [| x rest Hx _ IH]; cbn; [reflexivity |]. rewrite Hx, IH. reflexivity.
Qed.

(** X12: in every run, a missing element is always an error and an extra
    element is an error in strict mode and a warning otherwise.  Hence the
    status is [pass] exactly when nothing is missing, nothing is extra and no
    property difference is an error; and it is [fail] as soon as one element
    is missing, in every mode. *)
Theorem run_status (pencilElements codeElements : list StandardElement)
    (options : ComparisonOptions) :
  let r := Compare.compareStructures pencilElements codeElements options in
  Views.severitiesOk options (missingInCode r) (extraInCode r)
  /\ (status (summary r) = pass
      <-> missingInCode r = [] /\ extraInCode r = []
          /\ existsb Stated.isErrorStyleDiff (styleDiffs r) = false)
  /\ (missingInCode r <> [] -> status (summary r) = fail).
Proof.
  cbv zeta.
  assert (Hsev : Views.severitiesOk options
                   (missingInCode (Compare.compareStructures pencilElements codeElements options))
                   (extraInCode (Compare.compareStructures pencilElements codeElements options))).
  { unfold Compare.compareStructures. cbn [missingInCode extraInCode].
    apply fold_severities. split; constructor. }
  split; [exact Hsev |].
  destruct Hsev as [Hm He].
  unfold Compare.compareStructures in *.
  cbn [summary missingInCode extraInCode styleDiffs] in *.
  match goal with
  | |- context [Compare.calculateSummary ?ms ?mi ?ex ?sd] =>
      destruct (calculateSummary_stated ms mi ex sd) as (_ & _ & _ & _ & _ & _ & Hst);
      cbv zeta in Hst; rewrite Hst; clear Hst;
      generalize dependent sd; generalize dependent ex; generalize dependent mi
  end.
  intros mi Hm ex He sd. unfold Stated.overallStatus.
  assert (Hmi : existsb Stated.isErrorDiff mi
                = match mi with [] => false | _ :: _ => true end).
  { apply existsb_all. eapply Forall_impl; [| exact Hm].
    intros d [_ Hd]. unfold Stated.isErrorDiff. rewrite Hd. reflexivity. }
  rewrite Hmi. split.
  - destruct mi as [| m0 mi']; cbn [orb]; [| split; [discriminate | intros [? _]; discriminate]].
    destruct (existsb Stated.isErrorStyleDiff sd); cbn [orb];
      [split; [discriminate | intros (_ & _ & ?); discriminate] |].
    destruct ex as [| e0 ex']; cbn [existsb]; [tauto |].
    destruct (Stated.isErrorDiff e0 || existsb Stated.isErrorDiff ex');
      split; try discriminate; intros (_ & ? & _); discriminate.
  - destruct mi; [congruence | reflexivity].
Qed.


(* ================================================================= *)
(** ** Names of design nodes *)

Section DesignNames.

Lemma span_head_fails (p : ascii -> bool) (s : string) :
  match s with
  | String c _ => p c = false
  | EmptyString => True
  end ->
  span p s = (EmptyString, s).
Proof. destruct s as [| c rest]; cbn; [reflexivity |]. intros ->. reflexivity. Qed.

(** X14: stripping the numeric suffix is idempotent: nothing is left to strip
    from a stripped name. *)
Theorem stripNumericSuffix_idempotent (name : string) :
  NameMapping.stripNumericSuffix (NameMapping.stripNumericSuffix name)
  = NameMapping.stripNumericSuffix name.
Proof.
  destruct (stripNumericSuffix_spec name) as (digits & _ & _ & Hend).
  set (s := NameMapping.stripNumericSuffix name) in *.
  unfold NameMapping.stripNumericSuffix at 1.
  unfold Stated.endsWithDigit in Hend.
  rewrite span_head_fails.
  - apply rev_string_involutive.
  - unfold rev_string.
    destruct (rev (list_ascii_of_string s)) as [| c rest]; cbn; [exact I | exact Hend].
Qed.

Lemma lower_char_of_upper (c : ascii) :
  is_upper c = true ->
  is_upper (lower_char c) = false /\ is_alnum (lower_char c) = true.
Proof.
  destruct c as [b0 b1 b2 b3 b4 b5 b6 b7].
  destruct b0, b1, b2, b3, b4, b5, b6, b7; cbn; intros H;
    try discriminate; split; reflexivity.
Qed.

Lemma keep_alnum_all (s : string) : Views.allAlnum (Pencil.keep_alnum s) = true.
Proof.
  unfold Views.allAlnum.
  induction s as [| c rest IH]; cbn; [reflexivity |].
  destruct (is_alnum c) eqn:Hc; cbn; [rewrite Hc |]; exact IH.
Qed.

(** X15: the name that [normalizePencilName] gives a text node consists of
    ASCII letters and digits only and does not start with an upper-case
    letter, whatever the name in the design. *)
Theorem normalizePencilName_shape (name : string) :
  Views.allAlnum (Pencil.normalizePencilName name) = true
  /\ Views.startsUpper (Pencil.normalizePencilName name) = false.
Proof.
  unfold Pencil.normalizePencilName.
  pose proof (keep_alnum_all (NameMapping.stripNumericSuffix name)) as Hall.
  destruct (Pencil.keep_alnum (NameMapping.stripNumericSuffix name)) as [| c rest];
    cbn [Pencil.lower_first]; [split; reflexivity |].
  unfold Views.allAlnum in *. cbn [list_ascii_of_string forallb Views.startsUpper] in *.
  apply andb_prop in Hall. destruct Hall as [Hc Hrest].
  unfold lower_char at 1 2. destruct (is_upper c) eqn:Hup.
  - destruct (lower_char_of_upper c Hup) as [H1 H2].
    unfold lower_char in H1, H2. rewrite Hup in H1, H2.
    rewrite H2, Hrest, H1. split; reflexivity.
  - rewrite Hc, Hrest, Hup. split; reflexivity.
Qed.

End DesignNames.

(* ================================================================= *)
(** ** Shape of a normalised design tree *)

Section DesignTree.

Import Format.






Lemma mapChildren_eraseIds
    (f : Pencil.PencilNode -> nat -> Rng -> StandardElement * Rng)
    (cs : list Pencil.PencilNode) :
  Forall (fun c => forall idx g1 g2,
            Views.eraseIds (fst (f c idx g1)) = Views.eraseIds (fst (f c idx g2))) cs ->
  forall idx g1 g2,
    map Views.eraseIds (fst (Pencil.mapChildren f cs idx g1))
    = map Views.eraseIds (fst (Pencil.mapChildren f cs idx g2)).
Proof.
  induction 1 as [| c rest Hc _ IH]; intros idx g1 g2; cbn [Pencil.mapChildren].
  - reflexivity.
  - specialize (Hc idx g1 g2).
    destruct (f c idx g1) as [e1 r1]. destruct (f c idx g2) as [e2 r2].
    specialize (IH (S idx) r1 r2).
    destruct (Pencil.mapChildren f rest (S idx) r1) as [es1 q1].
    destruct (Pencil.mapChildren f rest (S idx) r2) as [es2 q2].
    cbn in *. rewrite Hc, IH. reflexivity.
Qed.

Lemma normalizePencilNode_eraseIds (node : Pencil.PencilNode) :
  forall parentPath index rng1 rng2,
    Views.eraseIds (fst (Pencil.normalizePencilNode node parentPath index rng1))
    = Views.eraseIds (fst (Pencil.normalizePencilNode node parentPath index rng2)).
Proof.
  induction node as [node IH] using PencilNode_induction.
  intros parentPath index rng1 rng2. rewrite !normalizePencilNode_unfold. cbv zeta.
  destruct (match Pencil.nodeId node with
            | Some i => if str_truthy i then (i, rng1) else _
            | None => _
            end) as [id1 r1].
  destruct (match Pencil.nodeId node with
            | Some i => if str_truthy i then (i, rng2) else _
            | None => _
            end) as [id2 r2].
  destruct (Pencil.isIndependentNode node); [reflexivity |].
  destruct (Pencil.nodeChildren node) as [[| child rest] |]; try reflexivity.
  cbn [Stated.childrenAll] in IH.
  set (cur := Path.buildPath parentPath (Pencil.normalizedName node) index).
  pose proof (mapChildren_eraseIds
                (fun c idx g => Pencil.normalizePencilNode c cur idx g)
                (child :: rest)) as Hk.
  specialize (Hk (Forall_impl _ (fun c Hc idx g1 g2 => Hc cur idx g1 g2) IH) 0 r1 r2).
  destruct (Pencil.mapChildren _ (child :: rest) 0 r1) as [es1 q1].
  destruct (Pencil.mapChildren _ (child :: rest) 0 r2) as [es2 q2].
  cbn [fst] in *. cbn [Views.eraseIds children type path content styles layout metadata].
  fold Views.eraseIds. rewrite Hk. reflexivity.
Qed.

(** X17: the random numbers drawn during normalisation of a design frame
    reach nothing but the generated identifiers: two runs on the same frame
    give trees that agree on every path, kind, content, style, layout,
    metadata and on their whole structure. *)
Theorem normalizePencilFrame_random_only_in_ids (frame : Pencil.PencilFrame)
    (rng1 rng2 : Rng) :
  map Views.eraseIds (fst (Pencil.normalizePencilFrame frame rng1))
  = map Views.eraseIds (fst (Pencil.normalizePencilFrame frame rng2)).
Proof.
  unfold Pencil.normalizePencilFrame. cbv zeta.
  destruct (Pencil.frameChildren frame) as [cs |]; [| reflexivity].
  pose proof (mapChildren_eraseIds
                (fun c idx g => Pencil.normalizePencilNode c (Pencil.frameName frame) idx g)
                cs) as Hk.
  assert (Hall : Forall (fun c => forall idx g1 g2,
                  Views.eraseIds (fst (Pencil.normalizePencilNode c (Pencil.frameName frame) idx g1))
                  = Views.eraseIds (fst (Pencil.normalizePencilNode c (Pencil.frameName frame) idx g2))) cs).
  { apply Forall_forall. intros c _ idx g1 g2. apply normalizePencilNode_eraseIds. }
  specialize (Hk Hall 0 rng1 rng2).
  destruct (Pencil.mapChildren _ cs 0 rng1) as [es1 q1].
  destruct (Pencil.mapChildren _ cs 0 rng2) as [es2 q2].
  cbn [fst map] in *. cbn [Views.eraseIds children type path content styles layout metadata].
  fold Views.eraseIds. rewrite Hk. reflexivity.
Qed.

Lemma mapPencilTypeToStandard_kind (pencilType : string) :
  Views.isDesignKind (Pencil.mapPencilTypeToStandard pencilType) = true.
Proof.
  unfold Pencil.mapPencilTypeToStandard. cbn [dict_get].
  repeat match goal with
         | |- context [String.eqb ?a ?b] => destruct (String.eqb a b); [reflexivity |]
         end.
  reflexivity.
Qed.

Lemma mapChildren_forall (P : StandardElement -> Prop)
    (f : Pencil.PencilNode -> nat -> Rng -> StandardElement * Rng)
    (cs : list Pencil.PencilNode) :
  Forall (fun c => forall idx g, Forall P (Views.nodes (fst (f c idx g)))) cs ->
  forall idx g, Forall P (flat_map Views.nodes (fst (Pencil.mapChildren f cs idx g))).
Proof.
  induction 1 as [| c rest Hc _ IH]; intros idx g; cbn [Pencil.mapChildren].
  - constructor.
  - specialize (Hc idx g). destruct (f c idx g) as [e r1].
    specialize (IH (S idx) r1).
    destruct (Pencil.mapChildren f rest (S idx) r1) as [es r2].
    cbn [fst flat_map] in *. apply Forall_app. split; assumption.
Qed.

Lemma normalizePencilNode_kinds (node : Pencil.PencilNode) :
  forall parentPath index rng,
    Forall (fun e => Views.isDesignKind (type e) = true)
           (Views.nodes (fst (Pencil.normalizePencilNode node parentPath index rng))).
Proof.
  induction node as [node IH] using PencilNode_induction.
  intros parentPath index rng. rewrite normalizePencilNode_unfold. cbv zeta.
  destruct (match Pencil.nodeId node with
            | Some i => if str_truthy i then (i, rng) else _
            | None => _
            end) as [elementId rng1].
  pose proof (mapPencilTypeToStandard_kind (Pencil.nodeType node)) as Hk.
  destruct (Pencil.isIndependentNode node);
    [constructor; [exact Hk | constructor] |].
  destruct (Pencil.nodeChildren node) as [[| child rest] |];
    try (constructor; [exact Hk | constructor]).
  cbn [Stated.childrenAll] in IH.
  set (cur := Path.buildPath parentPath (Pencil.normalizedName node) index).
  pose proof (mapChildren_forall (fun e => Views.isDesignKind (type e) = true)
                (fun c idx g => Pencil.normalizePencilNode c cur idx g)
                (child :: rest)
                (Forall_impl _ (fun c Hc idx g => Hc cur idx g) IH) 0 rng1) as Hkids.
  destruct (Pencil.mapChildren _ (child :: rest) 0 rng1) as [es q].
  cbn [fst Views.nodes children] in *. constructor; [exact Hk | exact Hkids].
Qed.

(** X18: no element of a normalised design frame is a button or an input:
    for a frame in which no node has a type that is a name inherited from
    [Object.prototype], the design side only produces texts, containers,
    icons and images.  The type table is a plain object, in which such a
    name finds the inherited member instead of a kind; the hypothesis leaves
    these types out. *)
Theorem normalizePencilFrame_kinds (frame : Pencil.PencilFrame) (rng : Rng) :
  Views.frameTypesOwn frame = true ->
  Forall (fun e => Views.isDesignKind (type e) = true)
         (Views.forestNodes (fst (Pencil.normalizePencilFrame frame rng))).
Proof.
  intros _.
  unfold Pencil.normalizePencilFrame, Views.forestNodes. cbv zeta.
  destruct (Pencil.frameChildren frame) as [cs |].
  - pose proof (mapChildren_forall (fun e => Views.isDesignKind (type e) = true)
                  (fun c idx g => Pencil.normalizePencilNode c (Pencil.frameName frame) idx g)
                  cs) as Hkids.
    assert (Hall : Forall (fun c => forall idx g,
                Forall (fun e => Views.isDesignKind (type e) = true)
                  (Views.nodes (fst (Pencil.normalizePencilNode c (Pencil.frameName frame) idx g)))) cs).
    { apply Forall_forall. intros c _ idx g. apply normalizePencilNode_kinds. }
    specialize (Hkids Hall 0 rng).
    destruct (Pencil.mapChildren _ cs 0 rng) as [es q].
    cbn [fst flat_map Views.nodes children type] in *. rewrite app_nil_r.
    constructor; [reflexivity | exact Hkids].
  - cbn. constructor; [reflexivity | constructor].
Qed.

Lemma normalizePencilFrame_kinds_witness :
  Forall (fun e => Views.isDesignKind (type e) = true)
         (Views.forestNodes (fst (Pencil.normalizePencilFrame Examples.cardFrame
                                    Examples.rng0)))
  /\ List.length (Views.forestNodes (fst (Pencil.normalizePencilFrame Examples.cardFrame
                                            Examples.rng0))) = 4.
Proof.
  split.
  - apply (normalizePencilFrame_kinds Examples.cardFrame Examples.rng0). reflexivity.
  - reflexivity.
Defined.

End DesignTree.

(* ================================================================= *)
(** ** Strokes of a design node *)

Section Strokes.

Lemma get_set_if_defined_other (s : StyleProperties) (k k' : string) (v : JsValue) :
  String.eqb k k' = false ->
  dict_get (Pencil.set_if_defined s k v) k' = dict_get s k'.
Proof.
  intros Hk. unfold Pencil.set_if_defined, style_set.
  destruct (is_undefined v); [reflexivity |].
  rewrite dict_get_set, Hk. reflexivity.
Qed.

Lemma get_style_set_other (s : StyleProperties) (k k' : string) (v : JsValue) :
  String.eqb k k' = false ->
  dict_get (style_set s k v) k' = dict_get s k'.
Proof. intros Hk. unfold style_set. rewrite dict_get_set, Hk. reflexivity. Qed.

Ltac skip_other_keys :=
  repeat (first [ rewrite get_set_if_defined_other by reflexivity
                | rewrite get_style_set_other by reflexivity ]).

Lemma border_of_styles (node : Pencil.PencilNode) :
  let styles := Pencil.extractPencilStyles node in
  let visible :=
    match Views.strokeColorOf node with
    | Some _ => negb (Pencil.isInvisibleStroke node (Views.backgroundOf node))
    | None => false
    end in
  dict_get styles "borderColor"
  = (if visible then option_map JStr (Views.strokeColorOf node) else None)
  /\ dict_get styles "borderWidth"
     = (if visible then option_map Pencil.thickness (Pencil.stroke node) else None).
Proof.
  cbv zeta. unfold Pencil.extractPencilStyles, Views.strokeColorOf, Views.backgroundOf.
  cbv zeta.
  destruct (Pencil.fill node) as [f |];
    [destruct (String.eqb (Pencil.nodeType node) "text") eqn:Htext;
     [| destruct (String.eqb (Pencil.nodeType node) "frame"
                  || String.eqb (Pencil.nodeType node) "rectangle") eqn:Hbox] |].
  all: try (apply String.eqb_eq in Htext; rewrite Htext in *; cbn [String.eqb Ascii.eqb Bool.eqb orb]).
  all: destruct (Pencil.stroke node) as [st |] eqn:Hst;
    [destruct (Pencil.strokeFill st) as [sc |] eqn:Hsc |].
  all: try (destruct (Pencil.isInvisibleStroke node _) eqn:Hinv; cbn [negb]).
  all: split; skip_other_keys; unfold style_set; rewrite ?dict_get_set;
    cbn [String.eqb Ascii.eqb Bool.eqb andb option_map]; skip_other_keys;
    unfold style_set; rewrite ?dict_get_set;
    cbn [String.eqb Ascii.eqb Bool.eqb andb option_map];
    skip_other_keys; try reflexivity.
Qed.

(** X19: the styles extracted from a design node have a border colour and a
    border width exactly when the node has a stroke colour that
    [isInvisibleStroke] does not find invisible against the node's
    background; they are then the colour and the thickness of the stroke. *)
Theorem extractPencilStyles_border (node : Pencil.PencilNode) :
  let styles := Pencil.extractPencilStyles node in
  let visible :=
    match Views.strokeColorOf node with
    | Some _ => negb (Pencil.isInvisibleStroke node (Views.backgroundOf node))
    | None => false
    end in
  dict_get styles "borderColor"
  = (if visible then option_map JStr (Views.strokeColorOf node) else None)
  /\ dict_get styles "borderWidth"
     = (if visible then option_map Pencil.thickness (Pencil.stroke node) else None).
Proof. exact (border_of_styles node). Qed.

(** X20: a frame or rectangle whose stroke has exactly the colour of its fill
    gets no border at all. *)
Theorem stroke_in_background_colour_dropped (node : Pencil.PencilNode) (c : string) :
  Views.backgroundOf node = Some c ->
  Views.strokeColorOf node = Some c ->
  c <> EmptyString ->
  dict_get (Pencil.extractPencilStyles node) "borderColor" = None
  /\ dict_get (Pencil.extractPencilStyles node) "borderWidth" = None.
Proof.
  intros Hbg Hsc Hc.
  destruct (border_of_styles node) as [H1 H2]. cbv zeta in H1, H2.
  rewrite H1, H2, Hsc, Hbg.
  assert (Hinv : Pencil.isInvisibleStroke node (Some c) = true).
  { unfold Pencil.isInvisibleStroke. unfold Views.strokeColorOf in Hsc.
    destruct (Pencil.stroke node) as [st |]; [| discriminate].
    rewrite Hsc.
    destruct c as [| a rest]; [contradiction |].
    cbn [str_truthy negb]. rewrite String.eqb_refl.
    cbn [andb]. rewrite orb_true_r. reflexivity. }
  rewrite Hinv. split; reflexivity.
Qed.

Lemma stroke_in_background_colour_dropped_witness :
  dict_get (Pencil.extractPencilStyles Examples.outlinedNode) "borderColor" = None
  /\ dict_get (Pencil.extractPencilStyles Examples.outlinedNode) "borderWidth" = None.
Proof.
  apply (stroke_in_background_colour_dropped Examples.outlinedNode "#FFFFFF");
    [reflexivity | reflexivity | discriminate].
Defined.

End Strokes.

(* ================================================================= *)
(** ** Shape of an extracted markup tree *)

Section MarkupTree.

Import Format.

(** What holds of every extracted child at its index holds of every element
    of the collected list at its position. *)
Lemma collectChildren_positions (P : nat -> StandardElement -> Prop)
    (extract : Ast.JSXElement -> nat -> Rng -> option StandardElement * Rng)
    (cs : list Ast.JSXChild) :
  (forall child idx g e r,
      In (Ast.JSXChildElement child) cs -> extract child idx g = (Some e, r) -> P idx e) ->
  forall acc rng,
    (forall i e, nth_error acc i = Some e -> P i e) ->
    forall i e,
      nth_error (fst (Code.collectChildren extract cs acc rng)) i = Some e -> P i e.
Proof.
  induction cs as [| c rest IH]; intros Hex acc rng Hacc; cbn [Code.collectChildren].
  - exact Hacc.
  - assert (Hrest : forall child idx g e r,
               In (Ast.JSXChildElement child) rest ->
               extract child idx g = (Some e, r) -> P idx e).
    { intros child idx g e r Hin. apply (Hex child idx g e r). right. exact Hin. }
    destruct c as [? | ? | child |]; try (apply IH; assumption).
    destruct (extract child (List.length acc) rng) as [[el |] rng1] eqn:Hel.
    + apply IH; [exact Hrest |].
      intros i e Hnth.
      destruct (Nat.lt_ge_cases i (List.length acc)) as [Hlt | Hge].
      * rewrite nth_error_app1 in Hnth by exact Hlt. apply Hacc. exact Hnth.
      * rewrite nth_error_app2 in Hnth by exact Hge.
        destruct (i - List.length acc) as [| j] eqn:Hj; cbn in Hnth.
        -- injection Hnth as <-.
           replace i with (List.length acc) by lia.
           apply (Hex child (List.length acc) rng el rng1); [left; reflexivity | exact Hel].
        -- destruct j; discriminate.
    + apply IH; assumption.
Qed.

Lemma extractJSXElement_path (node : Ast.JSXElement) (context : Code.ExtractionContext)
    (childIndex : nat) (rng : Rng) (e : StandardElement) (rng' : Rng) :
  Code.extractJSXElement node context childIndex rng = (Some e, rng') ->
  path e = Code.buildElementPath (Code.getTagName (Ast.openingOf node))
             (Code.extractClassNames (Ast.openingOf node))
             (Code.currentPath context) childIndex.
Proof.
  destruct node as [opening cs]. cbn [Code.extractJSXElement Ast.openingOf].
  destruct (negb (str_truthy (Code.getTagName opening))); [discriminate |].
  cbv zeta.
  destruct (if IndependentComponents.isIndependentComponent (Code.getTagName opening)
            then _ else _) as [kids rng1].
  destruct (generateId (Code.getTagName opening) rng1) as [elementId rng2].
  intros H. injection H as <- _. reflexivity.
Qed.

(** X21: the children of an extracted markup element are numbered by their
    position among the children that were kept: the [i]-th child of the
    result has the path built from the path of its parent and the index [i],
    also when texts, expressions or elements without a tag name stand
    between the child elements in the markup. *)
Theorem extractJSXElement_children (node : Ast.JSXElement)
    (context : Code.ExtractionContext) (childIndex : nat) (rng : Rng)
    (e : StandardElement) (rng' : Rng) :
  Code.extractJSXElement node context childIndex rng = (Some e, rng') ->
  forall i k,
    nth_error (Views.kids e) i = Some k ->
    exists child,
      In (Ast.JSXChildElement child) (Ast.childrenOf node)
      /\ path k = Code.buildElementPath (Code.getTagName (Ast.openingOf child))
                    (Code.extractClassNames (Ast.openingOf child)) (path e) i.
Proof.
  intros Hrun. pose proof (extractJSXElement_path _ _ _ _ _ _ Hrun) as Hpath.
  destruct node as [opening cs]. cbn [Code.extractJSXElement Ast.openingOf Ast.childrenOf] in *.
  destruct (negb (str_truthy (Code.getTagName opening))); [discriminate |].
  cbv zeta in Hrun.
  set (cur := Code.buildElementPath (Code.getTagName opening)
                (Code.extractClassNames opening) (Code.currentPath context) childIndex) in *.
  set (ctx := Code.mkContext (Code.cssStyles context) cur
                (Some (Code.getTagName opening)) (Code.index context)) in *.
  set (f := fun child idx g => Code.extractJSXElement child ctx idx g) in *.
  pose proof (collectChildren_positions
                (fun i k => exists child,
                     In (Ast.JSXChildElement child) cs
                     /\ path k = Code.buildElementPath
                                   (Code.getTagName (Ast.openingOf child))
                                   (Code.extractClassNames (Ast.openingOf child)) cur i)
                f cs) as Hpos.
  cbv beta in Hpos.
  assert (Hex : forall child idx g el r,
             In (Ast.JSXChildElement child) cs -> f child idx g = (Some el, r) ->
             exists child0,
               In (Ast.JSXChildElement child0) cs
               /\ path el = Code.buildElementPath
                              (Code.getTagName (Ast.openingOf child0))
                              (Code.extractClassNames (Ast.openingOf child0)) cur idx).
  { intros child idx g el r Hin Hel. exists child. split; [exact Hin |].
    subst f. cbv beta in Hel. apply (extractJSXElement_path _ _ _ _ _ _ Hel). }
  specialize (Hpos Hex [] rng).
  assert (Hnil : forall i el, nth_error (@nil StandardElement) i = Some el ->
             exists child0,
               In (Ast.JSXChildElement child0) cs
               /\ path el = Code.buildElementPath
                              (Code.getTagName (Ast.openingOf child0))
                              (Code.extractClassNames (Ast.openingOf child0)) cur i).
  { intros [| i] el H; discriminate. }
  specialize (Hpos Hnil).
  destruct (IndependentComponents.isIndependentComponent (Code.getTagName opening)).
  - destruct (generateId (Code.getTagName opening) rng) as [elementId rng2].
    injection Hrun as <- _. cbn. intros [| i] k H; discriminate.
  - destruct (Code.collectChildren f cs [] rng) as [kids rng1].
    destruct (generateId (Code.getTagName opening) rng1) as [elementId rng2].
    injection Hrun as <- _. cbn [fst] in Hpos.
    unfold Views.kids. cbn [children path].
    destruct kids as [| k0 ks]; [intros [| i] k H; discriminate |].
    exact Hpos.
Qed.

Lemma extractJSXElement_children_witness :
  exists e rng',
    Code.extractJSXElement Examples.cardMarkup Examples.rootContext 0 Examples.rng0
    = (Some e, rng')
    /\ List.length (Views.kids e) = 2
    /\ forall i k,
         nth_error (Views.kids e) i = Some k ->
         exists child,
           In (Ast.JSXChildElement child) (Ast.childrenOf Examples.cardMarkup)
           /\ path k = Code.buildElementPath (Code.getTagName (Ast.openingOf child))
                         (Code.extractClassNames (Ast.openingOf child)) (path e) i.
Proof.
  eexists. eexists. split; [vm_compute; reflexivity |]. split; [reflexivity |].
  eapply (extractJSXElement_children Examples.cardMarkup Examples.rootContext 0
            Examples.rng0).
  vm_compute. reflexivity.
Defined.

End MarkupTree.

(* ================================================================= *)
(** ** Styles of the markup *)

Section MarkupStyles.

Import Format.

Lemma style_assign_get (target source : StyleProperties) (k : string) :
  dict_get (style_assign target source) k
  = if existsb (String.eqb k) (dict_keys source)
    then Some (style_get source k) else dict_get target k.
Proof.
  unfold style_assign. generalize (dict_keys source) as ks. intros ks. revert target.
  induction ks as [| p rest IH]; intros target; cbn [fold_left existsb].
  - reflexivity.
  - rewrite IH. unfold style_set. rewrite dict_get_set.
    destruct (existsb (String.eqb k) rest); [rewrite orb_true_r; reflexivity |].
    rewrite orb_false_r, (String.eqb_sym k p).
    destruct (String.eqb p k) eqn:E; [| reflexivity].
    apply String.eqb_eq in E. subst p. reflexivity.
Qed.

Lemma fold_left_snoc {A B : Type} (f : A -> B -> A) (xs : list B) (x : B) (a : A) :
  fold_left f (xs ++ [x]) a = f (fold_left f xs a) x.
Proof. rewrite fold_left_app. reflexivity. Qed.

(** X22: attributes are applied in the order they are written, so a class
    written after an inline style overrides it: when the last attribute is
    [className={styles.c}] and the stylesheet knows [c], every property the
    class sets has the value of the class, whatever the attributes before
    set. *)
Theorem extractStyleFromProps_later_class_overrides
    (cssStyles : Code.StyleMap) (tag : Ast.JSXName) (before : list Ast.JSXAttr)
    (object : Ast.Expr) (className : string) (classStyles : StyleProperties)
    (prop : string) :
  dict_get cssStyles className = Some classStyles ->
  In prop (dict_keys classStyles) ->
  style_get
    (Code.extractStyleFromProps
       (Ast.mkOpening tag
          (before ++ [Ast.JSXAttribute (Some "className")
                        (Some (Ast.AttrExpressionContainer
                                 (Ast.MemberExpression object
                                    (Ast.Identifier className))))]))
       cssStyles) prop
  = style_get classStyles prop.
Proof.
  intros Hclass Hprop. unfold Code.extractStyleFromProps. cbn [Ast.attributes].
  rewrite fold_left_snoc. cbn [Code.styleOfAttr]. rewrite Hclass.
  unfold style_get at 1. rewrite style_assign_get.
  assert (Hin : existsb (String.eqb prop) (dict_keys classStyles) = true).
  { apply existsb_exists. exists prop. split; [exact Hprop | apply String.eqb_refl]. }
  rewrite Hin. reflexivity.
Qed.

Lemma extractStyleFromProps_later_class_overrides_witness :
  style_get (Code.extractStyleFromProps Examples.styleThenClassOpening Examples.stylesheet)
            "fontSize"
  = JNum 16.
Proof.
  exact (extractStyleFromProps_later_class_overrides Examples.stylesheet
           (Ast.JSXIdentifier "div")
           [Ast.JSXAttribute (Some "style")
              (Some (Ast.AttrExpressionContainer
                       (Ast.ObjectExpression
                          [Some (Ast.Identifier "fontSize", Ast.NumericLiteral 12)])))]
           (Ast.Identifier "styles") "card" [("fontSize", JNum 16)] "fontSize"
           eq_refl (or_introl eq_refl)).
Defined.

End MarkupStyles.

(* ================================================================= *)
(** ** Detection of hook callbacks *)

Section HookCallbacks.




(** The callback of a hook called through a member expression is not
    detected. *)
Example member_hook_not_detected :
  Code.isInsideHookCallback Examples.memberHookPath = false.
Proof. reflexivity. Qed.

End HookCallbacks.

(* ================================================================= *)
(** ** Property names in camel case and kebab case *)

Section Cases.

Import Format.

Lemma upper_of_lower (d : ascii) :
  is_lower d = true ->
  is_lower (upper_char d) = false
  /\ Ascii.eqb (upper_char d) "-" = false
  /\ lower_char (upper_char d) = d.
Proof.
  destruct d as [b0 b1 b2 b3 b4 b5 b6 b7].
  destruct b0, b1, b2, b3, b4, b5, b6, b7; cbn; intros H;
    try discriminate; repeat split; reflexivity.
Qed.

Lemma lower_of_upper (d : ascii) :
  is_upper d = true ->
  is_lower (lower_char d) = true /\ upper_char (lower_char d) = d.
Proof.
  destruct d as [b0 b1 b2 b3 b4 b5 b6 b7].
  destruct b0, b1, b2, b3, b4, b5, b6, b7; cbn; intros H;
    try discriminate; split; reflexivity.
Qed.

Lemma lower_is_no_hyphen (c : ascii) : is_lower c = true -> Ascii.eqb c "-" = false.
Proof.
  destruct c as [b0 b1 b2 b3 b4 b5 b6 b7].
  destruct b0, b1, b2, b3, b4, b5, b6, b7; cbn; intros H;
    try discriminate; reflexivity.
Qed.

Lemma camelCase_cons (c d : ascii) (rest : string) :
  camelCase (String c (String d rest))
  = if Ascii.eqb c "-" && is_lower d
    then String (upper_char d) (camelCase rest)
    else String c (camelCase (String d rest)).
Proof. reflexivity. Qed.

Lemma kebabCase_cons (c d : ascii) (rest : string) :
  kebabCase (String c (String d rest))
  = if is_lower c && is_upper d
    then String c (String "-" (String (lower_char d) (kebabCase rest)))
    else String c (kebabCase (String d rest)).
Proof. reflexivity. Qed.

Lemma camelCase_fixed (s : string) :
  Views.noHyphenBeforeLower s = true -> camelCase s = s.
Proof.
  induction s as [| c rest IH]; [reflexivity |].
  destruct rest as [| d rest']; [reflexivity |].
  intros H. cbn [Views.noHyphenBeforeLower] in H. apply andb_prop in H.
  destruct H as [Hpair Hrest]. rewrite camelCase_cons.
  apply negb_true_iff in Hpair. rewrite Hpair. f_equal. apply IH. exact Hrest.
Qed.

(** The first character of a string in camel case is not a lower-case letter
    unless it is the first character of the original. *)
Lemma camelCase_head (n : nat) :
  forall s, String.length s <= n ->
    Views.noHyphenBeforeLower (camelCase s) = true
    /\ match s, camelCase s with
       | String c _, String x _ => x = c \/ is_lower x = false
       | EmptyString, EmptyString => True
       | _, _ => False
       end.
Proof.
  induction n as [| n IH]; intros s Hlen.
  - destruct s; [split; [reflexivity | exact I] | cbn in Hlen; lia].
  - destruct s as [| c rest]; [split; [reflexivity | exact I] |].
    destruct rest as [| d rest']; [split; [reflexivity | left; reflexivity] |].
    cbn [String.length] in Hlen. rewrite camelCase_cons.
    destruct (Ascii.eqb c "-" && is_lower d) eqn:Hpair.
    + apply andb_prop in Hpair. destruct Hpair as [_ Hd].
      destruct (upper_of_lower d Hd) as (Hup & Hhy & _).
      destruct (IH rest' ltac:(lia)) as [Hno _].
      split; [| right; exact Hup].
      cbn [Views.noHyphenBeforeLower]. rewrite Hno, Hhy.
      destruct (camelCase rest'); reflexivity.
    + destruct (IH (String d rest') ltac:(cbn [String.length]; lia)) as [Hno Hhead].
      split; [| left; reflexivity].
      cbn [Views.noHyphenBeforeLower]. rewrite Hno.
      destruct (camelCase (String d rest')) as [| x t]; [reflexivity |].
      destruct Hhead as [-> | Hx].
      * rewrite Hpair. reflexivity.
      * rewrite Hx, andb_false_r. reflexivity.
Qed.

(** X24: [camelCase] is idempotent: a name in camel case is left as it is. *)
Theorem camelCase_idempotent (str : string) :
  camelCase (camelCase str) = camelCase str.
Proof.
  apply camelCase_fixed.
  apply (camelCase_head (String.length str) str (Nat.le_refl _)).
Qed.

Lemma kebabCase_head (c : ascii) (rest : string) :
  exists t, kebabCase (String c rest) = String c t.
Proof.
  destruct rest as [| d rest']; [exists EmptyString; reflexivity |].
  rewrite kebabCase_cons. destruct (is_lower c && is_upper d); eexists; reflexivity.
Qed.

Lemma camelCase_kebabCase_bounded (n : nat) :
  forall s, String.length s <= n ->
    Views.noHyphenBeforeLower s = true -> camelCase (kebabCase s) = s.
Proof.
  induction n as [| n IH]; intros s Hlen Hno.
  - destruct s; [reflexivity | cbn in Hlen; lia].
  - destruct s as [| c rest]; [reflexivity |].
    destruct rest as [| d rest']; [reflexivity |].
    cbn [String.length] in Hlen. cbn [Views.noHyphenBeforeLower] in Hno.
    apply andb_prop in Hno. destruct Hno as [Hpair Hrest].
    apply negb_true_iff in Hpair.
    rewrite kebabCase_cons.
    destruct (is_lower c && is_upper d) eqn:Hcase.
    + apply andb_prop in Hcase. destruct Hcase as [Hc Hd].
      destruct (lower_of_upper d Hd) as [Hlow Hback].
      rewrite camelCase_cons, (lower_is_no_hyphen c Hc). cbn [andb].
      rewrite camelCase_cons. cbn [Ascii.eqb Bool.eqb andb]. rewrite Hlow, Hback.
      f_equal. f_equal. apply IH; [lia |].
      destruct rest' as [| e rest'']; [reflexivity |].
      cbn [Views.noHyphenBeforeLower] in Hrest. apply andb_prop in Hrest.
      exact (proj2 Hrest).
    + pose proof (IH (String d rest') ltac:(cbn [String.length]; lia) Hrest) as Hind.
      destruct (kebabCase_head d rest') as [t Ht]. rewrite Ht in *.
      rewrite camelCase_cons, Hpair, Hind. reflexivity.
Qed.

(** X25: [camelCase] undoes [kebabCase] on every name in which no hyphen
    stands directly before a lower-case letter, in particular on every name
    without a hyphen. *)
Theorem camelCase_kebabCase (str : string) :
  Views.noHyphenBeforeLower str = true ->
  camelCase (kebabCase str) = str.
Proof. apply (camelCase_kebabCase_bounded (String.length str) str (Nat.le_refl _)). Qed.

Lemma camelCase_kebabCase_witness :
  kebabCase "borderTopWidth" = "border-top-width"
  /\ camelCase (kebabCase "borderTopWidth") = "borderTopWidth".
Proof.
  split; [reflexivity | apply (camelCase_kebabCase "borderTopWidth"); reflexivity].
Defined.

End Cases.

(* ================================================================= *)
(** ** Taking a path apart *)

Section PathParts.

Lemma lastIndexOf_from_absent (sep s : string) :
  Views.noOccurrence sep s = true ->
  forall i found, Path.lastIndexOf_from sep s i found = found.
Proof.
  induction s as [| c rest IH]; cbn [Views.noOccurrence Path.lastIndexOf_from];
    intros H i found; apply andb_prop in H; destruct H as [Hhere Hrest];
    apply negb_true_iff in Hhere; rewrite Hhere.
  - reflexivity.
  - apply IH. exact Hrest.
Qed.

(** The last occurrence is the one after which there is no other. *)
Lemma lastIndexOf_from_last (sep before : string) :
  forall after i found,
    String.prefix sep after = true ->
    match after with
    | String _ rest => Views.noOccurrence sep rest = true
    | EmptyString => True
    end ->
    Path.lastIndexOf_from sep (before ++ after) i found
    = Some (i + String.length before).
Proof.
  induction before as [| c rest IH]; intros after i found Hhere Hafter.
  - cbn [append String.length]. rewrite Nat.add_0_r.
    destruct after as [| x t]; cbn [Path.lastIndexOf_from]; rewrite Hhere.
    + reflexivity.
    + apply lastIndexOf_from_absent. exact Hafter.
  - cbn [append Path.lastIndexOf_from String.length].
    rewrite (IH after (S i) _ Hhere Hafter). f_equal. lia.
Qed.

Lemma string_of_uint_digits (u : Decimal.uint) :
  forallb is_digit (list_ascii_of_string (NilEmpty.string_of_uint u)) = true.
Proof. induction u; cbn; auto. Qed.

(** A separator cannot occur in a string that lacks its second character. *)
Lemma noOccurrence_separator (s : string) :
  Views.noSeparatorChar s = true ->
  Views.noOccurrence " > " s = true /\ String.prefix "> " s = false.
Proof.
  unfold Views.noSeparatorChar.
  induction s as [| c rest IH]; [intros _; split; reflexivity |].
  cbn [list_ascii_of_string forallb]. intros H. apply andb_prop in H.
  destruct H as [Hc Hrest]. destruct (IH Hrest) as [Hno Hpre].
  apply negb_true_iff in Hc.
  split.
  - cbn [Views.noOccurrence]. rewrite Hno, andb_true_r.
    cbn [String.prefix]. destruct (ascii_dec " " c) as [<- | Hne]; [| reflexivity].
    rewrite Hpre. reflexivity.
  - cbn [String.prefix]. destruct (ascii_dec ">" c) as [<- | Hne]; [| reflexivity].
    discriminate.
Qed.

Lemma noOccurrence_bracket (s : string) :
  Views.noBracket s = true -> Views.noOccurrence "[" s = true.
Proof.
  unfold Views.noBracket.
  induction s as [| c rest IH]; [intros _; reflexivity |].
  cbn [list_ascii_of_string forallb]. intros H. apply andb_prop in H.
  destruct H as [Hc Hrest]. apply negb_true_iff in Hc.
  cbn [Views.noOccurrence]. rewrite (IH Hrest), andb_true_r.
  cbn [String.prefix]. destruct (ascii_dec "[" c) as [<- | Hne]; [discriminate |].
  reflexivity.
Qed.

Lemma digits_without (x : ascii) (s : string) :
  is_digit x = false ->
  forallb is_digit (list_ascii_of_string s) = true ->
  forallb (fun c => negb (Ascii.eqb c x)) (list_ascii_of_string s) = true.
Proof.
  intros Hx. induction s as [| c rest IH]; [reflexivity |].
  cbn [list_ascii_of_string forallb]. intros H. apply andb_prop in H.
  destruct H as [Hc Hrest]. rewrite (IH Hrest), andb_true_r.
  destruct (Ascii.eqb c x) eqn:E; [| reflexivity].
  apply Ascii.eqb_eq in E. subst c. congruence.
Qed.

Lemma forallb_string_app (p : ascii -> bool) (a b : string) :
  forallb p (list_ascii_of_string (a ++ b))
  = forallb p (list_ascii_of_string a) && forallb p (list_ascii_of_string b).
Proof.
  induction a as [| c rest IH]; [reflexivity |].
  cbn [append list_ascii_of_string forallb]. rewrite IH, andb_assoc. reflexivity.
Qed.

Lemma substring_middle (a n b : string) :
  String.substring (String.length a) (String.length n) (a ++ n ++ b) = n.
Proof.
  induction a as [| c rest IH]; cbn [append String.length String.substring].
  - induction n as [| d t IHn]; cbn [append String.length String.substring].
    + destruct b; reflexivity.
    + rewrite IHn. reflexivity.
  - exact IH.
Qed.

Lemma substring_front (a b : string) :
  String.substring 0 (String.length a) (a ++ b) = a.
Proof. apply (substring_middle EmptyString a b). Qed.

Lemma string_app_assoc (a b c : string) : ((a ++ b) ++ c = a ++ (b ++ c))%string.
Proof. induction a as [| x t IH]; cbn; [reflexivity | rewrite IH; reflexivity]. Qed.

Lemma string_app_length (a b : string) :
  String.length (a ++ b) = String.length a + String.length b.
Proof. induction a as [| x t IH]; cbn; [reflexivity | rewrite IH; reflexivity]. Qed.

Lemma prefix_app (a b : string) : String.prefix a (a ++ b) = true.
Proof.
  induction a as [| c rest IH]; cbn [append String.prefix].
  - destruct b; reflexivity.
  - destruct (ascii_dec c c) as [_ | Hne]; [exact IH | contradiction].
Qed.

Lemma noOccurrence_after_separator (s : string) :
  Views.noOccurrence " > " s = true ->
  String.prefix "> " s = false ->
  Views.noOccurrence " > " ("> " ++ s) = true.
Proof.
  intros Hno Hpre. cbn [append Views.noOccurrence]. rewrite Hno, andb_true_r.
  cbn [String.prefix].
  destruct (ascii_dec " " ">") as [Heq | _]; [discriminate |].
  destruct (ascii_dec " " " ") as [_ | Hne]; [| contradiction].
  cbn [String.prefix] in Hpre. rewrite Hpre. reflexivity.
Qed.

(** The text from the name on has no separator. *)
Lemma name_and_index_no_separator (name : string) (index : nat) :
  Views.noSeparatorChar name = true ->
  Views.noSeparatorChar (name ++ "[" ++ string_of_nat index ++ "]") = true.
Proof.
  intros Hname. unfold Views.noSeparatorChar in *.
  rewrite forallb_string_app, Hname. cbn [append list_ascii_of_string forallb andb].
  rewrite forallb_string_app.
  rewrite (digits_without ">" (string_of_nat index) eq_refl
             (string_of_uint_digits (Nat.to_uint index))).
  reflexivity.
Qed.

(** X26: [getParentPath] gives back the parent from which [buildPath] built
    a path, for every name without the character of the separator. *)
Theorem getParentPath_buildPath (parentPath name : string) (index : nat) :
  Views.noSeparatorChar name = true ->
  Path.getParentPath (Path.buildPath parentPath name index) = parentPath.
Proof.
  intros Hname. unfold Path.getParentPath, Path.buildPath, Path.lastIndexOf.
  destruct parentPath as [| c rest]; cbn [str_truthy negb].
  - rewrite lastIndexOf_from_absent; [reflexivity |].
    apply noOccurrence_separator. exact Hname.
  - set (parentPath := String c rest).
    destruct (noOccurrence_separator _ (name_and_index_no_separator name index Hname))
      as [Hno Hpre].
    rewrite (lastIndexOf_from_last Path.PATH_SEPARATOR parentPath).
    + unfold Path.substring. cbn [Nat.min Nat.max Nat.add Nat.sub].
      rewrite Nat.sub_0_r. apply substring_front.
    + apply prefix_app.
    + apply (noOccurrence_after_separator _ Hno Hpre).
Qed.

Lemma getParentPath_buildPath_witness :
  Path.getParentPath (Path.buildPath "header > actions[1]" "settingsButton" 0)
  = "header > actions[1]".
Proof. apply (getParentPath_buildPath "header > actions[1]" "settingsButton" 0). reflexivity. Defined.

(** X27: [getNameFromPath] gives back the name from which [buildPath] built
    a path, for every name without the character of the separator and
    without an opening bracket. *)
Theorem getNameFromPath_buildPath (parentPath name : string) (index : nat) :
  Views.noSeparatorChar name = true ->
  Views.noBracket name = true ->
  Path.getNameFromPath (Path.buildPath parentPath name index) = name.
Proof.
  intros Hname Hbracket. unfold Path.getNameFromPath, Path.buildPath, Path.lastIndexOf.
  destruct parentPath as [| c rest]; cbn [str_truthy negb].
  - rewrite !lastIndexOf_from_absent;
      [| apply noOccurrence_bracket; exact Hbracket
       | apply noOccurrence_separator; exact Hname].
    unfold Path.substring. cbn [Nat.min Nat.max]. rewrite Nat.sub_0_r.
    rewrite <- (substring_front name EmptyString) at 3.
    f_equal. induction name as [| x t IH]; cbn; [reflexivity |].
    f_equal.
    cbn [Views.noSeparatorChar Views.noBracket list_ascii_of_string forallb] in *.
    unfold Views.noSeparatorChar, Views.noBracket in *.
    cbn [list_ascii_of_string forallb] in Hname, Hbracket.
    apply andb_prop in Hname. apply andb_prop in Hbracket.
    apply IH; [exact (proj2 Hname) | exact (proj2 Hbracket)].
  - set (parentPath := String c rest).
    destruct (noOccurrence_separator _ (name_and_index_no_separator name index Hname))
      as [Hno Hpre].
    rewrite (lastIndexOf_from_last Path.PATH_SEPARATOR parentPath).
    + replace (parentPath ++ Path.PATH_SEPARATOR ++ name ++ "[" ++ string_of_nat index ++ "]")%string
        with ((parentPath ++ Path.PATH_SEPARATOR ++ name)
                ++ ("[" ++ string_of_nat index ++ "]"))%string
        by (rewrite !string_app_assoc; reflexivity).
      rewrite (lastIndexOf_from_last "[" (parentPath ++ Path.PATH_SEPARATOR ++ name)).
      * unfold Path.substring.
        rewrite !string_app_length.
        replace (Nat.min _ _) with (String.length (parentPath ++ Path.PATH_SEPARATOR))
          by (rewrite string_app_length; cbn [Nat.add]; lia).
        replace (Nat.max _ _ - _) with (String.length name)
          by (rewrite string_app_length; cbn [Nat.add]; lia).
        rewrite !string_app_assoc.
        rewrite <- (string_app_assoc parentPath Path.PATH_SEPARATOR).
        apply substring_middle.
      * apply (prefix_app "[").
      * apply noOccurrence_bracket. unfold Views.noBracket.
        rewrite forallb_string_app.
        rewrite (digits_without "[" (string_of_nat index) eq_refl
                   (string_of_uint_digits (Nat.to_uint index))).
        reflexivity.
    + apply prefix_app.
    + apply (noOccurrence_after_separator _ Hno Hpre).
Qed.

Lemma getNameFromPath_buildPath_witness :
  Path.getNameFromPath (Path.buildPath "header > actions[1]" "settingsButton" 0)
  = "settingsButton".
Proof.
  apply (getNameFromPath_buildPath "header > actions[1]" "settingsButton" 0); reflexivity.
Defined.

End PathParts.

(* ================================================================= *)
(** ** Values of the stylesheet *)

Section CssValues.

Import Format.

Lemma span_app (p : ascii -> bool) (a b : string) :
  forallb p (list_ascii_of_string a) = true ->
  match b with
  | String c _ => p c = false
  | EmptyString => True
  end ->
  span p (a ++ b) = (a, b).
Proof.
  intros Ha Hb. induction a as [| c rest IH]; cbn [append].
  - apply span_head_fails. exact Hb.
  - cbn [list_ascii_of_string forallb] in Ha. apply andb_prop in Ha.
    destruct Ha as [Hc Hrest]. cbn [span]. rewrite Hc, (IH Hrest). reflexivity.
Qed.

Lemma string_app_nil_r (s : string) : (s ++ EmptyString)%string = s.
Proof. induction s as [| c t IH]; cbn; [reflexivity | rewrite IH; reflexivity]. Qed.

(** X28: a value made of digits and dots becomes the number [parseFloat]
    reads from it, with or without the unit [px]; with the unit [rem], [em]
    or [%] the value stays the string it was. *)
Theorem convertCSSValue_units (num : string) :
  num <> EmptyString ->
  Views.allNumberChars num = true ->
  convertCSSValue num = JNum (parseFloatDigits num)
  /\ convertCSSValue (num ++ "px") = JNum (parseFloatDigits num)
  /\ convertCSSValue (num ++ "rem") = JStr (num ++ "rem")
  /\ convertCSSValue (num ++ "em") = JStr (num ++ "em")
  /\ convertCSSValue (num ++ "%") = JStr (num ++ "%").
Proof.
  intros Hne Hall. unfold Views.allNumberChars, Views.isNumberChar in Hall.
  assert (Hunit : forall unit,
             match unit with
             | String c _ => is_digit c || Ascii.eqb c "." = false
             | EmptyString => True
             end ->
             convertCSSValue (num ++ unit)
             = if String.eqb unit "" || String.eqb unit "px"
               then JNum (parseFloatDigits num) else JStr (num ++ unit)).
  { intros unit Hu. unfold convertCSSValue.
    rewrite (span_app _ num unit Hall Hu).
    destruct num; [contradiction | reflexivity]. }
  repeat split.
  - pose proof (Hunit EmptyString I) as Hplain.
    rewrite string_app_nil_r in Hplain. exact Hplain.
  - apply (Hunit "px"). reflexivity.
  - apply (Hunit "rem"). reflexivity.
  - apply (Hunit "em"). reflexivity.
  - apply (Hunit "%"). reflexivity.
Qed.

Lemma convertCSSValue_units_witness :
  convertCSSValue "16" = JNum (parseFloatDigits "16")
  /\ convertCSSValue "16px" = JNum (parseFloatDigits "16")
  /\ convertCSSValue "16rem" = JStr "16rem"
  /\ convertCSSValue "16em" = JStr "16em"
  /\ convertCSSValue "16%" = JStr "16%".
Proof. apply (convertCSSValue_units "16"); [discriminate | reflexivity]. Defined.

(** X29: a value that consists of dots only is taken for a number and
    becomes [NaN]. *)
Theorem convertCSSValue_dots (value : string) :
  value <> EmptyString ->
  Views.allDots value = true ->
  Views.isNaNValue (convertCSSValue value) = true.
Proof.
  intros Hne Hall. unfold Views.allDots in Hall.
  assert (Hnum : forallb (fun c => is_digit c || Ascii.eqb c ".")
                         (list_ascii_of_string value) = true).
  { clear Hne. induction value as [| c t IH]; [reflexivity |].
    cbn [list_ascii_of_string forallb] in *. apply andb_prop in Hall.
    destruct Hall as [Hc Ht]. rewrite Hc, orb_true_r, (IH Ht). reflexivity. }
  unfold convertCSSValue.
  pose proof (span_app _ value EmptyString Hnum I) as Hspan.
  rewrite string_app_nil_r in Hspan. rewrite Hspan.
  destruct value as [| c t]; [contradiction |].
  cbn [String.eqb orb]. cbn [list_ascii_of_string forallb] in Hall.
  apply andb_prop in Hall. destruct Hall as [Hc Ht].
  apply Ascii.eqb_eq in Hc. subst c.
  destruct t as [| d t']; [reflexivity |].
  cbn [list_ascii_of_string forallb] in Ht. apply andb_prop in Ht.
  destruct Ht as [Hd _]. apply Ascii.eqb_eq in Hd. subst d. reflexivity.
Qed.

Lemma convertCSSValue_dots_witness :
  Views.isNaNValue (convertCSSValue "..") = true.
Proof. apply (convertCSSValue_dots ".."); [discriminate | reflexivity]. Defined.

End CssValues.

(* ================================================================= *)
(** ** Brightness of a colour *)

Section Brightness.

(** X30: a string that is not a colour of six hexadecimal digits is never
    light, and therefore counts as dark. *)
Theorem unparsable_colour_is_dark (hex : string) :
  Color.hexToRgb hex = None ->
  Color.isLightColor hex = false /\ Color.isDarkColor hex = true.
Proof.
  intros Hnone. unfold Color.isDarkColor, Color.isLightColor. rewrite Hnone.
  split; reflexivity.
Qed.

Lemma unparsable_colour_is_dark_witness :
  Color.isLightColor "white" = false /\ Color.isDarkColor "white" = true.
Proof. apply (unparsable_colour_is_dark "white"). reflexivity. Defined.

End Brightness.
